(** * keramika-bot: booking store and reminder scheduler

    A shallow embedding of [database.py] (the [Database] class over the
    SQLite table [bookings]) and of the parts of [bot.py] that decide the
    booking lifecycle: the reminder scan [check_reminders] with its three
    send helpers, the customer handler [process_booking] and the manual-entry
    handler [process_admin_time], the keyboard of free slots
    [get_dates_keyboard], and the handlers behind the administrator's
    buttons ([confirm_booking], [reject_booking], [admin_delete_booking],
    [delete_confirm]).

    Conventions of the embedding.
    - A Python [str] and an SQLite TEXT value are a [string]: a sequence of
      characters compared lexicographically, character by character.  This is
      what Python's [<] on [str] and SQLite's BINARY collation both compute.
    - The table is the list of its rows in rowid order, together with the
      AUTOINCREMENT counter SQLite keeps in [sqlite_sequence].
    - INTEGER columns are [Z]; a nullable INTEGER is [option Z].
    - [CURRENT_TIMESTAMP] and [datetime.now()] are read from the environment,
      so every operation that consults the clock takes the reading as an
      argument.
    - Calls to the chat transport can raise.  Handlers run in a small
      state-and-exception monad over a [World] holding the store and the list
      of transport calls made so far, each with its outcome; the outcome of
      the n-th call is given by a function [net : nat -> bool].
    - The store itself does not fail, except for the insert, which can
      run out of rowids or be handed an integer SQLite cannot hold, and for
      a lookup by an id SQLite cannot hold in the administrator's handlers.
    - Logging has no effect on store or transport and is left out. *)

From Stdlib Require Import ZArith List String Ascii Bool Lia QArith.
From Stdlib Require Import DecimalString Permutation Sorted.
From Stdlib Require DecimalPos OrdersEx.
Import ListNotations.

Open Scope string_scope.
Open Scope Z_scope.

(* ================================================================= *)
(** ** Python strings *)

Definition nl : string := String (ascii_of_nat 10) EmptyString.

(** [str(n)] for an integer. *)
Definition str_of_Z (n : Z) : string := NilZero.string_of_int (Z.to_int n).

(** Characters for which [str.isspace] holds, among the first 128. *)
Definition is_space (c : ascii) : bool :=
  let n := nat_of_ascii c in
  ((9 <=? n) && (n <=? 13) || (28 <=? n) && (n <=? 32))%nat.

Fixpoint lstrip (s : string) : string :=
  match s with
  | String c r => if is_space c then lstrip r else s
  | EmptyString => EmptyString
  end.

(** [rstrip] drops the trailing run of whitespace. *)
Fixpoint rstrip (s : string) : string :=
  match s with
  | EmptyString => EmptyString
  | String c r =>
      match rstrip r with
      | EmptyString => if is_space c then EmptyString else String c EmptyString
      | r' => String c r'
      end
  end.

(** [s.strip()] for a text in the first 128 characters.  Python also
    strips the spaces beyond them (U+0085, U+00A0, U+2000 and the like),
    which this model leaves in place. *)
Definition strip (s : string) : string := rstrip (lstrip s).

(** [s.split(sep)] for a one-character separator: every occurrence cuts,
    so the result has one more part than there are separators. *)
Fixpoint split (sep : ascii) (s : string) : list string :=
  match s with
  | EmptyString => [EmptyString]
  | String c r =>
      if Ascii.eqb c sep then EmptyString :: split sep r
      else match split sep r with
           | p :: ps => String c p :: ps
           | [] => [String c EmptyString]
           end
  end.

(** [s[:n]] and [s[n:]] *)
Fixpoint take (n : nat) (s : string) : string :=
  match n, s with
  | S n', String c r => String c (take n' r)
  | _, _ => EmptyString
  end.

Fixpoint drop (n : nat) (s : string) : string :=
  match n, s with
  | S n', String _ r => drop n' r
  | _, _ => s
  end.

Definition is_digit (c : ascii) : bool :=
  let n := nat_of_ascii c in ((48 <=? n) && (n <=? 57))%nat.

Definition digit_val (c : ascii) : Z := Z.of_nat (nat_of_ascii c) - 48.

(** The digit part of an integer literal: decimal digits, with single
    underscores allowed between two digits.  [acc] is the value read so
    far and [prev] tells whether the previous character was a digit. *)
Fixpoint int_digits (s : string) (acc : Z) (prev : bool) : option Z :=
  match s with
  | EmptyString => if prev then Some acc else None
  | String c r =>
      if is_digit c then int_digits r (10 * acc + digit_val c) true
      else if Ascii.eqb c "_" then
             (if prev then int_digits r acc false else None)
      else None
  end.

(** [int(s)] in base 10: surrounding whitespace is ignored, one sign is
    allowed, then come the digits.  [None] stands for [ValueError].
    Digits and spaces outside the first 128 characters, which [int] also
    accepts, are outside this model. *)
Definition py_int (s : string) : option Z :=
  match strip s with
  | String "+" r => int_digits r 0 false
  | String "-" r => option_map Z.opp (int_digits r 0 false)
  | r => int_digits r 0 false
  end.

(** Truthiness of an optional string: [None] and the empty string are false. *)
Definition truthy (o : option string) : bool :=
  match o with
  | Some (String _ _) => true
  | _ => false
  end.

(** [o or d] for an optional string. *)
Definition str_or (o : option string) (d : string) : string :=
  match o with
  | Some (String c r) => String c r
  | _ => d
  end.

(* ================================================================= *)
(** ** database.py: the [bookings] table *)

Record Booking := {
  id : Z;
  user_id : Z;
  username : string;
  full_name : string;
  booking_type : string;
  selected_date : string;
  selected_time : string;
  status : string;
  admin_message_id : option Z;
  reminder_day_sent : Z;
  reminder_hour_sent : Z;
  created_at : string;
  updated_at : string
}.

(** The table: its rows in rowid order and the largest rowid ever handed
    out (what AUTOINCREMENT records in [sqlite_sequence]). *)
Record Database := {
  rows : list Booking;
  sqlite_sequence : Z
}.

(** [init_db] on a fresh file. *)
Definition init_db : Database := {| rows := []; sqlite_sequence := 0 |}.

Definition set_status (st : string) (now : string) (b : Booking) : Booking :=
  {| id := id b; user_id := user_id b; username := username b;
     full_name := full_name b; booking_type := booking_type b;
     selected_date := selected_date b; selected_time := selected_time b;
     status := st;
     admin_message_id := admin_message_id b;
     reminder_day_sent := reminder_day_sent b;
     reminder_hour_sent := reminder_hour_sent b;
     created_at := created_at b; updated_at := now |}.

Definition set_admin_message_id (m : Z) (b : Booking) : Booking :=
  {| id := id b; user_id := user_id b; username := username b;
     full_name := full_name b; booking_type := booking_type b;
     selected_date := selected_date b; selected_time := selected_time b;
     status := status b;
     admin_message_id := Some m;
     reminder_day_sent := reminder_day_sent b;
     reminder_hour_sent := reminder_hour_sent b;
     created_at := created_at b; updated_at := updated_at b |}.

Definition set_reminder_day_sent (b : Booking) : Booking :=
  {| id := id b; user_id := user_id b; username := username b;
     full_name := full_name b; booking_type := booking_type b;
     selected_date := selected_date b; selected_time := selected_time b;
     status := status b;
     admin_message_id := admin_message_id b;
     reminder_day_sent := 1;
     reminder_hour_sent := reminder_hour_sent b;
     created_at := created_at b; updated_at := updated_at b |}.

Definition set_reminder_hour_sent (b : Booking) : Booking :=
  {| id := id b; user_id := user_id b; username := username b;
     full_name := full_name b; booking_type := booking_type b;
     selected_date := selected_date b; selected_time := selected_time b;
     status := status b;
     admin_message_id := admin_message_id b;
     reminder_day_sent := reminder_day_sent b;
     reminder_hour_sent := 1;
     created_at := created_at b; updated_at := updated_at b |}.

(** [UPDATE bookings SET ... WHERE id = ?] *)
Definition update_where_id (booking_id : Z) (f : Booking -> Booking)
    (db : Database) : Database :=
  {| rows := map (fun b => if id b =? booking_id then f b else b) (rows db);
     sqlite_sequence := sqlite_sequence db |}.

(** SQLite INTEGER values are 64-bit signed. *)
Definition int64_min : Z := - 2 ^ 63.
Definition int64_max : Z := 2 ^ 63 - 1.
Definition in_int64 (n : Z) : bool := (int64_min <=? n) && (n <=? int64_max).

Definition max_rowid (l : list Booking) : Z :=
  fold_right (fun b m => Z.max (id b) m) 0 l.

(** [create_booking]: the INSERT with status ['pending'].  The new rowid is
    one more than the largest rowid the table ever held.  [None] is the
    exception the call raises: [OverflowError] when [user_id] does not fit
    an SQLite INTEGER, and the storage error SQLite reports once the largest
    rowid has been used.  [now] is [CURRENT_TIMESTAMP]. *)
Definition create_booking (db : Database) (now : string)
    (uid : Z) (uname fname btype date time : string)
    : option (Z * Database) :=
  if negb (in_int64 uid) then None
  else
    let last := Z.max (sqlite_sequence db) (max_rowid (rows db)) in
    if int64_max <=? last then None
    else
      let new_id := last + 1 in
      let row := {| id := new_id; user_id := uid; username := uname;
                    full_name := fname; booking_type := btype;
                    selected_date := date; selected_time := time;
                    status := "pending";
                    admin_message_id := None;
                    reminder_day_sent := 0; reminder_hour_sent := 0;
                    created_at := now; updated_at := now |} in
      Some (new_id,
            {| rows := (rows db ++ [row])%list; sqlite_sequence := new_id |}).

(** [status IN ('pending', 'confirmed')] *)
Definition occupies (b : Booking) : bool :=
  (status b =? "pending")%string || (status b =? "confirmed")%string.

(** Stable insertion sort: the rows of an [ORDER BY] query.  Rows that the
    sort key does not separate keep their rowid order. *)
Fixpoint insert_by (le : Booking -> Booking -> bool) (x : Booking)
    (l : list Booking) : list Booking :=
  match l with
  | [] => [x]
  | y :: l' => if le x y then x :: l else y :: insert_by le x l'
  end.

Definition order_by (le : Booking -> Booking -> bool) (l : list Booking)
    : list Booking :=
  fold_right (insert_by le) [] l.

(** [ORDER BY created_at DESC] *)
Definition by_created_desc (a b : Booking) : bool :=
  (created_at b <=? created_at a)%string.

(** [ORDER BY selected_date ASC, selected_time ASC] *)
Definition by_date_time (a b : Booking) : bool :=
  (selected_date a <? selected_date b)%string
  || ((selected_date a =? selected_date b)%string
      && (selected_time a <=? selected_time b)%string).

(** The CASE expression of [get_all_bookings]. *)
Definition status_priority (st : string) : Z :=
  if (st =? "pending")%string then 1
  else if (st =? "confirmed")%string then 2
  else if (st =? "rejected")%string then 3
  else 4.

(** [ORDER BY CASE status ... END, created_at DESC] *)
Definition by_priority_created (a b : Booking) : bool :=
  (status_priority (status a) <? status_priority (status b))
  || ((status_priority (status a) =? status_priority (status b))
      && (created_at b <=? created_at a)%string).

Definition get_pending_bookings (db : Database) : list Booking :=
  order_by by_created_desc
    (filter (fun b => (status b =? "pending")%string) (rows db)).

Definition get_confirmed_bookings (db : Database) : list Booking :=
  order_by by_date_time
    (filter (fun b => (status b =? "confirmed")%string) (rows db)).

Definition get_all_bookings (db : Database) : list Booking :=
  order_by by_priority_created (rows db).

(** [selected_date BETWEEN ? AND ?] is [start <= selected_date <= end] on
    text. *)
Definition get_bookings_by_date_range (db : Database)
    (start_date end_date : string) : list Booking :=
  order_by by_date_time
    (filter (fun b => ((start_date <=? selected_date b)%string
                       && (selected_date b <=? end_date)%string)
                      && occupies b)
            (rows db)).

Definition get_booked_slots (db : Database) (date : string) : list string :=
  map selected_time
    (filter (fun b => (selected_date b =? date)%string && occupies b)
            (rows db)).

(** [SELECT COUNT( * ) ...] followed by [count == 0]. *)
Definition is_slot_available (db : Database) (date time : string) : bool :=
  let count :=
    List.length
           (filter (fun b => ((selected_date b =? date)%string
                              && (selected_time b =? time)%string)
                             && occupies b)
                   (rows db)) in
  Nat.eqb count 0.

(** [get_booking], [update_booking_status] and [delete_booking] for
    integers that fit an SQLite INTEGER.  With any other, binding the
    parameter raises [OverflowError] and the table is not touched; the
    handlers that take an id from outside check the range before they
    call ([Admin.db_get_booking] below). *)
Definition get_booking (db : Database) (booking_id : Z) : option Booking :=
  find (fun b => id b =? booking_id) (rows db).

(** [update_booking_status]: [admin_message_id] is written only when it is
    given and not zero ([if admin_message_id:]). *)
Definition update_booking_status (db : Database) (now : string)
    (booking_id : Z) (st : string) (msg_id : option Z) : Database :=
  match msg_id with
  | Some m =>
      if m =? 0 then update_where_id booking_id (set_status st now) db
      else update_where_id booking_id
             (fun b => set_admin_message_id m (set_status st now b)) db
  | None => update_where_id booking_id (set_status st now) db
  end.

(** [delete_booking]: the store after the DELETE and [rowcount > 0]. *)
Definition delete_booking (db : Database) (booking_id : Z)
    : bool * Database :=
  (existsb (fun b => id b =? booking_id) (rows db),
   {| rows := filter (fun b => negb (id b =? booking_id)) (rows db);
      sqlite_sequence := sqlite_sequence db |}).

Definition get_user_bookings (db : Database) (uid : Z) : list Booking :=
  order_by by_created_desc (filter (fun b => user_id b =? uid) (rows db)).

(** [mark_reminder_sent]: any [reminder_type] other than ['day'] and
    ['hour'] changes nothing. *)
Definition mark_reminder_sent (db : Database) (booking_id : Z)
    (reminder_type : string) : Database :=
  if (reminder_type =? "day")%string then
    update_where_id booking_id set_reminder_day_sent db
  else if (reminder_type =? "hour")%string then
    update_where_id booking_id set_reminder_hour_sent db
  else db.

(* ================================================================= *)
(** ** The clock: Python's [datetime] *)

Record datetime := {
  year : Z;
  month : Z;
  day : Z;
  hour : Z;
  minute : Z;
  second : Z;
  microsecond : Z
}.

Definition is_leap (y : Z) : bool :=
  (y mod 4 =? 0) && (negb (y mod 100 =? 0) || (y mod 400 =? 0)).

Definition days_in_month (y m : Z) : Z :=
  if m =? 2 then (if is_leap y then 29 else 28)
  else if (m =? 4) || (m =? 6) || (m =? 9) || (m =? 11) then 30
  else 31.

(** Days before January 1st of year [y]. *)
Definition days_before_year (y : Z) : Z :=
  let p := y - 1 in p * 365 + p / 4 - p / 100 + p / 400.

(** Days of year [y] before the first day of month [m]. *)
Definition days_before_month (y m : Z) : Z :=
  fold_right (fun k acc => days_in_month y (Z.of_nat k) + acc) 0
             (List.seq 1 (Z.to_nat (m - 1))).

(** [date.toordinal()]: January 1st of year 1 is day 1. *)
Definition toordinal (d : datetime) : Z :=
  days_before_year (year d) + days_before_month (year d) (month d) + day d.

(** The constructor [datetime(year, month, day, hour, minute)]; [None] is
    the [ValueError] it raises on a field out of range. *)
Definition mk_datetime (y m d h mi : Z) : option datetime :=
  if (1 <=? y) && (y <=? 9999)
     && (1 <=? m) && (m <=? 12)
     && (1 <=? d) && (d <=? days_in_month y m)
     && (0 <=? h) && (h <=? 23)
     && (0 <=? mi) && (mi <=? 59)
  then Some {| year := y; month := m; day := d; hour := h; minute := mi;
               second := 0; microsecond := 0 |}
  else None.

(** The timedelta [a - b], in microseconds. *)
Definition microseconds_between (a b : datetime) : Z :=
  ((toordinal a - toordinal b) * 86400
   + ((hour a * 3600 + minute a * 60 + second a)
      - (hour b * 3600 + minute b * 60 + second b))) * 1000000
  + (microsecond a - microsecond b).

(** [(a - b).total_seconds() / 3600].  The program computes it in floating
    point; the quotient is kept exact here.  On clock readings, which are
    whole microseconds, the four comparisons below come out the same: a
    reading that is not on a bound is far more than a rounding error away
    from it, and a reading on a bound divides to the very constant the
    program compares with. *)
Definition hours_between (a b : datetime) : Q :=
  Qmake (microseconds_between a b) 3600000000.

(** [23 <= hours_diff <= 25] *)
Definition in_day_window (h : Q) : bool :=
  Qle_bool (23 # 1) h && Qle_bool h (25 # 1).

(** [0.9 <= hours_diff <= 1.1] *)
Definition in_hour_window (h : Q) : bool :=
  Qle_bool (9 # 10) h && Qle_bool h (11 # 10).

Definition digit_char (n : Z) : ascii := ascii_of_nat (48 + Z.to_nat n).

(** A two-digit, zero-padded field of [strftime], for [0 <= n <= 99]. *)
Definition pad2 (n : Z) : string :=
  String (digit_char (n / 10)) (String (digit_char (n mod 10)) EmptyString).

(** [now.strftime("%d.%m")] *)
Definition strftime_dm (now : datetime) : string :=
  pad2 (day now) ++ "." ++ pad2 (month now).

(* ================================================================= *)
(** ** bot.py: effects *)

(** The exceptions the modelled code can meet; every handler in the
    program catches them as [Exception]. *)
Inductive exn :=
| ValueError
| IndexError
| AttributeError
| StorageError
| TelegramError.

(** Calls to the chat transport.  Keyboards and parse modes are
    presentation and are not recorded. *)
Inductive api_call :=
| send_message (chat_id : Z) (text : string)
| callback_answer (text : string) (show_alert : bool)
| message_answer (text : string)
| message_delete.

Record Delivery := {
  call : api_call;
  delivered : bool
}.

(** Data collected by the manual-entry conversation.  A key that was never
    stored is [None]; [selected_date] is always present in the state
    [waiting_for_time], which only [process_admin_date] enters, after
    storing it.  A key stored with the value [None] (the name taken from
    a message without text) is not told apart from a key never stored:
    the code hands such a name on to the insert, the model puts the
    default in its place. *)
Record AdminDraft := {
  draft_user_id : option Z;
  draft_username : option string;
  draft_full_name : option string;
  draft_booking_type : option string;
  draft_selected_date : string
}.

(** The conversation state of the requester, as far as the two creation
    handlers are concerned. *)
Inductive Conversation :=
| BookingStates_waiting_for_date (booking_type : option string)
| AdminBookingStates_waiting_for_time (data : AdminDraft).

Record World := {
  w_db : Database;
  w_out : list Delivery;
  w_fsm : option Conversation
}.

Definition M (A : Type) : Type := World -> (exn + A) * World.

Definition ret {A} (a : A) : M A := fun w => (inr a, w).

Definition raise {A} (e : exn) : M A := fun w => (inl e, w).

Definition bind {A B} (m : M A) (k : A -> M B) : M B :=
  fun w =>
    match m w with
    | (inr a, w') => k a w'
    | (inl e, w') => (inl e, w')
    end.

(** [try: m except Exception as e: h e] *)
Definition try_ {A} (m : M A) (h : exn -> M A) : M A :=
  fun w =>
    match m w with
    | (inr a, w') => (inr a, w')
    | (inl e, w') => h e w'
    end.

Notation "x <- m ;; k" := (bind m (fun x => k))
  (at level 61, m at next level, right associativity).
Notation "m ;; k" := (bind m (fun _ => k))
  (at level 61, right associativity).

(** [for x in l: f x] *)
Fixpoint for_each {A} (l : list A) (f : A -> M unit) : M unit :=
  match l with
  | [] => ret tt
  | x :: l' => f x ;; for_each l' f
  end.

Definition or_raise {A} (e : exn) (o : option A) : M A :=
  match o with
  | Some a => ret a
  | None => raise e
  end.

Definition get_db : M Database := fun w => (inr (w_db w), w).

Definition put_db (db : Database) : M unit :=
  fun w => (inr tt, {| w_db := db; w_out := w_out w; w_fsm := w_fsm w |}).

Definition get_fsm : M (option Conversation) := fun w => (inr (w_fsm w), w).

(** [state.clear()] *)
Definition state_clear : M unit :=
  fun w => (inr tt, {| w_db := w_db w; w_out := w_out w; w_fsm := None |}).

Section Bot.

(** Whether the n-th call to the transport returns; otherwise it raises. *)
Variable net : nat -> bool.

(** The environment variables [ADMIN_ID] and [ADMIN_USERNAME]. *)
Variable ADMIN_ID : option string.
Variable ADMIN_USERNAME : string.

(** [str(e)] of a caught exception, as shown to the administrator. *)
Variable str_of_exn : exn -> string.

Definition transport (c : api_call) : M unit :=
  fun w =>
    let ok := net (List.length (w_out w)) in
    let w' := {| w_db := w_db w;
                 w_out := (w_out w ++ [{| call := c; delivered := ok |}])%list;
                 w_fsm := w_fsm w |} in
    (if ok then inr tt else inl TelegramError, w').

(** [int(s)] *)
Definition int_ (s : string) : M Z := or_raise ValueError (py_int s).

Definition db_mark_reminder_sent (booking_id : Z) (reminder_type : string)
    : M unit :=
  db <- get_db ;; put_db (mark_reminder_sent db booking_id reminder_type).

Definition db_create_booking (now : string) (uid : Z)
    (uname fname btype date time : string) : M Z :=
  db <- get_db ;;
  r <- or_raise StorageError
         (create_booking db now uid uname fname btype date time) ;;
  put_db (snd r) ;; ret (fst r).

Definition db_update_booking_status (now : string) (booking_id : Z)
    (st : string) : M unit :=
  db <- get_db ;; put_db (update_booking_status db now booking_id st None).

Definition get_booking_type_name (booking_type : string) : string :=
  if (booking_type =? "individual")%string then "👤 Индивидуальное занятие"
  else if (booking_type =? "date")%string then "💑 Свидание (для двоих)"
  else if (booking_type =? "group")%string then "👥 Групповое занятие"
  else if (booking_type =? "school")%string then "🏫 Школьный МК"
  else booking_type.

(* ----------------------------------------------------------------- *)
(** *** The reminder scheduler *)

Definition day_reminder_text (booking : Booking) : string :=
  "🔔 **Напоминание о мастер-классе!**" ++ nl ++ nl
  ++ "🎯 " ++ get_booking_type_name (booking_type booking) ++ nl
  ++ "📅 Завтра, " ++ selected_date booking ++ " в "
  ++ selected_time booking ++ nl ++ nl
  ++ "Ждем вас в мастерской! Если возникнут вопросы, свяжитесь с администратором.".

Definition hour_reminder_text (booking : Booking) : string :=
  "⏰ **Через час начинается мастер-класс!**" ++ nl ++ nl
  ++ "🎯 " ++ get_booking_type_name (booking_type booking) ++ nl
  ++ "📅 Сегодня, " ++ selected_date booking ++ " в "
  ++ selected_time booking ++ nl ++ nl
  ++ "Уже выходите? Ждем вас! 🏺".

Definition admin_reminder_text (booking : Booking) : string :=
  "⏰ **Через час мастер-класс!**" ++ nl ++ nl
  ++ "👤 " ++ full_name booking ++ " (@" ++ username booking ++ ")" ++ nl
  ++ "🎯 " ++ get_booking_type_name (booking_type booking) ++ nl
  ++ "📅 Сегодня, " ++ selected_date booking ++ " в "
  ++ selected_time booking ++ nl ++ nl
  ++ "Не забудьте подготовить материалы! 🏺".

Definition send_day_reminder (booking : Booking) : M unit :=
  try_ (transport (send_message (user_id booking)
                                (day_reminder_text booking)))
       (fun _ => ret tt).

Definition send_hour_reminder (booking : Booking) : M unit :=
  try_ (transport (send_message (user_id booking)
                                (hour_reminder_text booking)))
       (fun _ => ret tt).

Definition send_admin_reminder (booking : Booking) : M unit :=
  if negb (truthy ADMIN_ID) then ret tt
  else
    try_ (admin <- int_ (str_or ADMIN_ID EmptyString) ;;
          transport (send_message admin (admin_reminder_text booking)))
         (fun _ => ret tt).

(** The body of the [for booking in all_bookings] loop, with its own
    [try]/[except].  A [continue] is [ret tt]. *)
Definition remind (now : datetime) (current_date : string)
    (booking : Booking) : M unit :=
  try_
    (let booking_date := selected_date booking in
     let booking_time := selected_time booking in
     if (booking_date <? current_date)%string then ret tt
     else
       let date_parts := split "." booking_date in
       let time_parts := split ":" booking_time in
       if negb (List.length date_parts =? 2)%nat
          || negb (List.length time_parts =? 2)%nat
       then ret tt
       else
         mo <- int_ (nth 1 date_parts EmptyString) ;;
         d <- int_ (nth 0 date_parts EmptyString) ;;
         h <- int_ (nth 0 time_parts EmptyString) ;;
         mi <- int_ (nth 1 time_parts EmptyString) ;;
         booking_datetime <-
           or_raise ValueError (mk_datetime (year now) mo d h mi) ;;
         let hours_diff := hours_between booking_datetime now in
         (if in_day_window hours_diff && (reminder_day_sent booking =? 0)
          then send_day_reminder booking ;;
               db_mark_reminder_sent (id booking) "day"
          else if in_hour_window hours_diff
                  && (reminder_hour_sent booking =? 0)
          then send_hour_reminder booking ;;
               db_mark_reminder_sent (id booking) "hour"
          else ret tt) ;;
         (if in_hour_window hours_diff then send_admin_reminder booking
          else ret tt))
    (fun _ => ret tt).

(** One pass of the [while True] loop of [check_reminders], run at clock
    reading [now]; the pass is followed by [asyncio.sleep(900)]. *)
Definition check_reminders_tick (now : datetime) : M unit :=
  try_
    (let current_date := strftime_dm now in
     db <- get_db ;;
     let all_bookings := get_confirmed_bookings db in
     for_each all_bookings (remind now current_date))
    (fun _ => ret tt).

(** The first passes of [check_reminders], one per clock reading. *)
Definition check_reminders (ticks : list datetime) : M unit :=
  for_each ticks check_reminders_tick.

(* ----------------------------------------------------------------- *)
(** *** Creating a booking *)

(** [callback.from_user] *)
Record User := {
  u_id : Z;
  u_username : option string;
  u_full_name : string
}.

(** How an f-string prints an optional string. *)
Definition fmt_opt (o : option string) : string :=
  match o with
  | Some s => s
  | None => "None"
  end.

Definition new_request_text (user : User)
    (booking_type selected_date selected_time : string) : string :=
  "📝 **Новая заявка!**" ++ nl ++ nl
  ++ "👤 " ++ u_full_name user ++ nl
  ++ "🆔 " ++ str_of_Z (u_id user) ++ nl
  ++ "📱 @" ++ fmt_opt (u_username user) ++ nl
  ++ "🎯 " ++ get_booking_type_name booking_type ++ nl
  ++ "📅 " ++ selected_date ++ nl
  ++ "⏰ " ++ selected_time.

Definition request_created_text
    (booking_type selected_date selected_time : string) : string :=
  "✅ **Заявка создана!**" ++ nl ++ nl
  ++ "📅 " ++ selected_date ++ " в " ++ selected_time ++ nl
  ++ "🎯 " ++ get_booking_type_name booking_type ++ nl ++ nl
  ++ "⏳ Ожидайте подтверждения.".

Definition slot_taken_alert : string := "❌ Это время уже занято!".

(** The handler [process_booking].  It is dispatched for callback data that
    starts with [date_] while the conversation is in
    [BookingStates.waiting_for_date]; otherwise nothing runs.  [now] is the
    [CURRENT_TIMESTAMP] of the insert. *)
Definition process_booking (callback_data : string) (user : User)
    (now : string) : M unit :=
  fsm <- get_fsm ;;
  match fsm with
  | Some (BookingStates_waiting_for_date stored_type) =>
      if negb (prefix "date_" callback_data) then ret tt
      else
        try_
          (let booking_type :=
             match stored_type with
             | Some t => t
             | None => "individual"
             end in
           let parts := split "_" callback_data in
           p1 <- or_raise IndexError (nth_error parts 1) ;;
           let day := take 2 p1 in
           let month := drop 2 p1 in
           hour <- or_raise IndexError (nth_error parts 2) ;;
           let selected_date := day ++ "." ++ month in
           let selected_time := hour ++ ":00" in
           db <- get_db ;;
           if negb (is_slot_available db selected_date selected_time) then
             transport (callback_answer slot_taken_alert true)
           else
             booking_id <-
               db_create_booking now (u_id user)
                 (str_or (u_username user) "нет")
                 (str_or (Some (u_full_name user)) "Имя")
                 booking_type selected_date selected_time ;;
             (if truthy ADMIN_ID then
                admin <- int_ (str_or ADMIN_ID EmptyString) ;;
                transport
                  (send_message admin
                     (new_request_text user booking_type
                        selected_date selected_time))
              else ret tt) ;;
             state_clear ;;
             transport (callback_answer "✅ Заявка создана!" false) ;;
             transport message_delete ;;
             transport
               (message_answer
                  (request_created_text booking_type
                     selected_date selected_time)))
          (fun _ =>
             transport (callback_answer "❌ Ошибка" true) ;;
             state_clear)
  | _ => ret tt
  end.

Definition bad_time_format_text : string :=
  "❌ Неправильный формат. Используйте ЧЧ:ММ (например: 15:00)".

Definition slot_taken_text (selected_date time_str : string) : string :=
  "❌ Слот " ++ selected_date ++ " " ++ time_str ++ " уже занят!" ++ nl
  ++ "Выберите другое время командой /add_booking".

Definition manual_created_text (booking_id : Z)
    (full_name username booking_type selected_date time_str : string)
    : string :=
  "✅ **Запись успешно создана!**" ++ nl ++ nl
  ++ "🆔 **ID записи:** " ++ str_of_Z booking_id ++ nl
  ++ "👤 **Клиент:** " ++ full_name ++ nl
  ++ "📱 **Username:** @"
  ++ (if (username =? "manual")%string then "не указан" else username) ++ nl
  ++ "🎯 **Тип:** " ++ get_booking_type_name booking_type ++ nl
  ++ "📅 **Дата:** " ++ selected_date ++ nl
  ++ "⏰ **Время:** " ++ time_str ++ nl ++ nl
  ++ "Статус: ✅ Подтверждено".

Definition you_are_booked_text (booking_type selected_date time_str : string)
    : string :=
  "✅ **Вы записаны на мастер-класс!**" ++ nl ++ nl
  ++ "🎯 " ++ get_booking_type_name booking_type ++ nl
  ++ "📅 " ++ selected_date ++ " в " ++ time_str ++ nl ++ nl
  ++ "Ждем вас в мастерской!".

Definition or_default {A} (o : option A) (d : A) : A :=
  match o with
  | Some a => a
  | None => d
  end.

(** The handler [process_admin_time], dispatched for a message while the
    conversation is in [AdminBookingStates.waiting_for_time].  [text] is
    [message.text], absent for a message without text.  [now_insert] and
    [now_update] are the [CURRENT_TIMESTAMP] of the insert and of the
    status update.  The body of the [try] yields [false] where the source
    executes [return], which skips the [state.clear()] after the
    [try]/[except]. *)
Definition process_admin_time (text : option string)
    (now_insert now_update : string) : M unit :=
  fsm <- get_fsm ;;
  match fsm with
  | Some (AdminBookingStates_waiting_for_time data) =>
      falls_through <-
        try_
          (t <- or_raise AttributeError text ;;
           let time_str := strip t in
           if negb (String.length time_str =? 5)%nat
              || negb (match String.get 2 time_str with
                       | Some c => Ascii.eqb c ":"
                       | None => false
                       end)
           then
             transport (message_answer bad_time_format_text) ;; ret false
           else
             let user_id := or_default (draft_user_id data) 0 in
             let username := or_default (draft_username data) "manual" in
             let full_name :=
               or_default (draft_full_name data) "Ручная запись" in
             let booking_type :=
               or_default (draft_booking_type data) "individual" in
             let selected_date := draft_selected_date data in
             db <- get_db ;;
             if negb (is_slot_available db selected_date time_str) then
               transport (message_answer
                            (slot_taken_text selected_date time_str)) ;;
               state_clear ;;
               ret false
             else
               booking_id <-
                 db_create_booking now_insert user_id username full_name
                   booking_type selected_date time_str ;;
               db_update_booking_status now_update booking_id "confirmed" ;;
               transport
                 (message_answer
                    (manual_created_text booking_id full_name username
                       booking_type selected_date time_str)) ;;
               (if negb (user_id =? 0) then
                  try_
                    (transport
                       (send_message user_id
                          (you_are_booked_text booking_type
                             selected_date time_str)) ;;
                     transport
                       (message_answer
                          "📨 Уведомление отправлено пользователю"))
                    (fun e =>
                       transport
                         (message_answer
                            ("⚠️ Не удалось отправить уведомление пользователю: "
                             ++ str_of_exn e)))
                else ret tt) ;;
               ret true)
          (fun e =>
             transport (message_answer ("❌ Ошибка: " ++ str_of_exn e)) ;;
             ret true) ;;
      if falls_through then state_clear else ret tt
  | _ => ret tt
  end.

End Bot.

(* ================================================================= *)
(** ** Store operations as events *)

(** The mutations of the store that the program performs. *)
Inductive Op :=
| OpCreate (now : string) (uid : Z) (uname fname btype date time : string)
| OpUpdateStatus (now : string) (booking_id : Z) (st : string)
    (msg_id : option Z)
| OpDelete (booking_id : Z)
| OpMarkReminder (booking_id : Z) (reminder_type : string).

(** A failed insert leaves the table as it was. *)
Definition apply_op (db : Database) (o : Op) : Database :=
  match o with
  | OpCreate now uid uname fname btype date time =>
      match create_booking db now uid uname fname btype date time with
      | Some (_, db') => db'
      | None => db
      end
  | OpUpdateStatus now booking_id st msg_id =>
      update_booking_status db now booking_id st msg_id
  | OpDelete booking_id => snd (delete_booking db booking_id)
  | OpMarkReminder booking_id reminder_type =>
      mark_reminder_sent db booking_id reminder_type
  end.

Definition apply_ops (db : Database) (ops : list Op) : Database :=
  fold_left apply_op ops db.

(** An operation that takes booking [booking_id] out of the occupying
    statuses: its deletion, or a status update to anything but ['pending']
    and ['confirmed'] (the program only ever writes ['rejected']). *)
Definition releases (booking_id : Z) (o : Op) : bool :=
  match o with
  | OpDelete i => i =? booking_id
  | OpUpdateStatus _ i st _ =>
      (i =? booking_id)
      && negb ((st =? "pending")%string || (st =? "confirmed")%string)
  | _ => false
  end.

(* ================================================================= *)
(** ** A small studio *)

(** A clock reading in March 2025. *)
Definition march (d h mi : Z) : datetime :=
  {| year := 2025; month := 3; day := d; hour := h; minute := mi;
     second := 0; microsecond := 0 |}.

(** One request for 16.03 at 18:00, confirmed by the administrator. *)
Definition studio_db : Database :=
  apply_ops init_db
    [OpCreate "2025-03-10 09:00:00" 42 "anna" "Anna" "individual"
       "16.03" "18:00";
     OpUpdateStatus "2025-03-10 09:30:00" 1 "confirmed" None].

Definition anna : Booking :=
  {| id := 1; user_id := 42; username := "anna"; full_name := "Anna";
     booking_type := "individual";
     selected_date := "16.03"; selected_time := "18:00";
     status := "confirmed"; admin_message_id := None;
     reminder_day_sent := 0; reminder_hour_sent := 0;
     created_at := "2025-03-10 09:00:00";
     updated_at := "2025-03-10 09:30:00" |}.

Definition studio : World :=
  {| w_db := studio_db; w_out := []; w_fsm := None |}.

(** A transport on which every call returns, and one on which every call
    raises. *)
Definition net_up : nat -> bool := fun _ => true.
Definition net_down : nat -> bool := fun _ => false.

(** A customer who asks for the slot that Anna holds, and the
    conversation states in which the two creation handlers run. *)
Definition bob : User :=
  {| u_id := 77; u_username := Some "bob"; u_full_name := "Bob" |}.

Definition studio_choosing : World :=
  {| w_db := studio_db; w_out := [];
     w_fsm := Some (BookingStates_waiting_for_date (Some "group")) |}.

Definition studio_manual_entry : World :=
  {| w_db := studio_db; w_out := [];
     w_fsm := Some (AdminBookingStates_waiting_for_time
                      {| draft_user_id := Some 0;
                         draft_username := Some "carol";
                         draft_full_name := Some "Carol";
                         draft_booking_type := Some "date";
                         draft_selected_date := "16.03" |}) |}.

(** Three requests, of which the first is then rejected and the third
    confirmed. *)
Definition three_bookings : Database :=
  apply_ops init_db
    [OpCreate "2025-03-10 09:00:00" 42 "anna" "Anna" "individual"
       "16.03" "18:00";
     OpCreate "2025-03-10 09:10:00" 77 "bob" "Bob" "group" "17.03" "15:00";
     OpCreate "2025-03-10 09:20:00" 78 "carol" "Carol" "date"
       "18.03" "15:00";
     OpUpdateStatus "2025-03-10 10:00:00" 1 "rejected" None;
     OpUpdateStatus "2025-03-10 10:05:00" 3 "confirmed" None].

(** A confirmed booking for the first of April, and the studio that
    holds only it. *)
Definition dan : Booking :=
  {| id := 1; user_id := 43; username := "dan"; full_name := "Dan";
     booking_type := "group";
     selected_date := "01.04"; selected_time := "18:00";
     status := "confirmed"; admin_message_id := None;
     reminder_day_sent := 0; reminder_hour_sent := 0;
     created_at := "2025-03-20 09:00:00";
     updated_at := "2025-03-20 09:30:00" |}.

Definition april_studio : World :=
  {| w_db := {| rows := [dan]; sqlite_sequence := 1 |};
     w_out := []; w_fsm := None |}.

(* ================================================================= *)
(** ** Predicates used in the statements *)

(** Booking [b] occupies the slot [(date, time)]. *)
Definition occupies_slot (date time : string) (b : Booking) : Prop :=
  selected_date b = date /\ selected_time b = time
  /\ (status b = "pending" \/ status b = "confirmed").

(** Everything of a row but its two reminder flags. *)
Definition frame (b : Booking) :=
  (id b, user_id b, username b, full_name b, booking_type b,
   selected_date b, selected_time b, status b, admin_message_id b,
   created_at b, updated_at b).

(** Status priority does not decrease from [a] to [b]. *)
Definition priority_le (a b : Booking) : Prop :=
  status_priority (status a) <= status_priority (status b).

(** The booking with rowid [i] holds the slot in [db]. *)
Definition holds_slot (i : Z) (date time : string) (db : Database) : Prop :=
  exists b, In b (rows db) /\ id b = i /\ occupies_slot date time b.

(** [H]: the hours from [now] to the booking's date and time, taken in
    the year of [now].  It is defined when date and time each split into
    two integers that name a valid day and minute of that year.  Where it
    is defined it is what the code computes; on texts beyond the first
    128 characters the code can read a number where [py_int] reads
    none. *)
Definition hours_until (now : datetime) (b : Booking) : option Q :=
  match split "." (selected_date b), split ":" (selected_time b) with
  | [dd; mm], [hh; mi] =>
      match py_int mm, py_int dd, py_int hh, py_int mi with
      | Some mo, Some d, Some h, Some m =>
          option_map (fun t => hours_between t now)
                     (mk_datetime (year now) mo d h m)
      | _, _, _, _ => None
      end
  | _, _ => None
  end.

(** The chat the administrator's reminder goes to: [int(ADMIN_ID)] when
    [ADMIN_ID] is set and is an integer. *)
Definition admin_chat (ADMIN_ID : option string) : option Z :=
  if truthy ADMIN_ID then py_int (str_or ADMIN_ID EmptyString) else None.

(** The transport calls made on the way from world [w] to world [w']. *)
Definition calls_since (w w' : World) : list api_call :=
  map call (skipn (List.length (w_out w)) (w_out w')).

(** The world after running [m] from [w]. *)
Definition exec {A} (m : M A) (w : World) : World := snd (m w).

(** The world after one more transport call, and after
    [mark_reminder_sent]. *)
Definition sent (net : nat -> bool) (c : api_call) (w : World) : World :=
  exec (transport net c) w.

Definition marked (i : Z) (k : string) (w : World) : World :=
  exec (db_mark_reminder_sent i k) w.

(** What the loop body of the scan sends for one booking, as
    [remind_calls_run] below reads it off the code. *)
Definition remind_calls (ADMIN_ID : option string) (now : datetime)
    (b : Booking) : list api_call :=
  if (selected_date b <? strftime_dm now)%string then []
  else
    match hours_until now b with
    | None => []
    | Some h =>
        ((if in_day_window h && (reminder_day_sent b =? 0) then
            [send_message (user_id b) (day_reminder_text b)]
          else if in_hour_window h && (reminder_hour_sent b =? 0) then
            [send_message (user_id b) (hour_reminder_text b)]
          else [])
         ++ (if in_hour_window h then
               match admin_chat ADMIN_ID with
               | Some a => [send_message a (admin_reminder_text b)]
               | None => []
               end
             else []))%list
    end.

(** What the loop body does to the store for one booking. *)
Definition remind_db (now : datetime) (b : Booking) (db : Database)
    : Database :=
  if (selected_date b <? strftime_dm now)%string then db
  else
    match hours_until now b with
    | None => db
    | Some h =>
        if in_day_window h && (reminder_day_sent b =? 0) then
          mark_reminder_sent db (id b) "day"
        else if in_hour_window h && (reminder_hour_sent b =? 0) then
          mark_reminder_sent db (id b) "hour"
        else db
    end.

(** At clock reading [now] the booking is not dated before today and
    starts in [H] hours. *)
Definition hours_away (now : datetime) (b : Booking) (H : Q) : Prop :=
  (selected_date b <? strftime_dm now)%string = false
  /\ exists h, hours_until now b = Some h /\ (h == H)%Q.

(** Every row with rowid [i] has its day flag, resp. hour flag, set. *)
Definition day_marked (i : Z) (db : Database) : Prop :=
  forall r, In r (rows db) -> id r = i -> reminder_day_sent r = 1.

Definition hour_marked (i : Z) (db : Database) : Prop :=
  forall r, In r (rows db) -> id r = i -> reminder_hour_sent r = 1.

(** Evaluate the window tests on constants and the flags of updated
    rows in hypothesis [H]. *)
Ltac settle H :=
  cbn [reminder_day_sent reminder_hour_sent user_id
       set_reminder_day_sent set_reminder_hour_sent] in H;
  repeat match type of H with
         | context [in_day_window (?n # ?d)] =>
             let v := eval vm_compute in (in_day_window (n # d)) in
             change (in_day_window (n # d)) with v in H
         | context [in_hour_window (?n # ?d)] =>
             let v := eval vm_compute in (in_hour_window (n # d)) in
             change (in_hour_window (n # d)) with v in H
         end;
  cbn [andb Z.eqb app] in H.

(* ================================================================= *)
(** ** bot.py: the keyboard of free slots *)

(** Days before the first of month [m] in a common year, and the days of
    month [m] in a common year: the tables of Python's [datetime]. *)
Definition days_before_month_common (m : Z) : Z :=
  nth (Z.to_nat m) [0; 0; 31; 59; 90; 120; 151; 181; 212; 243; 273; 304; 334]
      0.

Definition days_in_month_common (m : Z) : Z :=
  nth (Z.to_nat m) [0; 31; 28; 31; 30; 31; 30; 31; 31; 30; 31; 30; 31] 0.

(** [date.fromordinal]: year, month and day of the day with ordinal [n],
    by the 400-, 100-, 4- and 1-year cycles. *)
Definition ord2ymd (n0 : Z) : Z * Z * Z :=
  let n := n0 - 1 in
  let n400 := n / 146097 in
  let n := n mod 146097 in
  let year := n400 * 400 + 1 in
  let n100 := n / 36524 in
  let n := n mod 36524 in
  let n4 := n / 1461 in
  let n := n mod 1461 in
  let n1 := n / 365 in
  let n := n mod 365 in
  let year := year + n100 * 100 + n4 * 4 + n1 in
  if (n1 =? 4) || (n100 =? 4) then (year - 1, 12, 31)
  else
    let leapyear := (n1 =? 3) && (negb (n4 =? 24) || (n100 =? 3)) in
    let month := Z.shiftr (n + 50) 5 in
    let preceding :=
      days_before_month_common month
      + (if (2 <? month) && leapyear then 1 else 0) in
    if n <? preceding then
      let month := month - 1 in
      let preceding :=
        preceding
        - (days_in_month_common month
           + (if (month =? 2) && leapyear then 1 else 0)) in
      (year, month, n - preceding + 1)
    else (year, month, n - preceding + 1).

(** The largest ordinal, that of 31.12.9999. *)
Definition MAXORDINAL : Z := 3652059.

(** [d + timedelta(days=k)]; [None] is the [OverflowError] raised when the
    result leaves the years 1 to 9999. *)
Definition add_days (d : datetime) (k : Z) : option datetime :=
  let o := toordinal d + k in
  if (0 <? o) && (o <=? MAXORDINAL) then
    let '(y, m, dd) := ord2ymd o in
    Some {| year := y; month := m; day := dd;
            hour := hour d; minute := minute d; second := second d;
            microsecond := microsecond d |}
  else None.

(** [d.weekday()]: Monday is 0. *)
Definition weekday (d : datetime) : Z := (toordinal d + 6) mod 7.

(** An inline button with callback data.  How [adjust] lays the buttons
    out in rows is not recorded. *)
Record Button := {
  button_text : string;
  button_callback_data : string
}.

(** [date.strftime('%d%m')] *)
Definition strftime_dm_compact (d : datetime) : string :=
  pad2 (day d) ++ pad2 (month d).

(** The start hours of a day: two on weekdays, three at the weekend. *)
Definition slot_hours (date : datetime) : list Z :=
  if weekday date <? 5 then [15; 18] else [11; 14; 17].

(** The buttons of one day in [get_dates_keyboard]: one for each start
    hour whose time is not among the booked slots of that date. *)
Definition day_buttons (db : Database) (date : datetime) : list Button :=
  let date_str := strftime_dm date in
  let booked_slots := get_booked_slots db date_str in
  flat_map
    (fun hour =>
       let time_str := str_of_Z hour ++ ":00" in
       if existsb (String.eqb time_str) booked_slots then []
       else [{| button_text := date_str ++ " " ++ time_str;
                button_callback_data :=
                  "date_" ++ strftime_dm_compact date ++ "_"
                  ++ str_of_Z hour |}])
    (slot_hours date).

Fixpoint all_some {A} (l : list (option A)) : option (list A) :=
  match l with
  | [] => Some []
  | Some a :: l' => option_map (cons a) (all_some l')
  | None :: _ => None
  end.

(** [get_dates_keyboard], with the clock reading [today] and the store it
    consults.  [None] is the [OverflowError] of the date arithmetic. *)
Definition get_dates_keyboard (db : Database) (today : datetime)
    : option (list Button) :=
  match all_some (map (add_days today) [1; 2; 3; 4; 5; 6; 7]) with
  | None => None
  | Some dates =>
      let slots := flat_map (day_buttons db) dates in
      Some (slots
            ++ (if (List.length slots =? 0)%nat then
                  [{| button_text := "❌ Нет свободных слотов";
                      button_callback_data := "no_slots" |}]
                else [])
            ++ [{| button_text := "❌ Другая дата";
                   button_callback_data := "other_date" |}])%list
  end.

(* ================================================================= *)
(** ** database.py: the summary *)

(** [SELECT status, COUNT( * ) FROM bookings GROUP BY status], read into a
    dict: one entry per status that occurs, with the number of its rows. *)
Fixpoint bump (st : string) (summary : list (string * Z))
    : list (string * Z) :=
  match summary with
  | [] => [(st, 1)]
  | (k, n) :: rest =>
      if (k =? st)%string then (k, n + 1) :: rest
      else (k, n) :: bump st rest
  end.

Definition group_count (l : list Booking) : list (string * Z) :=
  fold_right (fun b summary => bump (status b) summary) [] l.

(** [summary.get(key, 0)] *)
Definition dict_get (summary : list (string * Z)) (key : string) : Z :=
  match find (fun p => (fst p =? key)%string) summary with
  | Some p => snd p
  | None => 0
  end.

Record Summary := {
  summary_pending : Z;
  summary_confirmed : Z;
  summary_rejected : Z;
  summary_total : Z
}.

Definition get_bookings_summary (db : Database) : Summary :=
  let summary := group_count (rows db) in
  {| summary_pending := dict_get summary "pending";
     summary_confirmed := dict_get summary "confirmed";
     summary_rejected := dict_get summary "rejected";
     summary_total := fold_right Z.add 0 (map snd summary) |}.

(* ================================================================= *)
(** ** Properties of a table *)

(** The rows carry increasing positive ids, none beyond the rowid counter,
    and the counter is an SQLite INTEGER. *)
Definition well_formed (db : Database) : Prop :=
  StronglySorted Z.lt (map id (rows db))
  /\ (forall b, In b (rows db) -> 0 < id b <= sqlite_sequence db)
  /\ 0 <= sqlite_sequence db <= int64_max.

(** No two bookings with different ids occupy the same slot. *)
Definition exclusive (db : Database) : Prop :=
  forall b1 b2 date time,
    In b1 (rows db) -> In b2 (rows db) ->
    occupies_slot date time b1 -> occupies_slot date time b2 ->
    id b1 = id b2.

(** An operation that can put a second booking on a slot: a status update
    that moves a booking into pending/confirmed when it is not there.  The
    insert is not among them when it follows the availability check. *)
Definition revives (db : Database) (o : Op) : bool :=
  match o with
  | OpUpdateStatus _ i st _ =>
      ((st =? "pending")%string || (st =? "confirmed")%string)
      && existsb (fun b => (id b =? i) && negb (occupies b)) (rows db)
  | OpCreate _ _ _ _ _ date time => negb (is_slot_available db date time)
  | _ => false
  end.

(** The number of rows with a given status. *)
Definition count_status (st : string) (db : Database) : Z :=
  Z.of_nat (List.length (filter (fun b => (status b =? st)%string)
                                (rows db))).

(** What a status update leaves alone. *)
Definition kept_by_status_update (b : Booking) :=
  (id b, user_id b, username b, full_name b, booking_type b,
   selected_date b, selected_time b,
   reminder_day_sent b, reminder_hour_sent b, created_at b).

(** Operations none of which [revives], each judged on the table it meets. *)
Fixpoint never_revives (db : Database) (ops : list Op) : bool :=
  match ops with
  | [] => true
  | o :: ops' => negb (revives db o) && never_revives (apply_op db o) ops'
  end.

(** A computation that leaves the store as it finds it, whether it
    returns or raises. *)
Definition keeps_db {A} (m : M A) : Prop :=
  forall w, w_db (snd (m w)) = w_db w.

(** The slot that [process_booking] reads off callback data: the second
    part cut after two characters, and the third part as the hour.  The
    cut counts bytes, which are Python's characters on callback data in
    the first 128 characters. *)
Definition requested_slot (callback_data : string)
    : option (string * string) :=
  match nth_error (split "_" callback_data) 1,
        nth_error (split "_" callback_data) 2 with
  | Some p1, Some hour =>
      Some (take 2 p1 ++ "." ++ drop 2 p1, hour ++ ":00")
  | _, _ => None
  end.

(** The time text is five characters long with a colon in the middle.
    Length and position count bytes, which are Python's characters on a
    text in the first 128 characters. *)
Definition time_format_ok (time_str : string) : bool :=
  (String.length time_str =? 5)%nat
  && match String.get 2 time_str with
     | Some c => Ascii.eqb c ":"
     | None => false
     end.




(* ================================================================= *)
(** ** bot.py: the administrator's buttons *)

(** [s.replace(old, new)] for a non-empty [old]: the occurrences of [old]
    are replaced from left to right, and a replaced occurrence is not
    searched again.  [skip] counts the characters of an occurrence that
    are still to be dropped. *)
Fixpoint replace_from (old new : string) (skip : nat) (s : string)
    : string :=
  match s with
  | EmptyString => EmptyString
  | String c r =>
      match skip with
      | S k => replace_from old new k r
      | O =>
          if prefix old (String c r) then
            new ++ replace_from old new (String.length old - 1) r
          else String c (replace_from old new 0 r)
      end
  end.

Definition replace (old new s : string) : string := replace_from old new 0 s.

(** [str(x)] of a value that may be [None]. *)
Definition str_of_optional (o : option string) : string :=
  match o with
  | Some s => s
  | None => "None"
  end.

(** The handlers behind the buttons of the administrator: they confirm,
    reject and delete bookings.  They edit the message that carries the
    button, which the creation handlers never do, so they have a transport
    of their own. *)
Module Admin.

Inductive api_call :=
| send_message (chat_id : Z) (text : string)
| callback_answer (text : option string) (show_alert : bool)
| message_edit_text (text : string).

Record Delivery := {
  call : api_call;
  delivered : bool
}.

Record World := {
  w_db : Database;
  w_out : list Delivery
}.

Definition M (A : Type) : Type := World -> (exn + A) * World.

Definition ret {A} (a : A) : M A := fun w => (inr a, w).

Definition raise {A} (e : exn) : M A := fun w => (inl e, w).

Definition bind {A B} (m : M A) (k : A -> M B) : M B :=
  fun w =>
    match m w with
    | (inr a, w') => k a w'
    | (inl e, w') => (inl e, w')
    end.

(** [try: m except Exception as e: h e] *)
Definition try_ {A} (m : M A) (h : exn -> M A) : M A :=
  fun w =>
    match m w with
    | (inr a, w') => (inr a, w')
    | (inl e, w') => h e w'
    end.

Declare Scope admin_scope.
Notation "x <- m ;; k" := (bind m (fun x => k))
  (at level 61, m at next level, right associativity) : admin_scope.
Notation "m ;; k" := (bind m (fun _ => k))
  (at level 61, right associativity) : admin_scope.
#[local] Open Scope admin_scope.

Definition exec {A} (m : M A) (w : World) : World := snd (m w).

(** The transport calls made on the way from world [w] to world [w']. *)
Definition calls_since (w w' : World) : list api_call :=
  map call (skipn (List.length (w_out w)) (w_out w')).

Section Handlers.

(** Whether the n-th call to the transport returns; otherwise it raises. *)
Variable net : nat -> bool.

(** The environment variable [ADMIN_ID]. *)
Variable ADMIN_ID : option string.

Definition transport (c : api_call) : M unit :=
  fun w =>
    let ok := net (List.length (w_out w)) in
    let w' := {| w_db := w_db w;
                 w_out := (w_out w ++ [{| call := c; delivered := ok |}])%list
              |} in
    (if ok then inr tt else inl TelegramError, w').

(** [int(s)] *)
Definition int_ (s : string) : M Z :=
  match py_int s with
  | Some n => ret n
  | None => raise ValueError
  end.

(** [db.get_booking]: an id that does not fit an SQLite INTEGER cannot be
    bound to the query, and the call raises. *)
Definition db_get_booking (booking_id : Z) : M (option Booking) :=
  fun w =>
    if in_int64 booking_id then (inr (get_booking (w_db w) booking_id), w)
    else (inl StorageError, w).

Definition db_update_booking_status (now : string) (booking_id : Z)
    (st : string) : M unit :=
  fun w =>
    (inr tt,
     {| w_db := update_booking_status (w_db w) now booking_id st None;
        w_out := w_out w |}).

Definition db_delete_booking (booking_id : Z) : M bool :=
  fun w =>
    let r := delete_booking (w_db w) booking_id in
    (inr (fst r), {| w_db := snd r; w_out := w_out w |}).

(** [str(callback.from_user.id) != str(ADMIN_ID)] *)
Definition is_admin (from_user_id : Z) : bool :=
  (str_of_Z from_user_id =? str_of_optional ADMIN_ID)%string.

Definition confirmed_text (booking : Booking) : string :=
  "✅ **Ваша запись подтверждена!**" ++ nl ++ nl
  ++ "📅 " ++ selected_date booking ++ " " ++ selected_time booking ++ nl
  ++ "🎯 " ++ get_booking_type_name (booking_type booking) ++ nl ++ nl
  ++ "Ждем вас!".

Definition rejected_text : string :=
  "❌ **К сожалению, выбранное время недоступно**" ++ nl ++ nl
  ++ "Свяжитесь с администратором.".

Definition cancelled_text (booking : Booking) : string :=
  "❌ **Ваша запись была отменена**" ++ nl ++ nl
  ++ "К сожалению, запись на " ++ selected_date booking ++ " в "
  ++ selected_time booking ++ " "
  ++ "была отменена. Свяжитесь с администратором для уточнения деталей.".

Definition delete_question_text (booking : Booking) : string :=
  "🗑 **Подтверждение удаления**" ++ nl ++ nl
  ++ "Вы уверены, что хотите удалить запись?" ++ nl ++ nl
  ++ "🆔 **ID:** " ++ str_of_Z (id booking) ++ nl
  ++ "👤 **Клиент:** " ++ full_name booking ++ nl
  ++ "📱 **Username:** @" ++ username booking ++ nl
  ++ "🎯 **Тип:** " ++ get_booking_type_name (booking_type booking) ++ nl
  ++ "📅 **Дата:** " ++ selected_date booking ++ nl
  ++ "⏰ **Время:** " ++ selected_time booking ++ nl
  ++ "📊 **Статус:** " ++ status booking.

(** The handler [confirm_booking], dispatched for callback data that
    starts with [confirm_].  [message_text] is the text of the message
    that carries the button and [now] the [CURRENT_TIMESTAMP] of the
    update.  The handler has no [try] around its body: what [int], the
    store or the last two transport calls raise leaves the handler. *)
Definition confirm_booking (from_user_id : Z) (callback_data : string)
    (message_text : option string) (now : string) : M unit :=
  if negb (prefix "confirm_" callback_data) then ret tt
  else if negb (is_admin from_user_id) then
    transport (callback_answer (Some "⛔ Нет прав") true)
  else
    booking_id <- int_ (replace "confirm_" EmptyString callback_data) ;;
    booking <- db_get_booking booking_id ;;
    match booking with
    | None => transport (callback_answer (Some "❌ Не найдено") true)
    | Some booking =>
        db_update_booking_status now booking_id "confirmed" ;;
        try_ (transport (send_message (user_id booking)
                                      (confirmed_text booking)))
             (fun _ => ret tt) ;;
        transport (callback_answer (Some "✅ Подтверждено") false) ;;
        transport (message_edit_text
                     (str_of_optional message_text ++ nl ++ nl
                      ++ "✅ **ПОДТВЕРЖДЕНО**"))
    end.

(** The handler [reject_booking], for callback data that starts with
    [reject_]. *)
Definition reject_booking (from_user_id : Z) (callback_data : string)
    (message_text : option string) (now : string) : M unit :=
  if negb (prefix "reject_" callback_data) then ret tt
  else if negb (is_admin from_user_id) then
    transport (callback_answer (Some "⛔ Нет прав") true)
  else
    booking_id <- int_ (replace "reject_" EmptyString callback_data) ;;
    booking <- db_get_booking booking_id ;;
    match booking with
    | None => transport (callback_answer (Some "❌ Не найдено") true)
    | Some booking =>
        db_update_booking_status now booking_id "rejected" ;;
        try_ (transport (send_message (user_id booking) rejected_text))
             (fun _ => ret tt) ;;
        transport (callback_answer (Some "❌ Отклонено") false) ;;
        transport (message_edit_text
                     (str_of_optional message_text ++ nl ++ nl
                      ++ "❌ **ОТКЛОНЕНО**"))
    end.

(** The handler [admin_delete_booking], for callback data that starts
    with [admin_delete_]; the data [admin_delete_menu] goes to the handler
    registered before it. *)
Definition admin_delete_booking (from_user_id : Z) (callback_data : string)
    : M unit :=
  if negb (prefix "admin_delete_" callback_data)
     || (callback_data =? "admin_delete_menu")%string
  then ret tt
  else if negb (is_admin from_user_id) then
    transport (callback_answer (Some "⛔ У вас нет прав") true)
  else
    booking_id <- int_ (replace "admin_delete_" EmptyString callback_data) ;;
    booking <- db_get_booking booking_id ;;
    match booking with
    | None => transport (callback_answer (Some "❌ Запись не найдена") true)
    | Some booking =>
        transport (message_edit_text (delete_question_text booking)) ;;
        transport (callback_answer None false)
    end.

(** The handler [delete_confirm], for callback data that starts with
    [delete_confirm_]. *)
Definition delete_confirm (from_user_id : Z) (callback_data : string)
    : M unit :=
  if negb (prefix "delete_confirm_" callback_data) then ret tt
  else if negb (is_admin from_user_id) then
    transport (callback_answer (Some "⛔ У вас нет прав") true)
  else
    booking_id <- int_ (replace "delete_confirm_" EmptyString callback_data) ;;
    booking <- db_get_booking booking_id ;;
    match booking with
    | None => transport (callback_answer (Some "❌ Запись не найдена") true)
    | Some booking =>
        success <- db_delete_booking booking_id ;;
        (if success then
           (if negb (user_id booking =? 0) then
              try_ (transport (send_message (user_id booking)
                                            (cancelled_text booking)))
                   (fun _ => ret tt)
            else ret tt) ;;
           transport (message_edit_text
                        ("✅ **Запись #" ++ str_of_Z booking_id
                         ++ " успешно удалена**"))
         else
           transport (message_edit_text "❌ **Ошибка при удалении записи**")) ;;
        transport (callback_answer None false)
    end.

End Handlers.

End Admin.

(** An administrator's handler that leaves the store as it finds it,
    whether it returns or raises. *)
Definition admin_keeps_db {A} (m : Admin.M A) : Prop :=
  forall w, Admin.w_db (snd (m w)) = Admin.w_db w.


(** The studio as the administrator's handlers see it. *)
Definition admin_studio : Admin.World :=
  {| Admin.w_db := studio_db; Admin.w_out := [] |}.



(** A handler run from [w] to [w'] that refused the caller: the store is
    as it was and the caller got nothing but alerts. *)
Definition refused (w w' : Admin.World) : Prop :=
  Admin.w_db w' = Admin.w_db w
  /\ forall c, In c (Admin.calls_since w w') ->
               exists t, c = Admin.callback_answer (Some t) true.

(** The keyboard that [process_booking] puts under the request it sends
    to the administrator, and [get_delete_confirmation_keyboard]. *)
Definition admin_keyboard (booking_id : Z) : list Button :=
  [{| button_text := "✅ Подтвердить";
      button_callback_data := "confirm_" ++ str_of_Z booking_id |};
   {| button_text := "❌ Отклонить";
      button_callback_data := "reject_" ++ str_of_Z booking_id |}].

Definition get_delete_confirmation_keyboard (booking_id : Z) : list Button :=
  [{| button_text := "✅ Да, удалить";
      button_callback_data := "delete_confirm_" ++ str_of_Z booking_id |};
   {| button_text := "❌ Нет, отмена";
      button_callback_data := "back_to_admin_menu" |}].

(** Every character of a string passes a test. *)
Fixpoint all_chars (p : ascii -> bool) (s : string) : bool :=
  match s with
  | EmptyString => true
  | String c r => p c && all_chars p r
  end.

(** The text uses the first 128 characters only.  On such a text a
    character is a byte, so lengths, positions and slices are Python's,
    and [strip], [split] and [py_int] agree with [str.strip], [str.split]
    and [int]. *)
Definition is_ascii (s : string) : bool :=
  all_chars (fun c => (nat_of_ascii c <? 128)%nat) s.

(** The number that the digits [d] write after the digits of [acc]. *)
Fixpoint uint_value (d : Decimal.uint) (acc : Z) : Z :=
  match d with
  | Decimal.Nil => acc
  | Decimal.D0 l => uint_value l (10 * acc)
  | Decimal.D1 l => uint_value l (10 * acc + 1)
  | Decimal.D2 l => uint_value l (10 * acc + 2)
  | Decimal.D3 l => uint_value l (10 * acc + 3)
  | Decimal.D4 l => uint_value l (10 * acc + 4)
  | Decimal.D5 l => uint_value l (10 * acc + 5)
  | Decimal.D6 l => uint_value l (10 * acc + 6)
  | Decimal.D7 l => uint_value l (10 * acc + 7)
  | Decimal.D8 l => uint_value l (10 * acc + 8)
  | Decimal.D9 l => uint_value l (10 * acc + 9)
  end.




(* ================================================================= *)
(** ** The modelled builtins on samples *)

Example py_int_samples :
  py_int " 0_7 " = Some 7 /\ py_int "-12" = Some (-12)
  /\ py_int "18" = Some 18 /\ py_int "1__2" = None
  /\ py_int "8_" = None /\ py_int "+ 1" = None
  /\ py_int EmptyString = None.
Proof. repeat split. Qed.

Example split_samples :
  split "." "16.03" = ["16"; "03"]
  /\ split "." "a..b." = ["a"; EmptyString; "b"; EmptyString]
  /\ split "." EmptyString = [EmptyString]
  /\ split "_" "date_1603_18" = ["date"; "1603"; "18"].
Proof. repeat split. Qed.

Example strip_samples :
  strip "  ab c  " = "ab c" /\ strip "   " = EmptyString
  /\ take 2 "1603" = "16" /\ drop 2 "1603" = "03".
Proof. repeat split. Qed.

Example datetime_samples :
  toordinal (march 15 0 0) = 739325
  /\ strftime_dm (march 5 0 0) = "05.03"
  /\ mk_datetime 2025 2 29 0 0 = None
  /\ (hours_between (march 16 18 0) (march 16 17 3) == 19 # 20)%Q.
Proof. repeat split. Qed.

(* ================================================================= *)
(** ** Facts about the store *)

Lemma occupies_true (b : Booking) :
  occupies b = true <-> status b = "pending" \/ status b = "confirmed".
Proof.
  unfold occupies. rewrite orb_true_iff, !String.eqb_eq. reflexivity.
Qed.

Lemma slot_filter_true (date time : string) (b : Booking) :
  ((selected_date b =? date)%string && (selected_time b =? time)%string
   && occupies b) = true <-> occupies_slot date time b.
Proof.
  unfold occupies_slot.
  rewrite !andb_true_iff, !String.eqb_eq, occupies_true. tauto.
Qed.

Lemma is_slot_available_rows (l : list Booking) (s : Z) (date time : string) :
  is_slot_available {| rows := l; sqlite_sequence := s |} date time = true
  <-> forall b, In b l -> ~ occupies_slot date time b.
Proof.
  unfold is_slot_available; simpl.
  induction l as [|a l IH]; simpl.
  - split; [intros _ b []| reflexivity].
  - destruct (_ && occupies a) eqn:E.
    + simpl. split; [discriminate|].
      intros H. exfalso. apply (H a); [now left|].
      now apply slot_filter_true.
    + rewrite IH. split.
      * intros H b [<-|Hb]; [|now apply H].
        rewrite <- slot_filter_true, E. discriminate.
      * intros H b Hb. apply H. now right.
Qed.

Lemma is_slot_available_iff (db : Database) (date time : string) :
  is_slot_available db date time = true
  <-> forall b, In b (rows db) -> ~ occupies_slot date time b.
Proof. destruct db as [l s]. apply is_slot_available_rows. Qed.

Lemma is_slot_available_false (db : Database) (date time : string) :
  is_slot_available db date time = false
  <-> exists b, In b (rows db) /\ occupies_slot date time b.
Proof.
  unfold is_slot_available.
  set (p := fun b => _ && occupies b).
  split.
  - intros H. destruct (filter p (rows db)) as [|b l] eqn:E; [discriminate|].
    assert (Hb : In b (filter p (rows db))) by (rewrite E; now left).
    apply filter_In in Hb. exists b. split; [tauto|].
    apply slot_filter_true. tauto.
  - intros (b & Hb & Ho).
    assert (Hf : In b (filter p (rows db))).
    { apply filter_In. split; [assumption|]. now apply slot_filter_true. }
    destruct (filter p (rows db)); [destruct Hf | reflexivity].
Qed.

Lemma update_where_id_rows (i : Z) (f : Booking -> Booking) (db : Database)
    (b' : Booking) :
  In b' (rows (update_where_id i f db))
  <-> exists b, In b (rows db)
                /\ b' = (if id b =? i then f b else b).
Proof.
  unfold update_where_id; simpl. rewrite in_map_iff.
  split; intros (b & H1 & H2); exists b; split; auto.
Qed.

(** What a status update does to the rows it selects. *)
Lemma update_booking_status_map (db : Database) (now : string) (i : Z)
    (st : string) (m : option Z) :
  exists f : Booking -> Booking,
    update_booking_status db now i st m = update_where_id i f db
    /\ forall b, id (f b) = id b /\ status (f b) = st
                 /\ selected_date (f b) = selected_date b
                 /\ selected_time (f b) = selected_time b.
Proof.
  unfold update_booking_status.
  destruct m as [m|]; [destruct (m =? 0)|];
    eexists; (split; [reflexivity|]); intros b; simpl; auto.
Qed.

Lemma occupies_slot_ext (date time : string) (a b : Booking) :
  selected_date a = selected_date b ->
  selected_time a = selected_time b ->
  status a = status b ->
  occupies_slot date time a <-> occupies_slot date time b.
Proof. unfold occupies_slot. intros -> -> ->. reflexivity. Qed.

Lemma delete_booking_rows (db : Database) (i : Z) (b : Booking) :
  In b (rows (snd (delete_booking db i))) <-> In b (rows db) /\ id b <> i.
Proof.
  simpl. rewrite filter_In, negb_true_iff, Z.eqb_neq. reflexivity.
Qed.

Lemma mark_reminder_sent_map (db : Database) (i : Z) (k : string) :
  exists f : Booking -> Booking,
    mark_reminder_sent db i k = update_where_id i f db
    /\ (forall b, frame (f b) = frame b)
    /\ (forall b, f (f b) = f b).
Proof.
  unfold mark_reminder_sent.
  destruct (k =? "day")%string; [|destruct (k =? "hour")%string].
  - exists set_reminder_day_sent. repeat split.
  - exists set_reminder_hour_sent. repeat split.
  - exists (fun b => b). repeat split.
    destruct db as [l s]. unfold update_where_id; simpl. f_equal.
    induction l as [|a l IH]; simpl; [reflexivity|].
    rewrite <- IH. now destruct (id a =? i).
Qed.

Lemma frame_fields (a b : Booking) :
  frame a = frame b ->
  id a = id b /\ selected_date a = selected_date b
  /\ selected_time a = selected_time b /\ status a = status b.
Proof. unfold frame. intros H. injection H. intros. auto. Qed.

Lemma apply_op_holds_slot (i : Z) (date time : string) (db : Database)
    (o : Op) :
  releases i o = false ->
  holds_slot i date time db -> holds_slot i date time (apply_op db o).
Proof.
  intros Hr (b & Hb & Hi & Ho). destruct o as [n u un fn bt d t|n j st m|j|j k];
    simpl in *.
  - destruct (create_booking db n u un fn bt d t) as [[x db']|] eqn:E;
      [|now exists b].
    unfold create_booking in E.
    destruct (negb (in_int64 u)); [discriminate|].
    destruct (int64_max <=? _); [discriminate|].
    injection E as _ <-. exists b. simpl. rewrite in_app_iff. auto.
  - destruct (update_booking_status_map db n j st m) as (f & -> & Hf).
    destruct (Z.eqb_spec (id b) j) as [Hj|Hj].
    + exists (f b). destruct (Hf b) as (H1 & H2 & H3 & H4).
      split; [|split].
      * apply update_where_id_rows. exists b. split; [assumption|].
        now rewrite (proj2 (Z.eqb_eq _ _) Hj).
      * congruence.
      * assert (Hj' : (j =? i) = true) by (apply Z.eqb_eq; congruence).
        rewrite Hj' in Hr. simpl in Hr. apply negb_false_iff in Hr.
        apply orb_true_iff in Hr. rewrite !String.eqb_eq in Hr.
        destruct Ho as (Hd & Ht & _). unfold occupies_slot.
        rewrite H2, H3, H4. auto.
    + exists b. split; [|auto].
      apply update_where_id_rows. exists b. split; [assumption|].
      now rewrite (proj2 (Z.eqb_neq _ _) Hj).
  - exists b. split; [|auto]. apply filter_In. split; [assumption|].
    apply negb_true_iff, Z.eqb_neq. apply Z.eqb_neq in Hr. congruence.
  - destruct (mark_reminder_sent_map db j k) as (f & -> & Hf & _).
    exists (if id b =? j then f b else b). split; [|split].
    + apply update_where_id_rows. now exists b.
    + destruct (id b =? j); [|assumption].
      destruct (frame_fields _ _ (Hf b)) as (-> & _). assumption.
    + destruct (id b =? j); [|assumption].
      destruct (frame_fields _ _ (Hf b)) as (_ & H1 & H2 & H3).
      now apply (occupies_slot_ext date time _ _ H1 H2 H3).
Qed.

Lemma apply_ops_holds_slot (i : Z) (date time : string) (ops : list Op) :
  forall db,
    forallb (fun o => negb (releases i o)) ops = true ->
    holds_slot i date time db -> holds_slot i date time (apply_ops db ops).
Proof.
  unfold apply_ops.
  induction ops as [|o ops IH]; simpl; intros db Hall H; [assumption|].
  apply andb_true_iff in Hall. destruct Hall as [Ho Hall].
  apply IH; [assumption|].
  apply apply_op_holds_slot; [now apply negb_true_iff|assumption].
Qed.

Lemma create_booking_holds_slot (db db' : Database) (now : string) (u : Z)
    (un fn bt date time : string) (new_id : Z) :
  create_booking db now u un fn bt date time = Some (new_id, db') ->
  holds_slot new_id date time db'.
Proof.
  unfold create_booking.
  destruct (negb (in_int64 u)); [discriminate|].
  destruct (int64_max <=? _); [discriminate|].
  intros E. injection E as <- <-.
  eexists. split; [simpl; apply in_app_iff; right; left; reflexivity|].
  simpl. unfold occupies_slot; simpl. auto.
Qed.

Lemma holds_slot_unavailable (i : Z) (date time : string) (db : Database) :
  holds_slot i date time db -> is_slot_available db date time = false.
Proof.
  intros (b & Hb & _ & Ho). apply is_slot_available_false. now exists b.
Qed.

Lemma released_slot_available (db : Database) (i : Z) (f : Booking -> Booking)
    (date time : string) :
  (forall b, id b = i -> ~ occupies_slot date time (f b)) ->
  is_slot_available (update_where_id i f db) date time = true
  <-> forall b, In b (rows db) -> id b <> i -> ~ occupies_slot date time b.
Proof.
  intros Hf. rewrite is_slot_available_iff. split.
  - intros H b Hb Hi Ho. apply (H b); [|assumption].
    apply update_where_id_rows. exists b. split; [assumption|].
    now rewrite (proj2 (Z.eqb_neq _ _) Hi).
  - intros H b' Hb'. apply update_where_id_rows in Hb'.
    destruct Hb' as (b & Hb & ->).
    destruct (Z.eqb_spec (id b) i); [now apply Hf | now apply H].
Qed.

(** C1.  [is_slot_available db date time] is true exactly when no row with
    status ['pending'] or ['confirmed'] has that date and time.  So after a
    successful [create_booking] for a slot the check is false, and stays
    false through any operations that neither delete the new booking nor
    move its status out of pending/confirmed; and after the booking is
    deleted or rejected the check is true exactly when no other booking
    occupies the slot. *)
Theorem is_slot_available_characterizes_occupancy :
  (forall db date time,
      is_slot_available db date time = true
      <-> forall b, In b (rows db) -> ~ occupies_slot date time b)
  /\ (forall db now uid uname fname btype date time new_id db' ops,
         create_booking db now uid uname fname btype date time
           = Some (new_id, db') ->
         forallb (fun o => negb (releases new_id o)) ops = true ->
         is_slot_available (apply_ops db' ops) date time = false)
  /\ (forall db booking_id date time,
         is_slot_available (snd (delete_booking db booking_id)) date time
           = true
         <-> forall b, In b (rows db) -> id b <> booking_id ->
                       ~ occupies_slot date time b)
  /\ (forall db now booking_id msg_id date time,
         is_slot_available
           (update_booking_status db now booking_id "rejected" msg_id)
           date time = true
         <-> forall b, In b (rows db) -> id b <> booking_id ->
                       ~ occupies_slot date time b).
Proof.
  split; [exact is_slot_available_iff|]. split; [|split].
  - intros db now uid uname fname btype date time new_id db' ops Hc Hops.
    apply (holds_slot_unavailable new_id).
    apply apply_ops_holds_slot; [assumption|].
    exact (create_booking_holds_slot _ _ _ _ _ _ _ _ _ _ Hc).
  - intros db i date time. rewrite is_slot_available_iff. split.
    + intros H b Hb Hi. apply H. now apply delete_booking_rows.
    + intros H b Hb. apply delete_booking_rows in Hb. now apply H.
  - intros db now i m date time.
    destruct (update_booking_status_map db now i "rejected" m)
      as (f & -> & Hf).
    apply released_slot_available. intros b _ (_ & _ & Hs).
    destruct (Hf b) as (_ & Hst & _). rewrite Hst in Hs.
    destruct Hs; discriminate.
Qed.

(** C9.  [mark_reminder_sent] is idempotent: a second call with the same
    booking id and reminder type leaves the store as the first call left
    it, for every reminder type and in particular for ['day'] and
    ['hour']. *)
Theorem mark_reminder_sent_idempotent :
  forall db booking_id reminder_type,
    mark_reminder_sent (mark_reminder_sent db booking_id reminder_type)
                       booking_id reminder_type
    = mark_reminder_sent db booking_id reminder_type.
Proof.
  intros db i k.
  assert (H : forall f : Booking -> Booking,
             (forall b, id (f b) = id b) -> (forall b, f (f b) = f b) ->
             update_where_id i f (update_where_id i f db)
             = update_where_id i f db).
  { intros f Hid Hff. unfold update_where_id; simpl. f_equal.
    rewrite map_map. apply map_ext. intros b.
    destruct (id b =? i) eqn:E; [|now rewrite E].
    now rewrite Hid, E, Hff. }
  unfold mark_reminder_sent.
  destruct (k =? "day")%string; [|destruct (k =? "hour")%string];
    [apply H; reflexivity | apply H; reflexivity | reflexivity].
Qed.

Lemma insert_by_perm (le : Booking -> Booking -> bool) (x : Booking)
    (l : list Booking) :
  Permutation (insert_by le x l) (x :: l).
Proof.
  induction l as [|y l IH]; simpl; [reflexivity|].
  destruct (le x y); [reflexivity|].
  rewrite IH. apply perm_swap.
Qed.

Lemma order_by_perm (le : Booking -> Booking -> bool) (l : list Booking) :
  Permutation (order_by le l) l.
Proof.
  induction l as [|x l IH]; simpl; [reflexivity|].
  rewrite insert_by_perm. now constructor.
Qed.

Lemma order_by_In (le : Booking -> Booking -> bool) (l : list Booking)
    (b : Booking) :
  In b (order_by le l) <-> In b l.
Proof.
  split; apply Permutation_in;
    [apply order_by_perm | symmetry; apply order_by_perm].
Qed.

(** C10.  Every booking returned by [get_bookings_by_date_range] has
    status ['pending'] or ['confirmed'], whatever the range; a booking
    with status ['rejected'] is never in the result.  The result holds
    exactly the rows dated inside the range that have one of the two
    statuses. *)
Theorem get_bookings_by_date_range_status :
  forall db start_date end_date,
    Forall (fun b => (status b = "pending" \/ status b = "confirmed")
                     /\ status b <> "rejected")
           (get_bookings_by_date_range db start_date end_date)
    /\ forall b,
         In b (get_bookings_by_date_range db start_date end_date)
         <-> In b (rows db)
             /\ (start_date <=? selected_date b)%string = true
             /\ (selected_date b <=? end_date)%string = true
             /\ (status b = "pending" \/ status b = "confirmed").
Proof.
  intros db s e.
  assert (H : forall b,
             In b (get_bookings_by_date_range db s e)
             <-> In b (rows db)
                 /\ (s <=? selected_date b)%string = true
                 /\ (selected_date b <=? e)%string = true
                 /\ (status b = "pending" \/ status b = "confirmed")).
  { intros b. unfold get_bookings_by_date_range.
    rewrite order_by_In, filter_In, !andb_true_iff, occupies_true. tauto. }
  split; [|exact H].
  apply Forall_forall. intros b Hb. apply H in Hb.
  destruct Hb as (_ & _ & _ & Ho).
  split; [assumption|]. intros Hr. rewrite Hr in Ho.
  destruct Ho; discriminate.
Qed.

Lemma insert_by_sorted (R : Booking -> Booking -> Prop)
    (le : Booking -> Booking -> bool) :
  (forall a b c, R a b -> R b c -> R a c) ->
  (forall a b, le a b = true -> R a b) ->
  (forall a b, le a b = false -> R b a) ->
  forall x l, StronglySorted R l -> StronglySorted R (insert_by le x l).
Proof.
  intros Htr Ht Hf x l Hs.
  induction Hs as [|y l Hs IH Hy]; simpl.
  - constructor; constructor.
  - destruct (le x y) eqn:E.
    + constructor; [now constructor|].
      constructor; [now apply Ht|].
      eapply Forall_impl; [|exact Hy]. intros z Hz.
      apply (Htr x y z); [now apply Ht | assumption].
    + constructor; [assumption|].
      apply Forall_forall. intros z Hz.
      apply (Permutation_in _ (insert_by_perm le x l)) in Hz.
      destruct Hz as [<-|Hz]; [now apply Hf|].
      rewrite Forall_forall in Hy. now apply Hy.
Qed.

Lemma order_by_sorted (R : Booking -> Booking -> Prop)
    (le : Booking -> Booking -> bool) :
  (forall a b c, R a b -> R b c -> R a c) ->
  (forall a b, le a b = true -> R a b) ->
  (forall a b, le a b = false -> R b a) ->
  forall l, StronglySorted R (order_by le l).
Proof.
  intros Htr Ht Hf l. induction l as [|x l IH]; simpl.
  - constructor.
  - now apply insert_by_sorted.
Qed.

Lemma by_priority_created_lt (a b : Booking) :
  status_priority (status a) < status_priority (status b) ->
  by_priority_created a b = true /\ by_priority_created b a = false.
Proof.
  intros H. unfold by_priority_created.
  rewrite (proj2 (Z.ltb_lt _ _) H).
  assert (H1 : (status_priority (status b) <? status_priority (status a))
               = false) by (apply Z.ltb_ge; lia).
  assert (H2 : (status_priority (status b) =? status_priority (status a))
               = false) by (apply Z.eqb_neq; lia).
  now rewrite H1, H2.
Qed.

(** C8.  [get_all_bookings] returns all rows, ordered by status priority:
    pending first, then confirmed, then rejected.  On a table that holds
    exactly three bookings with statuses ['rejected'], ['pending'],
    ['confirmed'], inserted in that order, it returns the pending one, then
    the confirmed one, then the rejected one. *)
Theorem get_all_bookings_pending_first :
  (forall db,
      Permutation (get_all_bookings db) (rows db)
      /\ StronglySorted priority_le (get_all_bookings db))
  /\ (forall db b1 b2 b3,
         rows db = [b1; b2; b3] ->
         status b1 = "rejected" ->
         status b2 = "pending" ->
         status b3 = "confirmed" ->
         get_all_bookings db = [b2; b3; b1]).
Proof.
  split.
  - intros db. split; [apply order_by_perm|].
    apply order_by_sorted; unfold priority_le, by_priority_created.
    + intros a b c. lia.
    + intros a b H. apply orb_true_iff in H. destruct H as [H|H].
      * apply Z.ltb_lt in H. lia.
      * apply andb_true_iff in H. destruct H as [H _].
        apply Z.eqb_eq in H. lia.
    + intros a b H. apply orb_false_iff in H. destruct H as [H _].
      apply Z.ltb_ge in H. lia.
  - intros db b1 b2 b3 Hr H1 H2 H3.
    unfold get_all_bookings, order_by. rewrite Hr.
    cbn [fold_right insert_by].
    destruct (by_priority_created_lt b2 b3) as [E23 _];
      [rewrite H2, H3; reflexivity|].
    destruct (by_priority_created_lt b2 b1) as [_ E12];
      [rewrite H1, H2; reflexivity|].
    destruct (by_priority_created_lt b3 b1) as [_ E13];
      [rewrite H1, H3; reflexivity|].
    rewrite E23. cbn [insert_by]. now rewrite E12, E13.
Qed.

(* ================================================================= *)
(** ** Running monadic code *)

Lemma bind_ret_l {A B} (a : A) (k : A -> M B) : bind (ret a) k = k a.
Proof. reflexivity. Qed.


Lemma bind_run {A B} (m : M A) (k : A -> M B) (w w' : World) (a : A) :
  m w = (inr a, w') -> bind m k w = k a w'.
Proof. unfold bind. now intros ->. Qed.

Lemma try_run {A} (m : M A) (h : exn -> M A) (w w' : World) (a : A) :
  m w = (inr a, w') -> try_ m h w = (inr a, w').
Proof. unfold try_. now intros ->. Qed.


(* ================================================================= *)
(** ** Running the reminder scheduler *)

Section Scheduler.

Variable net : nat -> bool.
Variable ADMIN_ID : option string.

Lemma try_transport (c : api_call) (w : World) :
  try_ (transport net c) (fun _ => ret tt) w = (inr tt, sent net c w).
Proof.
  unfold try_, sent, exec, transport. simpl.
  now destruct (net (List.length (w_out w))).
Qed.

Lemma send_day_reminder_run (b : Booking) (w : World) :
  send_day_reminder net b w
  = (inr tt, sent net (send_message (user_id b) (day_reminder_text b)) w).
Proof. apply try_transport. Qed.

Lemma send_hour_reminder_run (b : Booking) (w : World) :
  send_hour_reminder net b w
  = (inr tt, sent net (send_message (user_id b) (hour_reminder_text b)) w).
Proof. apply try_transport. Qed.

Lemma send_admin_reminder_run (b : Booking) (w : World) :
  send_admin_reminder net ADMIN_ID b w
  = (inr tt,
     match admin_chat ADMIN_ID with
     | Some a => sent net (send_message a (admin_reminder_text b)) w
     | None => w
     end).
Proof.
  unfold send_admin_reminder, admin_chat.
  destruct (truthy ADMIN_ID); simpl; [|reflexivity].
  unfold try_, bind, int_, or_raise.
  destruct (py_int (str_or ADMIN_ID EmptyString)) as [a|]; simpl; [|reflexivity].
  unfold sent, exec, transport; simpl.
  now destruct (net (List.length (w_out w))).
Qed.

Lemma db_mark_reminder_sent_run (i : Z) (k : string) (w : World) :
  db_mark_reminder_sent i k w = (inr tt, marked i k w).
Proof. reflexivity. Qed.

(** The customer's part of the loop body. *)
Lemma customer_part_run (b : Booking) (c1 c2 : bool) (w : World) :
  (if c1 then send_day_reminder net b ;; db_mark_reminder_sent (id b) "day"
   else if c2 then
          send_hour_reminder net b ;; db_mark_reminder_sent (id b) "hour"
   else ret tt) w
  = (inr tt,
     if c1 then
       marked (id b) "day"
         (sent net (send_message (user_id b) (day_reminder_text b)) w)
     else if c2 then
       marked (id b) "hour"
         (sent net (send_message (user_id b) (hour_reminder_text b)) w)
     else w).
Proof.
  destruct c1; [|destruct c2]; [| |reflexivity].
  - rewrite (bind_run _ _ _ _ _ (send_day_reminder_run b w)).
    apply db_mark_reminder_sent_run.
  - rewrite (bind_run _ _ _ _ _ (send_hour_reminder_run b w)).
    apply db_mark_reminder_sent_run.
Qed.

(** The administrator's part of the loop body. *)
Lemma admin_part_run (b : Booking) (c : bool) (w : World) :
  (if c then send_admin_reminder net ADMIN_ID b else ret tt) w
  = (inr tt,
     if c then
       match admin_chat ADMIN_ID with
       | Some a => sent net (send_message a (admin_reminder_text b)) w
       | None => w
       end
     else w).
Proof. destruct c; [apply send_admin_reminder_run | reflexivity]. Qed.

(** Symbolic execution of the loop body: it never raises, and the world it
    leaves is read off the date test, [H] and the two flags. *)
Lemma remind_run (now : datetime) (b : Booking) (w : World) :
  remind net ADMIN_ID now (strftime_dm now) b w
  = (inr tt,
     if (selected_date b <? strftime_dm now)%string then w
     else
       match hours_until now b with
       | None => w
       | Some h =>
           let w1 :=
             if in_day_window h && (reminder_day_sent b =? 0) then
               marked (id b) "day"
                 (sent net (send_message (user_id b) (day_reminder_text b)) w)
             else if in_hour_window h && (reminder_hour_sent b =? 0) then
               marked (id b) "hour"
                 (sent net (send_message (user_id b) (hour_reminder_text b)) w)
             else w in
           if in_hour_window h then
             match admin_chat ADMIN_ID with
             | Some a => sent net (send_message a (admin_reminder_text b)) w1
             | None => w1
             end
           else w1
       end).
Proof.
  unfold remind, hours_until.
  destruct (selected_date b <? strftime_dm now)%string; [reflexivity|].
  destruct (split "." (selected_date b)) as [|dd [|mm [|x1 l1]]];
    try reflexivity;
    destruct (split ":" (selected_time b)) as [|hh [|mi [|x2 l2]]];
    try reflexivity.
  cbn [List.length Nat.eqb negb orb nth].
  unfold int_.
  destruct (py_int mm) as [mo|]; [|reflexivity].
  destruct (py_int dd) as [d|]; [|reflexivity].
  destruct (py_int hh) as [h|]; [|reflexivity].
  destruct (py_int mi) as [m|]; [|reflexivity].
  cbn [or_raise]. rewrite !bind_ret_l.
  destruct (mk_datetime (year now) mo d h m) as [t|]; [|reflexivity].
  cbn [option_map or_raise]. rewrite bind_ret_l. cbv zeta.
  apply try_run.
  rewrite (bind_run _ _ _ _ _ (customer_part_run b _ _ w)).
  apply admin_part_run.
Qed.

Lemma calls_since_app (w w' : World) (l : list Delivery) :
  w_out w' = (w_out w ++ l)%list -> calls_since w w' = map call l.
Proof.
  unfold calls_since. intros ->. f_equal.
  induction (w_out w) as [|x o IH]; simpl; auto.
Qed.

(** The loop body only appends to the transport log, leaves the
    conversation alone, and its calls and its store update do not depend
    on the world it starts from. *)
Lemma remind_effect (now : datetime) (b : Booking) (w : World) :
  exists l,
    exec (remind net ADMIN_ID now (strftime_dm now) b) w
    = {| w_db := remind_db now b (w_db w);
         w_out := (w_out w ++ l)%list;
         w_fsm := w_fsm w |}
    /\ map call l = remind_calls ADMIN_ID now b.
Proof.
  unfold exec. rewrite remind_run. cbn [snd].
  unfold remind_calls, remind_db.
  destruct (selected_date b <? strftime_dm now)%string.
  { exists []. rewrite app_nil_r. now destruct w. }
  destruct (hours_until now b) as [h|].
  2:{ exists []. rewrite app_nil_r. now destruct w. }
  cbv zeta. unfold marked, sent, exec, db_mark_reminder_sent, transport,
    bind, get_db, put_db. cbn [fst snd w_db w_out w_fsm].
  destruct (in_day_window h && (reminder_day_sent b =? 0));
    [|destruct (in_hour_window h && (reminder_hour_sent b =? 0))];
    (destruct (in_hour_window h);
     [destruct (admin_chat ADMIN_ID) as [a|]|]);
    cbn [fst snd w_db w_out w_fsm];
    try (rewrite <- app_assoc; cbn [app]);
    try (eexists; split; [reflexivity|reflexivity]);
    try (exists []; rewrite app_nil_r; now destruct w).
Qed.

Lemma for_each_run {A} (f : A -> M unit) (l : list A) :
  (forall x w, fst (f x w) = inr tt) ->
  forall w,
    for_each l f w = (inr tt, fold_left (fun w x => exec (f x) w) l w).
Proof.
  intros Hf. induction l as [|x l IH]; intros w; simpl; [reflexivity|].
  unfold bind, exec. specialize (Hf x w).
  destruct (f x w) as [r w1]. simpl in *. subst r. apply IH.
Qed.

(** One pass is the loop body run on every confirmed booking of the
    snapshot taken at its start; it never raises. *)
Lemma check_reminders_tick_run (now : datetime) (w : World) :
  check_reminders_tick net ADMIN_ID now w
  = (inr tt,
     fold_left (fun w b => exec (remind net ADMIN_ID now (strftime_dm now) b) w)
               (get_confirmed_bookings (w_db w)) w).
Proof.
  unfold check_reminders_tick. apply try_run. cbv zeta.
  rewrite (bind_run _ _ w w (w_db w)) by reflexivity.
  apply for_each_run. intros b w1. now rewrite remind_run.
Qed.

(** The effect of the loop over a list of bookings. *)
Lemma remind_fold_effect (now : datetime) (bs : list Booking) :
  forall w,
  exists l,
    fold_left (fun w b => exec (remind net ADMIN_ID now (strftime_dm now) b) w)
              bs w
    = {| w_db := fold_left (fun db b => remind_db now b db) bs (w_db w);
         w_out := (w_out w ++ l)%list;
         w_fsm := w_fsm w |}
    /\ map call l = flat_map (remind_calls ADMIN_ID now) bs.
Proof.
  induction bs as [|b bs IH]; intros w; simpl.
  - exists []. rewrite app_nil_r. now destruct w.
  - destruct (remind_effect now b w) as (l1 & -> & H1).
    destruct (IH {| w_db := remind_db now b (w_db w);
                    w_out := (w_out w ++ l1)%list;
                    w_fsm := w_fsm w |}) as (l2 & -> & H2).
    cbn [w_db w_out w_fsm]. exists (l1 ++ l2)%list. split.
    + now rewrite app_assoc.
    + now rewrite map_app, H1, H2.
Qed.

(** One pass, summed up: the store after it, and the calls it made. *)
Lemma check_reminders_tick_effect (now : datetime) (w : World) :
  let w' := exec (check_reminders_tick net ADMIN_ID now) w in
  let bs := get_confirmed_bookings (w_db w) in
  w_db w' = fold_left (fun db b => remind_db now b db) bs (w_db w)
  /\ calls_since w w' = flat_map (remind_calls ADMIN_ID now) bs
  /\ w_fsm w' = w_fsm w.
Proof.
  cbv zeta. unfold exec at 1 2 3. rewrite check_reminders_tick_run.
  cbn [snd].
  destruct (remind_fold_effect now (get_confirmed_bookings (w_db w)) w)
    as (l & -> & Hl).
  cbn [w_db w_fsm]. repeat split.
  rewrite <- Hl. now apply calls_since_app.
Qed.

End Scheduler.

(* ================================================================= *)
(** ** The scan and the store *)

Lemma update_where_id_frame (i : Z) (f : Booking -> Booking)
    (db : Database) :
  (forall b, frame (f b) = frame b) ->
  map frame (rows (update_where_id i f db)) = map frame (rows db)
  /\ sqlite_sequence (update_where_id i f db) = sqlite_sequence db.
Proof.
  intros Hf. split; [|reflexivity].
  unfold update_where_id; simpl. rewrite map_map. apply map_ext.
  intros b. destruct (id b =? i); [apply Hf | reflexivity].
Qed.

Lemma mark_reminder_sent_frame (db : Database) (i : Z) (k : string) :
  map frame (rows (mark_reminder_sent db i k)) = map frame (rows db)
  /\ sqlite_sequence (mark_reminder_sent db i k) = sqlite_sequence db.
Proof.
  destruct (mark_reminder_sent_map db i k) as (f & -> & Hf & _).
  now apply update_where_id_frame.
Qed.

Lemma remind_db_frame (now : datetime) (b : Booking) (db : Database) :
  map frame (rows (remind_db now b db)) = map frame (rows db)
  /\ sqlite_sequence (remind_db now b db) = sqlite_sequence db.
Proof.
  unfold remind_db.
  destruct (selected_date b <? strftime_dm now)%string; [now split|].
  destruct (hours_until now b) as [h|]; [|now split].
  destruct (in_day_window h && _); [apply mark_reminder_sent_frame|].
  destruct (in_hour_window h && _); [apply mark_reminder_sent_frame|].
  now split.
Qed.

Lemma remind_db_fold_frame (now : datetime) (bs : list Booking) :
  forall db,
    map frame (rows (fold_left (fun db b => remind_db now b db) bs db))
    = map frame (rows db)
    /\ sqlite_sequence (fold_left (fun db b => remind_db now b db) bs db)
       = sqlite_sequence db.
Proof.
  induction bs as [|b bs IH]; intros db; simpl; [now split|].
  destruct (IH (remind_db now b db)) as [-> ->]. apply remind_db_frame.
Qed.

(** C6.  The scan pass creates no booking, deletes none, and changes no
    field of a booking other than the two reminder flags: over any number
    of passes, with any transport behaviour, the rows keep their id,
    requester fields, category, date, time, status, message id and
    timestamps, row by row, and the rowid counter is unchanged. *)
Theorem check_reminders_only_sets_flags :
  forall net ADMIN_ID ticks w,
    let w' := exec (check_reminders net ADMIN_ID ticks) w in
    map frame (rows (w_db w')) = map frame (rows (w_db w))
    /\ map id (rows (w_db w')) = map id (rows (w_db w))
    /\ sqlite_sequence (w_db w') = sqlite_sequence (w_db w).
Proof.
  intros net ADMIN_ID ticks w. cbv zeta.
  assert (H : map frame
                (rows (w_db (exec (check_reminders net ADMIN_ID ticks) w)))
              = map frame (rows (w_db w))
              /\ sqlite_sequence
                   (w_db (exec (check_reminders net ADMIN_ID ticks) w))
                 = sqlite_sequence (w_db w)).
  { unfold check_reminders, exec at 1 2.
    rewrite for_each_run
      by (intros now w1; now rewrite check_reminders_tick_run).
    cbn [snd]. revert w.
    induction ticks as [|now ticks IH]; intros w; simpl; [now split|].
    destruct (IH (exec (check_reminders_tick net ADMIN_ID now) w))
      as [-> ->].
    destruct (check_reminders_tick_effect net ADMIN_ID now w)
      as (-> & _ & _).
    apply remind_db_fold_frame. }
  destruct H as [Hf Hs]. repeat split; [exact Hf| |exact Hs].
  apply (f_equal (map (fun x =>
     fst (fst (fst (fst (fst (fst (fst (fst (fst (fst x))))))))))))
    in Hf.
  rewrite !map_map in Hf. exact Hf.
Qed.

(** C5.  A booking whose date is, as a string, before today's [DD.MM]
    triggers nothing: the loop body leaves the world as it found it,
    whatever the booking's flags, and a whole pass is the loop body run
    on the confirmed bookings that are not dated before today. *)
Theorem past_booking_never_reminded :
  forall net ADMIN_ID now,
    (forall b w,
        (selected_date b <? strftime_dm now)%string = true ->
        remind net ADMIN_ID now (strftime_dm now) b w = (inr tt, w))
    /\ (forall w,
           check_reminders_tick net ADMIN_ID now w
           = (inr tt,
              fold_left
                (fun w b =>
                   exec (remind net ADMIN_ID now (strftime_dm now) b) w)
                (filter
                   (fun b =>
                      negb (selected_date b <? strftime_dm now)%string)
                   (get_confirmed_bookings (w_db w)))
                w)).
Proof.
  intros net ADMIN_ID now.
  assert (H : forall b w,
             (selected_date b <? strftime_dm now)%string = true ->
             remind net ADMIN_ID now (strftime_dm now) b w = (inr tt, w)).
  { intros b w Hb. rewrite remind_run. now rewrite Hb. }
  split; [exact H|].
  intros w. rewrite check_reminders_tick_run. f_equal.
  generalize (get_confirmed_bookings (w_db w)) as bs. intros bs. revert w.
  induction bs as [|b bs IH]; intros w; simpl; [reflexivity|].
  destruct (selected_date b <? strftime_dm now)%string eqn:E; simpl.
  - unfold exec at 2. rewrite (H b w E). apply IH.
  - apply IH.
Qed.

(* ================================================================= *)
(** ** The reminder windows *)

Lemma in_day_window_iff (h : Q) :
  in_day_window h = true <-> (23 # 1 <= h /\ h <= 25 # 1)%Q.
Proof.
  unfold in_day_window. now rewrite andb_true_iff, !Qle_bool_iff.
Qed.

Lemma in_hour_window_iff (h : Q) :
  in_hour_window h = true <-> (9 # 10 <= h /\ h <= 11 # 10)%Q.
Proof.
  unfold in_hour_window. now rewrite andb_true_iff, !Qle_bool_iff.
Qed.

(** The two windows do not meet. *)
Lemma windows_disjoint (h : Q) :
  in_day_window h = true -> in_hour_window h = true -> False.
Proof.
  rewrite in_day_window_iff, in_hour_window_iff.
  intros [H1 _] [_ H2].
  assert (H : (23 # 1 <= 11 # 10)%Q) by (eapply Qle_trans; eassumption).
  revert H. unfold Qle; simpl. lia.
Qed.

Lemma in_day_window_Qeq (h h' : Q) :
  (h == h')%Q -> in_day_window h = in_day_window h'.
Proof. unfold in_day_window. now intros ->. Qed.

Lemma in_hour_window_Qeq (h h' : Q) :
  (h == h')%Q -> in_hour_window h = in_hour_window h'.
Proof. unfold in_hour_window. now intros ->. Qed.

(** The three reminder texts differ from one another, so a call tells
    which reminder it carries. *)
Lemma day_text_not_hour (b b' : Booking) :
  day_reminder_text b <> hour_reminder_text b'.
Proof. unfold day_reminder_text, hour_reminder_text. discriminate. Qed.

Lemma day_text_not_admin (b b' : Booking) :
  day_reminder_text b <> admin_reminder_text b'.
Proof. unfold day_reminder_text, admin_reminder_text. discriminate. Qed.

Lemma hour_text_not_admin (b b' : Booking) :
  hour_reminder_text b <> admin_reminder_text b'.
Proof. unfold hour_reminder_text, admin_reminder_text. discriminate. Qed.

(** What a row looks like after [mark_reminder_sent]: it comes from a row
    with the same id, its flags can only have been set, and the flag named
    by the call is set on the rows with the id of the call. *)
Lemma mark_reminder_sent_rows (db : Database) (i : Z) (k : string)
    (r' : Booking) :
  In r' (rows (mark_reminder_sent db i k)) ->
  exists r,
    In r (rows db) /\ id r' = id r
    /\ (reminder_day_sent r' = reminder_day_sent r
        \/ reminder_day_sent r' = 1)
    /\ (reminder_hour_sent r' = reminder_hour_sent r
        \/ reminder_hour_sent r' = 1)
    /\ (id r = i -> k = "day" -> reminder_day_sent r' = 1)
    /\ (id r = i -> k = "hour" -> reminder_hour_sent r' = 1).
Proof.
  unfold mark_reminder_sent.
  destruct (k =? "day")%string eqn:Ed;
    [|destruct (k =? "hour")%string eqn:Eh].
  - intros H. apply update_where_id_rows in H. destruct H as (r & Hr & ->).
    exists r. split; [assumption|].
    destruct (Z.eqb_spec (id r) i); simpl; repeat split; auto;
      try contradiction.
    intros _ ->. discriminate.
  - intros H. apply update_where_id_rows in H. destruct H as (r & Hr & ->).
    exists r. split; [assumption|].
    destruct (Z.eqb_spec (id r) i); simpl; repeat split; auto;
      try contradiction.
    intros _ ->. discriminate.
  - intros H. exists r'. repeat split; auto.
    + intros _ ->. discriminate.
    + intros _ ->. discriminate.
Qed.

(** The loop body never clears a flag. *)
Lemma remind_db_rows (now : datetime) (b : Booking) (db : Database)
    (r' : Booking) :
  In r' (rows (remind_db now b db)) ->
  exists r,
    In r (rows db) /\ id r' = id r
    /\ (reminder_day_sent r' = reminder_day_sent r
        \/ reminder_day_sent r' = 1)
    /\ (reminder_hour_sent r' = reminder_hour_sent r
        \/ reminder_hour_sent r' = 1).
Proof.
  assert (Hid : In r' (rows db) ->
                exists r, In r (rows db) /\ id r' = id r
                  /\ (reminder_day_sent r' = reminder_day_sent r
                      \/ reminder_day_sent r' = 1)
                  /\ (reminder_hour_sent r' = reminder_hour_sent r
                      \/ reminder_hour_sent r' = 1))
    by (intros H; exists r'; auto).
  assert (Hm : forall k, In r' (rows (mark_reminder_sent db (id b) k)) ->
                exists r, In r (rows db) /\ id r' = id r
                  /\ (reminder_day_sent r' = reminder_day_sent r
                      \/ reminder_day_sent r' = 1)
                  /\ (reminder_hour_sent r' = reminder_hour_sent r
                      \/ reminder_hour_sent r' = 1)).
  { intros k H. apply mark_reminder_sent_rows in H.
    destruct H as (r & H1 & H2 & H3 & H4 & _). exists r. auto. }
  unfold remind_db.
  destruct (selected_date b <? strftime_dm now)%string; [exact Hid|].
  destruct (hours_until now b) as [h|]; [|exact Hid].
  destruct (in_day_window h && _); [apply Hm|].
  destruct (in_hour_window h && _); [apply Hm|exact Hid].
Qed.

Lemma remind_db_fold_keeps (now : datetime) (i : Z) (bs : list Booking) :
  forall db,
    (day_marked i db ->
     day_marked i (fold_left (fun db b => remind_db now b db) bs db))
    /\ (hour_marked i db ->
        hour_marked i (fold_left (fun db b => remind_db now b db) bs db)).
Proof.
  induction bs as [|b bs IH]; intros db; simpl; [now split|].
  destruct (IH (remind_db now b db)) as [IH1 IH2].
  split; intros H; [apply IH1 | apply IH2]; intros r' Hr' Hi;
    apply remind_db_rows in Hr';
    destruct Hr' as (r & Hr & Hid & [Hd|Hd] & [Hh|Hh]);
    try assumption;
    first [ rewrite Hd | rewrite Hh ]; apply H; congruence.
Qed.

Lemma remind_db_marks_day (now : datetime) (b : Booking) (h : Q)
    (db : Database) :
  (selected_date b <? strftime_dm now)%string = false ->
  hours_until now b = Some h ->
  in_day_window h = true -> reminder_day_sent b = 0 ->
  day_marked (id b) (remind_db now b db).
Proof.
  intros Hd Hh Hw Hf. unfold remind_db. rewrite Hd, Hh, Hw, Hf. simpl.
  intros r' Hr' Hi. apply mark_reminder_sent_rows in Hr'.
  destruct Hr' as (r & _ & Hid & _ & _ & H & _).
  apply H; [congruence | reflexivity].
Qed.

Lemma remind_db_marks_hour (now : datetime) (b : Booking) (h : Q)
    (db : Database) :
  (selected_date b <? strftime_dm now)%string = false ->
  hours_until now b = Some h ->
  in_hour_window h = true -> reminder_hour_sent b = 0 ->
  hour_marked (id b) (remind_db now b db).
Proof.
  intros Hd Hh Hw Hf. unfold remind_db. rewrite Hd, Hh, Hw, Hf.
  destruct (in_day_window h) eqn:E;
    [exfalso; now apply (windows_disjoint h)|].
  simpl.
  intros r' Hr' Hi. apply mark_reminder_sent_rows in Hr'.
  destruct Hr' as (r & _ & Hid & _ & _ & _ & H).
  apply H; [congruence | reflexivity].
Qed.

(** After a pass over bookings that include [b], the flag that [b]'s
    window calls for is set on [b]'s rows. *)
Lemma remind_db_fold_marks (now : datetime) (b : Booking) (h : Q)
    (bs : list Booking) (db : Database) :
  In b bs ->
  (selected_date b <? strftime_dm now)%string = false ->
  hours_until now b = Some h ->
  (in_day_window h = true -> reminder_day_sent b = 0 ->
   day_marked (id b) (fold_left (fun db b => remind_db now b db) bs db))
  /\ (in_hour_window h = true -> reminder_hour_sent b = 0 ->
      hour_marked (id b) (fold_left (fun db b => remind_db now b db) bs db)).
Proof.
  intros Hin Hd Hh. apply in_split in Hin. destruct Hin as (l1 & l2 & ->).
  rewrite fold_left_app. simpl.
  set (db1 := fold_left _ l1 db).
  destruct (remind_db_fold_keeps now (id b) l2 (remind_db now b db1))
    as [K1 K2].
  split; intros Hw Hf.
  - apply K1. now apply (remind_db_marks_day now b h).
  - apply K2. now apply (remind_db_marks_hour now b h).
Qed.

(* ================================================================= *)
(** ** Which reminders a pass sends *)

Lemma remind_calls_run (net : nat -> bool) (ADMIN_ID : option string)
    (now : datetime) (b : Booking) (w : World) :
  calls_since w (exec (remind net ADMIN_ID now (strftime_dm now) b) w)
  = remind_calls ADMIN_ID now b.
Proof.
  destruct (remind_effect net ADMIN_ID now b w) as (l & -> & <-).
  now apply calls_since_app.
Qed.

Lemma send_message_inj (c c' : Z) (t t' : string) :
  send_message c t = send_message c' t' -> t = t'.
Proof. now intros [= _ ->]. Qed.

Lemma flag_cond (c : bool) (z : Z) :
  c && (z =? 0) = true <-> c = true /\ z = 0.
Proof. now rewrite andb_true_iff, Z.eqb_eq. Qed.

Lemma remind_calls_day (ADMIN_ID : option string) (now : datetime)
    (b : Booking) (h : Q) :
  (selected_date b <? strftime_dm now)%string = false ->
  hours_until now b = Some h ->
  In (send_message (user_id b) (day_reminder_text b))
     (remind_calls ADMIN_ID now b)
  <-> in_day_window h = true /\ reminder_day_sent b = 0.
Proof.
  intros Hd Hh. unfold remind_calls. rewrite Hd, Hh.
  rewrite in_app_iff, <- flag_cond.
  destruct (in_day_window h && (reminder_day_sent b =? 0)) eqn:E.
  - split; [intros _; reflexivity | intros _; left; now left].
  - split; [|discriminate]. intros [H|H]; exfalso.
    + destruct (in_hour_window h && _); [|destruct H].
      destruct H as [H|[]]. apply send_message_inj in H.
      symmetry in H. now apply day_text_not_hour in H.
    + destruct (in_hour_window h); [|destruct H].
      destruct (admin_chat ADMIN_ID); [|destruct H].
      destruct H as [H|[]]. apply send_message_inj in H.
      symmetry in H. now apply day_text_not_admin in H.
Qed.

Lemma remind_calls_hour (ADMIN_ID : option string) (now : datetime)
    (b : Booking) (h : Q) :
  (selected_date b <? strftime_dm now)%string = false ->
  hours_until now b = Some h ->
  In (send_message (user_id b) (hour_reminder_text b))
     (remind_calls ADMIN_ID now b)
  <-> in_hour_window h = true /\ reminder_hour_sent b = 0.
Proof.
  intros Hd Hh. unfold remind_calls. rewrite Hd, Hh.
  rewrite in_app_iff, <- flag_cond.
  destruct (in_day_window h) eqn:Ew.
  - assert (Eh : in_hour_window h = false).
    { destruct (in_hour_window h) eqn:Eh; [|reflexivity].
      exfalso. now apply (windows_disjoint h). }
    rewrite Eh. cbn [andb]. split; [|discriminate].
    intros [H|[]]. exfalso.
    destruct (reminder_day_sent b =? 0); [|destruct H].
    destruct H as [H|[]]. apply send_message_inj in H.
    now apply day_text_not_hour in H.
  - cbn [andb].
    destruct (in_hour_window h && (reminder_hour_sent b =? 0)) eqn:E.
    + split; [intros _; reflexivity | intros _; left; now left].
    + split; [|discriminate]. intros [[]|H]. exfalso.
      destruct (in_hour_window h); [|destruct H].
      destruct (admin_chat ADMIN_ID); [|destruct H].
      destruct H as [H|[]]. apply send_message_inj in H.
      symmetry in H. now apply hour_text_not_admin in H.
Qed.

Lemma remind_calls_admin (ADMIN_ID : option string) (now : datetime)
    (b : Booking) (h : Q) (a : Z) :
  admin_chat ADMIN_ID = Some a ->
  (selected_date b <? strftime_dm now)%string = false ->
  hours_until now b = Some h ->
  In (send_message a (admin_reminder_text b)) (remind_calls ADMIN_ID now b)
  <-> in_hour_window h = true.
Proof.
  intros Ha Hd Hh. unfold remind_calls. rewrite Hd, Hh, Ha.
  rewrite in_app_iff.
  destruct (in_hour_window h).
  - split; [reflexivity|]. intros _. right. now left.
  - split; [|discriminate]. intros [H|[]]. exfalso.
    destruct (in_day_window h && _).
    + destruct H as [H|[]]. apply send_message_inj in H.
      now apply day_text_not_admin in H.
    + cbn [andb] in H. destruct H.
Qed.

(** A call of a pass is a call of the loop body on one of the confirmed
    bookings. *)
Lemma tick_calls_iff (net : nat -> bool) (ADMIN_ID : option string)
    (now : datetime) (w : World) (c : api_call) :
  In c (calls_since w (exec (check_reminders_tick net ADMIN_ID now) w))
  <-> exists b,
        In b (rows (w_db w)) /\ status b = "confirmed"
        /\ In c (calls_since w
                   (exec (remind net ADMIN_ID now (strftime_dm now) b) w)).
Proof.
  destruct (check_reminders_tick_effect net ADMIN_ID now w) as (_ & -> & _).
  rewrite in_flat_map. unfold get_confirmed_bookings.
  split; intros (b & Hb & Hc); exists b.
  - apply order_by_In, filter_In in Hb. rewrite String.eqb_eq in Hb.
    rewrite remind_calls_run. tauto.
  - rewrite remind_calls_run in Hc. split; [|tauto].
    apply order_by_In, filter_In. rewrite String.eqb_eq. tauto.
Qed.

(** The windows, for a booking that passes the date test of the scan.
    On a scan pass run at [now], for a confirmed booking whose [DD.MM]
    text is not smaller than today's and whose hours-to-start [H] (date
    and time taken in the year of [now]) is [h]: the pass sends the customer's day
    reminder and sets the day flag when [23 <= h <= 25] and the day flag
    is clear; it sends the customer's hour reminder and sets the hour flag
    when [0.9 <= h <= 1.1] and the hour flag is clear; and the loop body
    sends either reminder for this booking in no other case.  Every call of
    a pass is a call of the loop body on one of the confirmed bookings. *)
Theorem customer_reminders_sent_exactly_in_window :
  forall net ADMIN_ID now b h,
    (selected_date b <? strftime_dm now)%string = false ->
    hours_until now b = Some h ->
    (forall w,
        let w' := exec (remind net ADMIN_ID now (strftime_dm now) b) w in
        (In (send_message (user_id b) (day_reminder_text b))
            (calls_since w w')
         <-> (23 # 1 <= h /\ h <= 25 # 1)%Q /\ reminder_day_sent b = 0)
        /\ (In (send_message (user_id b) (hour_reminder_text b))
               (calls_since w w')
            <-> (9 # 10 <= h /\ h <= 11 # 10)%Q
                /\ reminder_hour_sent b = 0))
    /\ (forall w,
           In b (rows (w_db w)) -> status b = "confirmed" ->
           let w' := exec (check_reminders_tick net ADMIN_ID now) w in
           ((23 # 1 <= h /\ h <= 25 # 1)%Q /\ reminder_day_sent b = 0 ->
            In (send_message (user_id b) (day_reminder_text b))
               (calls_since w w')
            /\ forall r, In r (rows (w_db w')) -> id r = id b ->
                         reminder_day_sent r = 1)
           /\ ((9 # 10 <= h /\ h <= 11 # 10)%Q
               /\ reminder_hour_sent b = 0 ->
               In (send_message (user_id b) (hour_reminder_text b))
                  (calls_since w w')
               /\ forall r, In r (rows (w_db w')) -> id r = id b ->
                            reminder_hour_sent r = 1))
    /\ (forall w c,
           In c (calls_since w
                   (exec (check_reminders_tick net ADMIN_ID now) w))
           <-> exists b',
                 In b' (rows (w_db w)) /\ status b' = "confirmed"
                 /\ In c (calls_since w
                            (exec (remind net ADMIN_ID now
                                     (strftime_dm now) b') w))).
Proof.
  intros net ADMIN_ID now b h Hd Hh.
  split; [|split].
  - intros w. cbv zeta. rewrite remind_calls_run.
    rewrite <- in_day_window_iff, <- in_hour_window_iff.
    split; [now apply remind_calls_day | now apply remind_calls_hour].
  - intros w Hb Hs. cbv zeta.
    assert (Hin : In b (get_confirmed_bookings (w_db w))).
    { apply order_by_In, filter_In. now rewrite String.eqb_eq. }
    destruct (remind_db_fold_marks now b h _ (w_db w) Hin Hd Hh)
      as [M1 M2].
    destruct (check_reminders_tick_effect net ADMIN_ID now w)
      as (Edb & _ & _).
    rewrite <- in_day_window_iff, <- in_hour_window_iff.
    split; intros [Hw Hf]; split.
    + apply (proj2 (tick_calls_iff net ADMIN_ID now w _)). exists b.
      rewrite remind_calls_run. repeat split; try assumption.
      now apply (remind_calls_day ADMIN_ID now b h).
    + rewrite Edb. now apply M1.
    + apply (proj2 (tick_calls_iff net ADMIN_ID now w _)). exists b.
      rewrite remind_calls_run. repeat split; try assumption.
      now apply (remind_calls_hour ADMIN_ID now b h).
    + rewrite Edb. now apply M2.
  - intros w c. apply tick_calls_iff.
Qed.

(* ================================================================= *)
(** ** A booking followed through successive passes *)

(** One pass over a table that holds a single confirmed booking. *)
Lemma tick_single (net : nat -> bool) (ADMIN_ID : option string)
    (now : datetime) (b : Booking) (H : Q) (w : World) :
  rows (w_db w) = [b] ->
  status b = "confirmed" ->
  hours_away now b H ->
  let w' := exec (check_reminders_tick net ADMIN_ID now) w in
  let day := in_day_window H && (reminder_day_sent b =? 0) in
  let hour := in_hour_window H && (reminder_hour_sent b =? 0) in
  rows (w_db w')
  = [if day then set_reminder_day_sent b
     else if hour then set_reminder_hour_sent b else b]
  /\ calls_since w w'
     = ((if day then [send_message (user_id b) (day_reminder_text b)]
         else if hour then
                [send_message (user_id b) (hour_reminder_text b)]
         else [])
        ++ (if in_hour_window H then
              match admin_chat ADMIN_ID with
              | Some a => [send_message a (admin_reminder_text b)]
              | None => []
              end
            else []))%list.
Proof.
  intros Hr Hs (Hd & h & Hh & Heq). cbv zeta.
  destruct (check_reminders_tick_effect net ADMIN_ID now w)
    as (-> & -> & _).
  assert (Hc : get_confirmed_bookings (w_db w) = [b]).
  { unfold get_confirmed_bookings. rewrite Hr. simpl.
    now rewrite (proj2 (String.eqb_eq _ _) Hs). }
  rewrite Hc. cbn [fold_left flat_map]. rewrite app_nil_r.
  unfold remind_db, remind_calls. rewrite Hd, Hh.
  rewrite <- (in_day_window_Qeq h H Heq), <- (in_hour_window_Qeq h H Heq).
  split; [|reflexivity].
  destruct (in_day_window h && _);
    [|destruct (in_hour_window h && _)]; try assumption;
    unfold mark_reminder_sent, update_where_id; cbn [String.eqb Ascii.eqb];
    simpl; rewrite Hr; simpl; now rewrite Z.eqb_refl.
Qed.

Lemma studio_rows : rows studio_db = [anna].
Proof. reflexivity. Qed.


(** The scenario on a table that holds the booking alone.  With an
    administrator chat configured, a confirmed booking that is alone in
    the table, has both flags clear and passes the date test of the scan
    goes through successive passes as follows: at [H = 25.25] nothing is sent;
    at [H = 25] the day reminder is sent and the day flag set (the window
    is closed at both ends); at [H = 24] and at [H = 23.5] nothing more is
    sent; at [H = 1] the customer's hour reminder and the administrator's
    reminder are sent and the hour flag set; at [H = 0.95] the
    administrator's reminder is sent again and the customer's is not.
    In general the loop body sends the administrator's reminder exactly
    when [0.9 <= H <= 1.1], whatever the flags. *)
Theorem reminder_scenario :
  forall net ADMIN_ID admin b w t0 t1 t2 t3 t4 t5,
    admin_chat ADMIN_ID = Some admin ->
    rows (w_db w) = [b] ->
    status b = "confirmed" ->
    reminder_day_sent b = 0 ->
    reminder_hour_sent b = 0 ->
    hours_away t0 b (101 # 4) ->
    hours_away t1 b (25 # 1) ->
    hours_away t2 b (24 # 1) ->
    hours_away t3 b (47 # 2) ->
    hours_away t4 b (1 # 1) ->
    hours_away t5 b (19 # 20) ->
    let tick := fun t => exec (check_reminders_tick net ADMIN_ID t) in
    let w0 := tick t0 w in
    let w1 := tick t1 w0 in
    let w2 := tick t2 w1 in
    let w3 := tick t3 w2 in
    let w4 := tick t4 w3 in
    let w5 := tick t5 w4 in
    let day := send_message (user_id b) (day_reminder_text b) in
    let hour := send_message (user_id b) (hour_reminder_text b) in
    let to_admin := send_message admin (admin_reminder_text b) in
    (calls_since w w0 = []
     /\ calls_since w0 w1 = [day]
     /\ map reminder_day_sent (rows (w_db w1)) = [1]
     /\ calls_since w1 w2 = []
     /\ calls_since w2 w3 = []
     /\ calls_since w3 w4 = [hour; to_admin]
     /\ map reminder_hour_sent (rows (w_db w4)) = [1]
     /\ calls_since w4 w5 = [to_admin])
    /\ (forall now b' h w',
           (selected_date b' <? strftime_dm now)%string = false ->
           hours_until now b' = Some h ->
           In (send_message admin (admin_reminder_text b'))
              (calls_since w'
                 (exec (remind net ADMIN_ID now (strftime_dm now) b') w'))
           <-> (9 # 10 <= h /\ h <= 11 # 10)%Q).
Proof.
  intros net ADMIN_ID admin b w t0 t1 t2 t3 t4 t5
         Ha Hr Hs Hfd Hfh H0 H1 H2 H3 H4 H5.
  cbv zeta. split.
  - destruct (tick_single net ADMIN_ID t0 b _ w Hr Hs H0) as [R0 C0].
    rewrite Hfd, Hfh in R0, C0. settle R0. settle C0.
    destruct (tick_single net ADMIN_ID t1 b _ _ R0 Hs H1) as [R1 C1].
    rewrite Hfd, Hfh in R1, C1. settle R1. settle C1.
    destruct (tick_single net ADMIN_ID t2 (set_reminder_day_sent b) _ _
                R1 Hs H2) as [R2 C2].
    settle R2. settle C2.
    destruct (tick_single net ADMIN_ID t3 (set_reminder_day_sent b) _ _
                R2 Hs H3) as [R3 C3].
    settle R3. settle C3.
    destruct (tick_single net ADMIN_ID t4 (set_reminder_day_sent b) _ _
                R3 Hs H4) as [R4 C4].
    settle R4. settle C4. rewrite Hfh in R4, C4. rewrite Ha in C4.
    settle R4. settle C4.
    destruct (tick_single net ADMIN_ID t5
                (set_reminder_hour_sent (set_reminder_day_sent b)) _ _
                R4 Hs H5) as [R5 C5].
    settle C5. rewrite Ha in C5. settle C5.
    rewrite C0, C1, C2, C3, C4, C5, R1, R4. repeat split.
  - intros now b' h w' Hd Hh. rewrite remind_calls_run.
    rewrite <- in_hour_window_iff.
    now apply (remind_calls_admin ADMIN_ID now b' h admin).
Qed.

(* ================================================================= *)
(** ** Creating a booking on a taken slot *)






(* ================================================================= *)
(** ** A failed delivery *)



(* ================================================================= *)
(** ** Worked instances *)

(** A request for 20.03 at 15:00 keeps the slot taken while it is
    confirmed, flagged and joined by another request. *)
Lemma is_slot_available_witness :
  create_booking studio_db "2025-03-11 08:00:00" 77 "bob" "Bob" "group"
                 "20.03" "15:00"
  = Some (2, apply_op studio_db
               (OpCreate "2025-03-11 08:00:00" 77 "bob" "Bob" "group"
                         "20.03" "15:00"))
  /\ is_slot_available
       (apply_ops
          (apply_op studio_db
             (OpCreate "2025-03-11 08:00:00" 77 "bob" "Bob" "group"
                       "20.03" "15:00"))
          [OpUpdateStatus "2025-03-11 09:00:00" 2 "confirmed" None;
           OpMarkReminder 2 "day";
           OpDelete 1;
           OpCreate "2025-03-11 10:00:00" 78 "carol" "Carol" "date"
                    "21.03" "15:00"])
       "20.03" "15:00" = false.
Proof.
  split; [reflexivity|].
  apply (proj1 (proj2 is_slot_available_characterizes_occupancy)
           studio_db "2025-03-11 08:00:00" 77 "bob" "Bob" "group"
           "20.03" "15:00" 2); reflexivity.
Defined.

Lemma get_all_bookings_witness :
  map (fun b => (id b, status b)) (rows three_bookings)
  = [(1, "rejected"); (2, "pending"); (3, "confirmed")]
  /\ map (fun b => (id b, status b)) (get_all_bookings three_bookings)
     = [(2, "pending"); (3, "confirmed"); (1, "rejected")].
Proof.
  split; [reflexivity|].
  rewrite (proj2 get_all_bookings_pending_first three_bookings
             _ _ _ eq_refl eq_refl eq_refl eq_refl).
  reflexivity.
Defined.

(** The passes of the amended scenario, on Anna's booking: 15.03 at 16:45,
    17:00, 18:00 and 18:30, then 16.03 at 17:00 and 17:03. *)
Lemma reminder_scenario_witness :
  let tick := fun t => exec (check_reminders_tick net_up (Some "777") t) in
  let w0 := tick (march 15 16 45) studio in
  let w1 := tick (march 15 17 0) w0 in
  let w2 := tick (march 15 18 0) w1 in
  let w3 := tick (march 15 18 30) w2 in
  let w4 := tick (march 16 17 0) w3 in
  let w5 := tick (march 16 17 3) w4 in
  calls_since studio w0 = []
  /\ calls_since w0 w1 = [send_message 42 (day_reminder_text anna)]
  /\ map reminder_day_sent (rows (w_db w1)) = [1]
  /\ calls_since w1 w2 = []
  /\ calls_since w2 w3 = []
  /\ calls_since w3 w4 = [send_message 42 (hour_reminder_text anna);
                          send_message 777 (admin_reminder_text anna)]
  /\ map reminder_hour_sent (rows (w_db w4)) = [1]
  /\ calls_since w4 w5 = [send_message 777 (admin_reminder_text anna)].
Proof.
  assert (Ha : forall d h mi q,
             hours_until (march d h mi) anna = Some q ->
             (selected_date anna <? strftime_dm (march d h mi))%string
             = false ->
             forall H, (q == H)%Q -> hours_away (march d h mi) anna H).
  { intros d h mi q Hq Hd H HH. split; [exact Hd|]. now exists q. }
  apply (proj1 (reminder_scenario net_up (Some "777") 777 anna studio
                  (march 15 16 45) (march 15 17 0) (march 15 18 0)
                  (march 15 18 30) (march 16 17 0) (march 16 17 3)
                  eq_refl eq_refl eq_refl eq_refl eq_refl
                  (Ha 15 16 45 _ eq_refl eq_refl (101 # 4) eq_refl)
                  (Ha 15 17 0 _ eq_refl eq_refl (25 # 1) eq_refl)
                  (Ha 15 18 0 _ eq_refl eq_refl (24 # 1) eq_refl)
                  (Ha 15 18 30 _ eq_refl eq_refl (47 # 2) eq_refl)
                  (Ha 16 17 0 _ eq_refl eq_refl (1 # 1) eq_refl)
                  (Ha 16 17 3 _ eq_refl eq_refl (19 # 20) eq_refl))).
Defined.


(** 24 hours before Anna's session the pass sends her day reminder and not
    her hour reminder. *)
Lemma customer_reminders_witness :
  (selected_date anna <? strftime_dm (march 15 18 0))%string = false
  /\ hours_until (march 15 18 0) anna = Some (86400000000 # 3600000000)
  /\ In (send_message 42 (day_reminder_text anna))
        (calls_since studio
           (exec (check_reminders_tick net_up (Some "777") (march 15 18 0))
                 studio))
  /\ ~ In (send_message 42 (hour_reminder_text anna))
          (calls_since studio
             (exec (remind net_up (Some "777") (march 15 18 0)
                      (strftime_dm (march 15 18 0)) anna)
                   studio)).
Proof.
  split; [reflexivity|]. split; [reflexivity|].
  destruct (customer_reminders_sent_exactly_in_window
              net_up (Some "777") (march 15 18 0) anna
              (86400000000 # 3600000000) eq_refl eq_refl)
    as (Hbody & Htick & _).
  split.
  - destruct (Htick studio (or_introl eq_refl) eq_refl) as [Hday _].
    apply Hday. split; [|reflexivity]. split; unfold Qle; simpl; lia.
  - intros Hin. destruct (Hbody studio) as [_ Hhour].
    apply Hhour in Hin.
    destruct Hin as [[_ Hle] _]. revert Hle. unfold Qle; simpl. lia.
Defined.

(** On 17.03 Anna's booking of 16.03 is past: the loop body does
    nothing. *)
Lemma past_booking_witness :
  (selected_date anna <? strftime_dm (march 17 9 0))%string = true
  /\ remind net_up (Some "777") (march 17 9 0) (strftime_dm (march 17 9 0))
            anna studio
     = (inr tt, studio).
Proof.
  split; [reflexivity|].
  exact (proj1 (past_booking_never_reminded net_up (Some "777")
                  (march 17 9 0))
           anna studio eq_refl).
Defined.


(* ================================================================= *)
(** ** Two further facts *)

(** C4, where the code departs from it.  The claim is about every
    confirmed booking not dated before today, and the comment above the
    date test says the test skips what is not today or later.  The test
    compares [DD.MM] texts, day first.  On 31.03 at 18:00 a confirmed
    booking for 01.04 at 18:00 starts tomorrow, 24 hours away and inside
    the day window, with its day flag clear; yet its text is smaller than
    today's, so the pass takes it for a past booking: nothing is sent and
    no flag is set. *)
Lemma next_month_booking_is_skipped :
  rows (w_db april_studio) = [dan]
  /\ status dan = "confirmed"
  /\ reminder_day_sent dan = 0
  /\ mk_datetime 2025 4 1 18 0
     = Some {| year := 2025; month := 4; day := 1; hour := 18; minute := 0;
               second := 0; microsecond := 0 |}
  /\ hours_until (march 31 18 0) dan = Some (86400000000 # 3600000000)
  /\ (86400000000 # 3600000000 == 24 # 1)%Q
  /\ in_day_window (86400000000 # 3600000000) = true
  /\ (selected_date dan <? strftime_dm (march 31 18 0))%string = true
  /\ calls_since april_studio
       (exec (check_reminders_tick net_up (Some "777") (march 31 18 0))
             april_studio)
     = []
  /\ exec (check_reminders_tick net_up (Some "777") (march 31 18 0))
          april_studio
     = april_studio.
Proof. repeat split. Qed.

Lemma digit_char_compare (a b : Z) :
  0 <= a <= 9 -> 0 <= b <= 9 ->
  Ascii.compare (digit_char a) (digit_char b) = (a ?= b).
Proof.
  intros Ha Hb.
  assert (Ca : a = 0 \/ a = 1 \/ a = 2 \/ a = 3 \/ a = 4 \/ a = 5 \/ a = 6
               \/ a = 7 \/ a = 8 \/ a = 9) by lia.
  assert (Cb : b = 0 \/ b = 1 \/ b = 2 \/ b = 3 \/ b = 4 \/ b = 5 \/ b = 6
               \/ b = 7 \/ b = 8 \/ b = 9) by lia.
  repeat (destruct Ca as [->|Ca]); try subst a;
    repeat (destruct Cb as [->|Cb]); try subst b; reflexivity.
Qed.

(** Two-digit fields compare as texts the way their numbers compare,
    whatever follows them. *)
Lemma pad2_ltb (d d' : Z) (r r' : string) :
  0 <= d < d' -> d' <= 99 ->
  (pad2 d ++ r <? pad2 d' ++ r')%string = true.
Proof.
  intros Hd Hd'. unfold String.ltb, pad2. cbn [append String.compare].
  pose proof (Z.div_mod d 10 ltac:(lia)).
  pose proof (Z.mod_pos_bound d 10 ltac:(lia)).
  pose proof (Z.div_mod d' 10 ltac:(lia)).
  pose proof (Z.mod_pos_bound d' 10 ltac:(lia)).
  rewrite !digit_char_compare by lia.
  destruct (Z.compare_spec (d / 10) (d' / 10)) as [E|E|E];
    [|reflexivity|lia].
  assert (L : d mod 10 < d' mod 10) by lia.
  apply Z.compare_lt_iff in L. now rewrite L.
Qed.

(** X1.  The date test of the scan compares [DD.MM] texts, day first, so
    the month plays no part when the days differ: a booking whose day
    number is smaller than today's is taken for a past booking in
    whatever month it lies, next month included.  For it the loop body
    sends nothing and sets no flag. *)
Theorem smaller_day_is_skipped_in_any_month :
  forall net ADMIN_ID now b d m w,
    0 <= d < day now -> day now <= 31 ->
    selected_date b = pad2 d ++ "." ++ pad2 m ->
    (selected_date b <? strftime_dm now)%string = true
    /\ remind net ADMIN_ID now (strftime_dm now) b w = (inr tt, w).
Proof.
  intros net ADMIN_ID now b d m w Hd Hn Hb.
  assert (H : (selected_date b <? strftime_dm now)%string = true).
  { rewrite Hb. unfold strftime_dm. apply pad2_ltb; lia. }
  split; [exact H|]. rewrite remind_run. now rewrite H.
Qed.

(** On 31.03 at 18:00 the booking for 01.04 at 18:00 is a day away. *)
Lemma smaller_day_witness :
  hours_until (march 31 18 0) dan = Some (86400000000 # 3600000000)
  /\ remind net_up (Some "777") (march 31 18 0)
       (strftime_dm (march 31 18 0)) dan april_studio
     = (inr tt, april_studio).
Proof.
  split; [reflexivity|].
  apply (smaller_day_is_skipped_in_any_month net_up (Some "777")
           (march 31 18 0) dan 1 4 april_studio);
    [cbn; lia | cbn; lia | reflexivity].
Defined.

Lemma max_rowid_bound (l : list Booking) (b : Booking) :
  In b l -> id b <= max_rowid l.
Proof.
  induction l as [|a l IH]; simpl; [intros []|].
  intros [->|H]; [lia|]. specialize (IH H). lia.
Qed.

(** X2.  The id that [create_booking] hands out is larger than every id
    in the table and than every id handed out before; the new row is
    appended with that id and the other rows are kept. *)
Lemma create_booking_fresh_id :
  forall db now uid uname fname btype date time new_id db',
    create_booking db now uid uname fname btype date time
      = Some (new_id, db') ->
    (forall b, In b (rows db) -> id b < new_id)
    /\ sqlite_sequence db < new_id
    /\ sqlite_sequence db' = new_id
    /\ exists row,
         rows db' = (rows db ++ [row])%list /\ id row = new_id
         /\ status row = "pending"
         /\ reminder_day_sent row = 0 /\ reminder_hour_sent row = 0.
Proof.
  intros db now uid uname fname btype date time new_id db'.
  unfold create_booking.
  destruct (negb (in_int64 uid)); [discriminate|].
  destruct (int64_max <=? _); [discriminate|].
  intros E. injection E as <- <-. repeat split.
  - intros b Hb. apply max_rowid_bound in Hb. lia.
  - lia.
  - eexists. repeat split.
Qed.

Lemma create_booking_fresh_id_witness :
  create_booking studio_db "2025-03-11 08:00:00" 77 "bob" "Bob" "group"
                 "20.03" "15:00"
  = Some (2, apply_op studio_db
               (OpCreate "2025-03-11 08:00:00" 77 "bob" "Bob" "group"
                         "20.03" "15:00"))
  /\ forall b, In b (rows studio_db) -> id b < 2.
Proof.
  split; [reflexivity|].
  exact (proj1 (create_booking_fresh_id studio_db "2025-03-11 08:00:00"
                  77 "bob" "Bob" "group" "20.03" "15:00" 2 _ eq_refl)).
Defined.

(* ================================================================= *)
(** ** Looking bookings up *)

Lemma find_app_one (p : Booking -> bool) (l : list Booking) (x : Booking) :
  find p (l ++ [x])
  = match find p l with
    | Some y => Some y
    | None => if p x then Some x else None
    end.
Proof.
  induction l as [|a l IH]; simpl; [reflexivity|].
  now destruct (p a).
Qed.

Lemma find_none_iff (p : Booking -> bool) (l : list Booking) :
  find p l = None <-> forall b, In b l -> p b = false.
Proof.
  induction l as [|a l IH]; simpl.
  - split; [intros _ b []|reflexivity].
  - destruct (p a) eqn:E.
    + split; [discriminate|]. intros H. rewrite (H a) in E; [discriminate|].
      now left.
    + rewrite IH. split.
      * intros H b [<-|Hb]; auto.
      * intros H b Hb. apply H. now right.
Qed.

Lemma get_booking_none (db : Database) (i : Z) :
  get_booking db i = None <-> forall b, In b (rows db) -> id b <> i.
Proof.
  unfold get_booking. rewrite find_none_iff.
  split; intros H b Hb; specialize (H b Hb); now apply Z.eqb_neq.
Qed.

Lemma get_booking_some (db : Database) (i : Z) (b : Booking) :
  get_booking db i = Some b -> In b (rows db) /\ id b = i.
Proof.
  unfold get_booking. intros H. apply find_some in H.
  now rewrite Z.eqb_eq in H.
Qed.

(** X3.  A booking that was just created is found under the returned id,
    with the data it was created with, status ['pending'], no message id,
    both flags clear and both timestamps at the insert; every other id is
    looked up as before. *)
Theorem create_then_get_booking :
  forall db now uid uname fname btype date time new_id db',
    create_booking db now uid uname fname btype date time
      = Some (new_id, db') ->
    get_booking db' new_id
    = Some {| id := new_id; user_id := uid; username := uname;
              full_name := fname; booking_type := btype;
              selected_date := date; selected_time := time;
              status := "pending"; admin_message_id := None;
              reminder_day_sent := 0; reminder_hour_sent := 0;
              created_at := now; updated_at := now |}
    /\ forall j, j <> new_id -> get_booking db' j = get_booking db j.
Proof.
  intros db now uid uname fname btype date time new_id db' Hc.
  unfold create_booking in Hc.
  destruct (negb (in_int64 uid)); [discriminate|].
  destruct (int64_max <=? _); [discriminate|].
  injection Hc as <- <-.
  set (n := Z.max (sqlite_sequence db) (max_rowid (rows db)) + 1) in *.
  assert (Hlt : forall b, In b (rows db) -> id b < n).
  { intros b Hb. apply max_rowid_bound in Hb. unfold n. lia. }
  unfold get_booking. cbn [rows]. split.
  - rewrite find_app_one. cbn [id].
    assert (Hn : find (fun b => id b =? n) (rows db) = None).
    { apply find_none_iff. intros b Hb. apply Z.eqb_neq.
      specialize (Hlt b Hb). lia. }
    now rewrite Hn, Z.eqb_refl.
  - intros j Hj. rewrite find_app_one. cbn [id].
    destruct (find _ (rows db)); [reflexivity|].
    now rewrite (proj2 (Z.eqb_neq n j)) by congruence.
Qed.

Lemma create_then_get_booking_witness :
  get_booking
    (apply_op studio_db
       (OpCreate "2025-03-11 08:00:00" 77 "bob" "Bob" "group"
                 "20.03" "15:00")) 2
  = Some {| id := 2; user_id := 77; username := "bob"; full_name := "Bob";
            booking_type := "group";
            selected_date := "20.03"; selected_time := "15:00";
            status := "pending"; admin_message_id := None;
            reminder_day_sent := 0; reminder_hour_sent := 0;
            created_at := "2025-03-11 08:00:00";
            updated_at := "2025-03-11 08:00:00" |}.
Proof.
  exact (proj1 (create_then_get_booking studio_db "2025-03-11 08:00:00"
                  77 "bob" "Bob" "group" "20.03" "15:00" 2 _ eq_refl)).
Defined.

Lemma filter_all (p : Booking -> bool) (l : list Booking) :
  (forall b, In b l -> p b = true) -> filter p l = l.
Proof.
  induction l as [|a l IH]; simpl; intros H; [reflexivity|].
  rewrite (H a) by now left. f_equal. apply IH. intros b Hb. apply H.
  now right.
Qed.

Lemma find_filter_other (p q : Booking -> bool) (l : list Booking) :
  (forall b, p b = true -> q b = true) ->
  find p (filter q l) = find p l.
Proof.
  intros H. induction l as [|a l IH]; simpl; [reflexivity|].
  destruct (q a) eqn:Eq; simpl.
  - now rewrite IH.
  - destruct (p a) eqn:Ep; [|assumption].
    rewrite (H a Ep) in Eq. discriminate.
Qed.

(** X4.  For an id that fits an SQLite INTEGER (with any other the call
    raises [OverflowError] before the table is touched), [delete_booking]
    reports [true] exactly when the id was in the table.  Afterwards the
    id is not found, every other id is looked up as before, and the rowid
    counter is unchanged; a delete of an id that is not there changes
    nothing, so a second delete reports [false]. *)
Theorem delete_booking_lookup :
  forall db booking_id,
    in_int64 booking_id = true ->
    let ok := fst (delete_booking db booking_id) in
    let db' := snd (delete_booking db booking_id) in
    (ok = true <-> exists b, get_booking db booking_id = Some b)
    /\ get_booking db' booking_id = None
    /\ (forall j, j <> booking_id -> get_booking db' j = get_booking db j)
    /\ sqlite_sequence db' = sqlite_sequence db
    /\ (ok = false -> db' = db)
    /\ delete_booking db' booking_id = (false, db').
Proof.
  intros db i _. cbv zeta.
  assert (Hnone : get_booking (snd (delete_booking db i)) i = None).
  { apply get_booking_none. intros b Hb.
    apply delete_booking_rows in Hb. tauto. }
  assert (Hsame : forall d, get_booking d i = None ->
                            delete_booking d i = (false, d)).
  { intros d Hd. unfold delete_booking. f_equal.
    - apply not_true_is_false. intros H. apply existsb_exists in H.
      destruct H as (b & Hb & Hi). apply Z.eqb_eq in Hi.
      now apply (proj1 (get_booking_none d i) Hd b).
    - destruct d as [l q]. cbn [rows sqlite_sequence]. f_equal.
      apply filter_all. intros b Hb. apply negb_true_iff, Z.eqb_neq.
      now apply (proj1 (get_booking_none _ i) Hd b). }
  repeat split.
  - cbn [fst delete_booking]. intros H. apply existsb_exists in H.
    destruct H as (b & Hb & Hi).
    destruct (get_booking db i) as [b'|] eqn:E; [now exists b'|].
    apply Z.eqb_eq in Hi. now apply (proj1 (get_booking_none db i) E b) in Hi.
  - intros (b & Hb). apply get_booking_some in Hb. cbn [fst delete_booking].
    apply existsb_exists. exists b. now rewrite Z.eqb_eq.
  - exact Hnone.
  - intros j Hj. unfold get_booking. cbn [snd delete_booking rows].
    apply find_filter_other. intros b Hb. apply Z.eqb_eq in Hb.
    apply negb_true_iff, Z.eqb_neq. congruence.
  - intros H. destruct (get_booking db i) as [b|] eqn:E.
    + exfalso. apply get_booking_some in E. cbn [fst delete_booking] in H.
      assert (Ht : existsb (fun b => id b =? i) (rows db) = true).
      { apply existsb_exists. exists b. now rewrite Z.eqb_eq. }
      congruence.
    + now rewrite (Hsame db E).
  - now apply Hsame.
Qed.

(** Anna's booking is deleted. *)
Lemma delete_booking_lookup_witness :
  fst (delete_booking studio_db 1) = true
  /\ get_booking (snd (delete_booking studio_db 1)) 1 = None
  /\ delete_booking (snd (delete_booking studio_db 1)) 1
     = (false, snd (delete_booking studio_db 1)).
Proof.
  destruct (delete_booking_lookup studio_db 1 eq_refl)
    as (H1 & H2 & _ & _ & _ & H6).
  split; [apply H1; now exists anna|]. split; [exact H2 | exact H6].
Defined.

Lemma find_map_other (p : Booking -> bool) (g : Booking -> Booking)
    (l : list Booking) :
  (forall b, p (g b) = p b) ->
  (forall b, p b = false -> g b = b) ->
  find p (map g l) = option_map g (find p l).
Proof.
  intros Hp Hg. induction l as [|a l IH]; simpl; [reflexivity|].
  rewrite Hp. destruct (p a); [reflexivity|exact IH].
Qed.

Lemma find_map_same (p : Booking -> bool) (g : Booking -> Booking)
    (l : list Booking) :
  (forall b, p (g b) = p b) ->
  (forall b, p b = true -> g b = b) ->
  find p (map g l) = find p l.
Proof.
  intros Hp Hg. induction l as [|a l IH]; simpl; [reflexivity|].
  rewrite Hp. destruct (p a) eqn:E; [now rewrite Hg|exact IH].
Qed.

Lemma update_where_id_absent (i : Z) (f : Booking -> Booking)
    (db : Database) :
  get_booking db i = None -> update_where_id i f db = db.
Proof.
  intros H. destruct db as [l q]. unfold update_where_id. cbn [rows
    sqlite_sequence]. f_equal.
  rewrite <- (map_id l) at 2. apply map_ext_in. intros b Hb.
  now rewrite (proj2 (Z.eqb_neq _ _)
                 (proj1 (get_booking_none _ i) H b Hb)).
Qed.

Lemma update_where_id_lookup (i : Z) (f : Booking -> Booking)
    (db : Database) :
  (forall b, id (f b) = id b) ->
  get_booking (update_where_id i f db) i = option_map f (get_booking db i)
  /\ forall j, j <> i ->
       get_booking (update_where_id i f db) j = get_booking db j.
Proof.
  intros Hid. unfold get_booking, update_where_id. cbn [rows]. split.
  - rewrite find_map_other.
    + destruct (find _ (rows db)) as [b|] eqn:E; [|reflexivity].
      apply find_some in E. destruct E as [_ E]. cbn [option_map].
      now rewrite E.
    + intros b. destruct (id b =? i) eqn:E; [|exact E].
      now rewrite Hid.
    + intros b E. now rewrite E.
  - intros j Hj. apply find_map_same.
    + intros b. destruct (id b =? i); [now rewrite Hid|reflexivity].
    + intros b E. apply Z.eqb_eq in E.
      now rewrite (proj2 (Z.eqb_neq (id b) i)) by congruence.
Qed.

(** X5.  For an id and a message id that fit an SQLite INTEGER (with any
    other the call raises [OverflowError] and the row stays as it is):
    [update_booking_status] on an id that is not in the table changes
    nothing.  On an id that is there, the booking is afterwards found with
    the new status and the update's timestamp; its message id is replaced
    only by one that is given and not zero; its requester, category, slot,
    reminder flags and creation time are kept.  Every other id is looked
    up as before.  The current status is not consulted. *)
Theorem update_booking_status_lookup :
  forall db now booking_id st msg_id,
    in_int64 booking_id = true ->
    (forall m, msg_id = Some m -> in_int64 m = true) ->
    let db' := update_booking_status db now booking_id st msg_id in
    (get_booking db booking_id = None -> db' = db)
    /\ (forall b,
          get_booking db booking_id = Some b ->
          exists b',
            get_booking db' booking_id = Some b'
            /\ status b' = st /\ updated_at b' = now
            /\ admin_message_id b'
               = match msg_id with
                 | Some m => if m =? 0 then admin_message_id b else Some m
                 | None => admin_message_id b
                 end
            /\ kept_by_status_update b' = kept_by_status_update b)
    /\ (forall j, j <> booking_id -> get_booking db' j = get_booking db j)
    /\ map id (rows db') = map id (rows db)
    /\ sqlite_sequence db' = sqlite_sequence db.
Proof.
  intros db now i st m _ _. cbv zeta.
  assert (H : exists f : Booking -> Booking,
             update_booking_status db now i st m = update_where_id i f db
             /\ forall b,
                  status (f b) = st /\ updated_at (f b) = now
                  /\ admin_message_id (f b)
                     = match m with
                       | Some n => if n =? 0 then admin_message_id b
                                   else Some n
                       | None => admin_message_id b
                       end
                  /\ kept_by_status_update (f b) = kept_by_status_update b).
  { unfold update_booking_status.
    destruct m as [n|]; [destruct (n =? 0) eqn:E|];
      eexists; (split; [reflexivity|]); intros b; repeat split. }
  destruct H as (f & -> & Hf).
  assert (Hid : forall b, id (f b) = id b).
  { intros b. destruct (Hf b) as (_ & _ & _ & Hk).
    unfold kept_by_status_update in Hk. now injection Hk. }
  destruct (update_where_id_lookup i f db Hid) as [Hi Hj].
  split; [apply update_where_id_absent|]. split; [|split; [exact Hj|]].
  - intros b Hb. exists (f b). rewrite Hi, Hb. split; [reflexivity|].
    apply Hf.
  - split; [|reflexivity]. unfold update_where_id. cbn [rows].
    rewrite map_map. apply map_ext. intros b.
    destruct (id b =? i); [apply Hid|reflexivity].
Qed.

Lemma update_booking_status_witness :
  get_booking studio_db 1 = Some anna
  /\ exists b',
       get_booking (update_booking_status studio_db "2025-03-12 10:00:00"
                      1 "rejected" (Some 0)) 1 = Some b'
       /\ status b' = "rejected"
       /\ admin_message_id b' = None
       /\ reminder_day_sent b' = 0.
Proof.
  split; [reflexivity|].
  destruct (proj1 (proj2 (update_booking_status_lookup studio_db
                            "2025-03-12 10:00:00" 1 "rejected" (Some 0)
                            eq_refl
                            ltac:(intros m [= <-]; reflexivity)))
              anna eq_refl) as (b' & H1 & H2 & _ & H3 & H4).
  exists b'. repeat split; try assumption.
  unfold kept_by_status_update in H4. now injection H4.
Defined.

(** X6.  The two occupancy queries agree: a time is among
    [get_booked_slots] of a date exactly when [is_slot_available] refuses
    that date and time. *)
Theorem get_booked_slots_iff_unavailable :
  forall db date time,
    In time (get_booked_slots db date)
    <-> is_slot_available db date time = false.
Proof.
  intros db date time. rewrite is_slot_available_false.
  unfold get_booked_slots. rewrite in_map_iff. split.
  - intros (b & Ht & Hb). apply filter_In in Hb. destruct Hb as [Hb Hp].
    apply andb_true_iff in Hp. destruct Hp as [Hd Ho].
    exists b. split; [assumption|]. unfold occupies_slot.
    apply String.eqb_eq in Hd. apply occupies_true in Ho. auto.
  - intros (b & Hb & Hd & Ht & Ho). exists b. split; [assumption|].
    apply filter_In. split; [assumption|].
    apply andb_true_iff. split; [now apply String.eqb_eq|].
    now apply occupies_true.
Qed.

(* ================================================================= *)
(** ** The summary *)

Lemma dict_get_bump (st key : string) (summary : list (string * Z)) :
  dict_get (bump st summary) key
  = dict_get summary key + (if (st =? key)%string then 1 else 0).
Proof.
  unfold dict_get. induction summary as [|[k n] rest IH]; simpl.
  - destruct (st =? key)%string; reflexivity.
  - destruct (k =? st)%string eqn:Es; simpl.
    + apply String.eqb_eq in Es. subst k.
      destruct (st =? key)%string; [reflexivity|lia].
    + destruct (k =? key)%string eqn:Ek; [|exact IH].
      apply String.eqb_eq in Ek. subst k.
      rewrite String.eqb_sym, Es. simpl. lia.
Qed.

Lemma sum_bump (st : string) (summary : list (string * Z)) :
  fold_right Z.add 0 (map snd (bump st summary))
  = fold_right Z.add 0 (map snd summary) + 1.
Proof.
  induction summary as [|[k n] rest IH]; simpl; [reflexivity|].
  destruct (k =? st)%string; simpl; lia.
Qed.

Lemma dict_get_group_count (l : list Booking) (s : Z) (key : string) :
  dict_get (group_count l) key
  = count_status key {| rows := l; sqlite_sequence := s |}.
Proof.
  unfold count_status. cbn [rows].
  induction l as [|b l IH]; simpl; [reflexivity|].
  rewrite dict_get_bump, IH.
  destruct (status b =? key)%string; simpl List.length; lia.
Qed.

Lemma count_filter_cons (p : Booking -> bool) (b : Booking)
    (l : list Booking) :
  Z.of_nat (List.length (filter p (b :: l)))
  = (if p b then 1 else 0) + Z.of_nat (List.length (filter p l)).
Proof.
  cbn [filter]. destruct (p b); [|lia].
  cbn [List.length]. lia.
Qed.

(** A row counts for at most one of the three statuses. *)
Lemma status_indicator (b : Booking) :
  let i := fun st => if (status b =? st)%string then 1 else 0 in
  i "pending" + i "confirmed" + i "rejected" <= 1
  /\ (i "pending" + i "confirmed" + i "rejected" = 1
      <-> status b = "pending" \/ status b = "confirmed"
          \/ status b = "rejected").
Proof.
  cbv beta zeta.
  destruct (String.eqb_spec (status b) "pending") as [E1|E1];
    [rewrite E1; simpl; split; [lia|tauto]|].
  destruct (String.eqb_spec (status b) "confirmed") as [E2|E2];
    [rewrite E2; simpl; split; [lia|tauto]|].
  destruct (String.eqb_spec (status b) "rejected") as [E3|E3];
    [simpl; split; [lia|tauto]|].
  split; [lia|]. split; [lia|]. intros [H|[H|H]]; contradiction.
Qed.

Lemma status_counts (l : list Booking) :
  let c := fun st =>
    Z.of_nat (List.length (filter (fun b => (status b =? st)%string) l)) in
  c "pending" + c "confirmed" + c "rejected" <= Z.of_nat (List.length l)
  /\ (c "pending" + c "confirmed" + c "rejected" = Z.of_nat (List.length l)
      <-> forall b, In b l ->
            status b = "pending" \/ status b = "confirmed"
            \/ status b = "rejected").
Proof.
  cbv beta zeta. induction l as [|b l [IH1 IH2]].
  - cbn. split; [lia|]. split; [intros _ b []|reflexivity].
  - rewrite !count_filter_cons.
    destruct (status_indicator b) as [I1 I2]. cbv beta zeta in I1, I2.
    cbn [List.length]. rewrite Nat2Z.inj_succ.
    split; [lia|]. split.
    + intros H b' [<-|Hb'].
      * apply I2. lia.
      * apply IH2; [lia|assumption].
    + intros H.
      assert (H1 := proj2 I2 (H b (or_introl eq_refl))).
      assert (H2 := proj2 IH2 (fun b' Hb' => H b' (or_intror Hb'))).
      lia.
Qed.

(** X7.  [get_bookings_summary] counts the rows: each of its three status
    fields is the number of rows with that status, [total] is the number
    of all rows, and the three fields add up to [total] exactly when every
    row has one of the three statuses. *)
Theorem get_bookings_summary_counts :
  forall db,
    let s := get_bookings_summary db in
    summary_pending s = count_status "pending" db
    /\ summary_confirmed s = count_status "confirmed" db
    /\ summary_rejected s = count_status "rejected" db
    /\ summary_total s = Z.of_nat (List.length (rows db))
    /\ summary_pending s
       = Z.of_nat (List.length (get_pending_bookings db))
    /\ summary_pending s + summary_confirmed s + summary_rejected s
       <= summary_total s
    /\ (summary_pending s + summary_confirmed s + summary_rejected s
        = summary_total s
        <-> forall b, In b (rows db) ->
              status b = "pending" \/ status b = "confirmed"
              \/ status b = "rejected").
Proof.
  intros [l q]. cbv zeta. unfold get_bookings_summary. cbn [rows
    summary_pending summary_confirmed summary_rejected summary_total].
  rewrite !(dict_get_group_count l q).
  assert (Ht : fold_right Z.add 0 (map snd (group_count l))
               = Z.of_nat (List.length l)).
  { induction l as [|b l IH]; [reflexivity|].
    change (group_count (b :: l))
      with (bump (status b) (group_count l)).
    rewrite sum_bump, IH. cbn [List.length]. lia. }
  rewrite Ht. unfold count_status, get_pending_bookings. cbn [rows].
  destruct (status_counts l) as [C1 C2]. cbv beta zeta in C1, C2.
  split; [reflexivity|]. split; [reflexivity|]. split; [reflexivity|].
  split; [reflexivity|]. split; [|split; assumption].
  f_equal. apply Permutation_length. symmetry. apply order_by_perm.
Qed.

(* ================================================================= *)
(** ** Invariants of the table *)

Lemma sorted_snoc (l : list Z) (n : Z) :
  StronglySorted Z.lt l -> (forall x, In x l -> x < n) ->
  StronglySorted Z.lt (l ++ [n]).
Proof.
  induction 1 as [|a l Hs IH Ha]; intros Hn; simpl.
  - constructor; constructor.
  - constructor.
    + apply IH. intros x Hx. apply Hn. now right.
    + apply Forall_app. split; [assumption|].
      constructor; [|constructor]. apply Hn. now left.
Qed.

Lemma sorted_filter_ids (p : Booking -> bool) (l : list Booking) :
  StronglySorted Z.lt (map id l) ->
  StronglySorted Z.lt (map id (filter p l)).
Proof.
  induction l as [|a l IH]; simpl; intros H; [constructor|].
  apply StronglySorted_inv in H. destruct H as [Hs Ha].
  destruct (p a); simpl; [|now apply IH].
  constructor; [now apply IH|].
  rewrite Forall_forall in *. intros x Hx. apply Ha.
  apply in_map_iff in Hx. destruct Hx as (b & <- & Hb).
  apply filter_In in Hb. apply in_map. tauto.
Qed.

Lemma update_where_id_ids (i : Z) (f : Booking -> Booking)
    (db : Database) :
  (forall b, id (f b) = id b) ->
  map id (rows (update_where_id i f db)) = map id (rows db).
Proof.
  intros Hid. unfold update_where_id. cbn [rows]. rewrite map_map.
  apply map_ext. intros b. destruct (id b =? i); [apply Hid|reflexivity].
Qed.

Lemma well_formed_same_ids (db db' : Database) :
  map id (rows db') = map id (rows db) ->
  sqlite_sequence db' = sqlite_sequence db ->
  well_formed db -> well_formed db'.
Proof.
  intros Hi Hs (W1 & W2 & W3). unfold well_formed. rewrite Hi, Hs.
  split; [assumption|]. split; [|assumption].
  intros b Hb. apply (in_map id) in Hb. rewrite Hi in Hb.
  apply in_map_iff in Hb. destruct Hb as (b0 & <- & Hb0). now apply W2.
Qed.

Lemma apply_op_well_formed (db : Database) (o : Op) :
  well_formed db ->
  well_formed (apply_op db o)
  /\ sqlite_sequence db <= sqlite_sequence (apply_op db o).
Proof.
  intros W. destruct o as [n u un fn bt d t|n j st m|j|j k]; cbn [apply_op].
  - destruct (create_booking db n u un fn bt d t) as [[x db']|] eqn:E;
      [|split; [assumption|lia]].
    destruct W as (W1 & W2 & W3).
    unfold create_booking in E.
    destruct (negb (in_int64 u)); [discriminate|].
    destruct (int64_max <=? _) eqn:El; [discriminate|].
    apply Z.leb_gt in El. injection E as <- <-.
    set (last := Z.max (sqlite_sequence db) (max_rowid (rows db))) in *.
    assert (Hlt : forall b, In b (rows db) -> id b < last + 1).
    { intros b Hb. apply max_rowid_bound in Hb. unfold last. lia. }
    unfold well_formed. cbn [rows sqlite_sequence]. split; [|unfold last; lia].
    split; [|split].
    + rewrite map_app. apply sorted_snoc; [assumption|].
      intros x Hx. apply in_map_iff in Hx. destruct Hx as (b & <- & Hb).
      now apply Hlt.
    + intros b Hb. apply in_app_iff in Hb. destruct Hb as [Hb|[<-|[]]].
      * specialize (W2 b Hb). specialize (Hlt b Hb). lia.
      * cbn [id]. unfold last. lia.
    + unfold last in *. lia.
  - destruct (update_booking_status_map db n j st m) as (f & -> & Hf).
    split; [|reflexivity].
    apply (well_formed_same_ids db); [|reflexivity|assumption].
    apply update_where_id_ids. intros b. apply Hf.
  - split; [|reflexivity]. destruct W as (W1 & W2 & W3).
    unfold well_formed. cbn [snd delete_booking rows sqlite_sequence].
    split; [now apply sorted_filter_ids|]. split; [|assumption].
    intros b Hb. apply filter_In in Hb. apply W2. tauto.
  - destruct (mark_reminder_sent_map db j k) as (f & -> & Hf & _).
    split; [|reflexivity].
    apply (well_formed_same_ids db); [|reflexivity|assumption].
    apply update_where_id_ids. intros b.
    now destruct (frame_fields _ _ (Hf b)).
Qed.

Lemma apply_ops_well_formed (ops : list Op) :
  forall db,
    well_formed db ->
    well_formed (apply_ops db ops)
    /\ sqlite_sequence db <= sqlite_sequence (apply_ops db ops).
Proof.
  unfold apply_ops. induction ops as [|o ops IH]; intros db W; simpl.
  - split; [assumption|lia].
  - destruct (apply_op_well_formed db o W) as [W' Hle].
    destruct (IH _ W') as [W'' Hle']. split; [assumption|lia].
Qed.

Lemma init_db_well_formed : well_formed init_db.
Proof.
  unfold well_formed, init_db. cbn [rows sqlite_sequence map].
  split; [constructor|]. split; [intros b []|].
  unfold int64_max. lia.
Qed.

(** X8.  Every table reached from the empty one by creating, updating,
    deleting and marking is well formed: its ids are positive, strictly
    increasing along the rows (so no two rows share an id) and never above
    the rowid counter.  The counter never goes down, so an id is never
    handed out twice: a new booking's id is larger than the id of every
    booking that ever was in the table, deleted or not. *)
Theorem ids_unique_and_never_reused :
  (forall ops, well_formed (apply_ops init_db ops))
  /\ (forall db o,
         well_formed db ->
         well_formed (apply_op db o)
         /\ sqlite_sequence db <= sqlite_sequence (apply_op db o))
  /\ (forall ops1 ops2 b now uid uname fname btype date time new_id db',
         In b (rows (apply_ops init_db ops1)) ->
         create_booking (apply_ops (apply_ops init_db ops1) ops2)
                        now uid uname fname btype date time
           = Some (new_id, db') ->
         id b < new_id).
Proof.
  split; [|split].
  - intros ops. apply apply_ops_well_formed, init_db_well_formed.
  - exact apply_op_well_formed.
  - intros ops1 ops2 b now uid uname fname btype date time new_id db' Hb Hc.
    destruct (apply_ops_well_formed ops1 init_db init_db_well_formed)
      as [W1 _].
    destruct (apply_ops_well_formed ops2 _ W1) as [_ Hle].
    destruct W1 as (_ & W2 & _). specialize (W2 b Hb).
    unfold create_booking in Hc.
    destruct (negb (in_int64 uid)); [discriminate|].
    destruct (int64_max <=? _); [discriminate|].
    injection Hc as <- _. lia.
Qed.

(** Anna's booking is deleted; the next booking does not get her id. *)
Lemma ids_never_reused_witness :
  In anna (rows (apply_ops init_db
     [OpCreate "2025-03-10 09:00:00" 42 "anna" "Anna" "individual"
        "16.03" "18:00";
      OpUpdateStatus "2025-03-10 09:30:00" 1 "confirmed" None]))
  /\ create_booking
       (apply_ops studio_db [OpDelete 1])
       "2025-03-12 08:00:00" 77 "bob" "Bob" "group" "16.03" "18:00"
     = Some (2, apply_ops studio_db
                  [OpDelete 1;
                   OpCreate "2025-03-12 08:00:00" 77 "bob" "Bob" "group"
                            "16.03" "18:00"])
  /\ id anna < 2.
Proof.
  split; [now left|]. split; [reflexivity|].
  exact (proj2 (proj2 ids_unique_and_never_reused)
           [OpCreate "2025-03-10 09:00:00" 42 "anna" "Anna" "individual"
              "16.03" "18:00";
            OpUpdateStatus "2025-03-10 09:30:00" 1 "confirmed" None]
           [OpDelete 1] anna
           "2025-03-12 08:00:00" 77 "bob" "Bob" "group" "16.03" "18:00"
           2 _ (or_introl eq_refl) eq_refl).
Defined.

(** X9.  No operation of the store clears a reminder flag.  A row of the
    table after an operation is either the row just inserted, with both
    flags clear, or it comes from a row with the same id whose flags it
    keeps, except that [mark_reminder_sent] may have set one to 1. *)
Theorem reminder_flags_never_cleared :
  forall db o r',
    In r' (rows (apply_op db o)) ->
    (exists r,
        In r (rows db) /\ id r' = id r
        /\ (reminder_day_sent r' = reminder_day_sent r
            \/ reminder_day_sent r' = 1)
        /\ (reminder_hour_sent r' = reminder_hour_sent r
            \/ reminder_hour_sent r' = 1)
        /\ match o with
           | OpMarkReminder _ _ => True
           | _ => reminder_day_sent r' = reminder_day_sent r
                  /\ reminder_hour_sent r' = reminder_hour_sent r
           end)
    \/ (reminder_day_sent r' = 0 /\ reminder_hour_sent r' = 0
        /\ status r' = "pending"
        /\ forall r, In r (rows db) -> id r < id r').
Proof.
  intros db o r' Hr'.
  assert (Same : In r' (rows db) ->
                 exists r, In r (rows db) /\ id r' = id r
                   /\ (reminder_day_sent r' = reminder_day_sent r
                       \/ reminder_day_sent r' = 1)
                   /\ (reminder_hour_sent r' = reminder_hour_sent r
                       \/ reminder_hour_sent r' = 1)
                   /\ reminder_day_sent r' = reminder_day_sent r
                      /\ reminder_hour_sent r' = reminder_hour_sent r).
  { intros H. exists r'. auto 10. }
  destruct o as [n u un fn bt d t|n j st m|j|j k]; cbn [apply_op] in Hr'.
  - destruct (create_booking db n u un fn bt d t) as [[x db']|] eqn:E;
      [|left; now apply Same].
    unfold create_booking in E.
    destruct (negb (in_int64 u)); [discriminate|].
    destruct (int64_max <=? _); [discriminate|].
    injection E as <- <-. cbn [rows] in Hr'.
    apply in_app_iff in Hr'. destruct Hr' as [H|[<-|[]]].
    + left. now apply Same.
    + right. cbn. repeat split. intros r Hr.
      apply max_rowid_bound in Hr. lia.
  - left.
    assert (H : exists f : Booking -> Booking,
               update_booking_status db n j st m = update_where_id j f db
               /\ forall b, kept_by_status_update (f b)
                            = kept_by_status_update b).
    { unfold update_booking_status.
      destruct m as [x|]; [destruct (x =? 0)|];
        eexists; (split; [reflexivity|]); reflexivity. }
    destruct H as (f & Hf & Hk). rewrite Hf in Hr'.
    apply update_where_id_rows in Hr'. destruct Hr' as (r & Hr & ->).
    exists r. split; [assumption|].
    destruct (id r =? j); [|auto 10].
    specialize (Hk r). unfold kept_by_status_update in Hk.
    injection Hk. intros. auto 10.
  - left. apply delete_booking_rows in Hr'. apply Same. tauto.
  - left. apply mark_reminder_sent_rows in Hr'.
    destruct Hr' as (r & H1 & H2 & H3 & H4 & _). exists r. auto.
Qed.

(** Anna's booking after the day reminder is marked: the row comes from
    her row, with the day flag set and the hour flag as it was. *)
Lemma reminder_flags_witness :
  In (set_reminder_day_sent anna)
     (rows (apply_op studio_db (OpMarkReminder 1 "day")))
  /\ ((exists r,
          In r (rows studio_db) /\ id (set_reminder_day_sent anna) = id r
          /\ (reminder_day_sent (set_reminder_day_sent anna)
              = reminder_day_sent r
              \/ reminder_day_sent (set_reminder_day_sent anna) = 1)
          /\ (reminder_hour_sent (set_reminder_day_sent anna)
              = reminder_hour_sent r
              \/ reminder_hour_sent (set_reminder_day_sent anna) = 1)
          /\ True)
      \/ (reminder_day_sent (set_reminder_day_sent anna) = 0
          /\ reminder_hour_sent (set_reminder_day_sent anna) = 0
          /\ status (set_reminder_day_sent anna) = "pending"
          /\ forall r, In r (rows studio_db)
                       -> id r < id (set_reminder_day_sent anna))).
Proof.
  assert (H : In (set_reminder_day_sent anna)
                 (rows (apply_op studio_db (OpMarkReminder 1 "day"))))
    by (vm_compute; tauto).
  split; [exact H|].
  exact (reminder_flags_never_cleared studio_db (OpMarkReminder 1 "day")
           (set_reminder_day_sent anna) H).
Defined.

(** A table obtained without any row gaining a slot is exclusive when the
    table it comes from is. *)
Lemma exclusive_no_gain (db db' : Database) :
  (forall b', In b' (rows db') ->
     exists b, In b (rows db) /\ id b = id b'
       /\ forall date time,
            occupies_slot date time b' -> occupies_slot date time b) ->
  exclusive db -> exclusive db'.
Proof.
  intros H Hex b1 b2 date time H1 H2 O1 O2.
  destruct (H b1 H1) as (a1 & A1 & <- & G1).
  destruct (H b2 H2) as (a2 & A2 & <- & G2).
  apply (Hex a1 a2 date time); auto.
Qed.

Lemma apply_op_exclusive (db : Database) (o : Op) :
  exclusive db -> revives db o = false -> exclusive (apply_op db o).
Proof.
  intros Hex Hr.
  destruct o as [n u un fn bt d t|n j st m|j|j k]; cbn [apply_op revives]
    in *.
  - destruct (create_booking db n u un fn bt d t) as [[x db']|] eqn:E;
      [|assumption].
    apply negb_false_iff in Hr.
    assert (Hfree := proj1 (is_slot_available_iff db d t) Hr).
    unfold create_booking in E.
    destruct (negb (in_int64 u)); [discriminate|].
    destruct (int64_max <=? _); [discriminate|].
    injection E as <- <-.
    intros b1 b2 date time H1 H2 O1 O2. cbn [rows] in H1, H2.
    apply in_app_iff in H1, H2.
    destruct H1 as [H1|[<-|[]]]; destruct H2 as [H2|[<-|[]]].
    + now apply (Hex b1 b2 date time).
    + exfalso. destruct O2 as (Hd & Ht & _). cbn in Hd, Ht. subst date time.
      now apply (Hfree b1).
    + exfalso. destruct O1 as (Hd & Ht & _). cbn in Hd, Ht. subst date time.
      now apply (Hfree b2).
    + reflexivity.
  - destruct (update_booking_status_map db n j st m) as (f & -> & Hf).
    apply (exclusive_no_gain db); [|assumption].
    intros b' Hb'. apply update_where_id_rows in Hb'.
    destruct Hb' as (b & Hb & ->). exists b. split; [assumption|].
    destruct (Z.eqb_spec (id b) j) as [Hj|Hj]; [|split; auto].
    destruct (Hf b) as (Hid & Hst & Hd & Ht). split; [now rewrite Hid|].
    intros date time (Od & Ot & Os). rewrite Hst in Os.
    apply andb_false_iff in Hr. destruct Hr as [Hr|Hr].
    + exfalso. apply orb_false_iff in Hr. rewrite !String.eqb_neq in Hr.
      destruct Os; tauto.
    + assert (Ho : occupies b = true).
      { destruct (occupies b) eqn:Eo; [reflexivity|]. exfalso.
        assert (Ht' : existsb (fun b => (id b =? j) && negb (occupies b))
                              (rows db) = true).
        { apply existsb_exists. exists b. split; [assumption|].
          now rewrite (proj2 (Z.eqb_eq _ _) Hj), Eo. }
        congruence. }
      apply occupies_true in Ho. unfold occupies_slot.
      rewrite <- Hd, <- Ht. auto.
  - apply (exclusive_no_gain db); [|assumption].
    intros b' Hb'. apply delete_booking_rows in Hb'. exists b'. tauto.
  - destruct (mark_reminder_sent_map db j k) as (f & -> & Hf & _).
    apply (exclusive_no_gain db); [|assumption].
    intros b' Hb'. apply update_where_id_rows in Hb'.
    destruct Hb' as (b & Hb & ->). exists b. split; [assumption|].
    destruct (id b =? j); [|split; auto].
    destruct (frame_fields _ _ (Hf b)) as (H1 & H2 & H3 & H4).
    split; [now rewrite H1|]. intros date time.
    now apply (occupies_slot_ext date time _ _ H2 H3 H4).
Qed.

(** X10.  Slot exclusivity is an invariant of guarded use.  The empty table
    has no two bookings on one slot, and this is kept by every insert made
    when [is_slot_available] is true, every delete, every reminder mark,
    and every status update except one that moves a booking which is not
    pending/confirmed into pending or confirmed. *)
Theorem slot_exclusivity_preserved :
  exclusive init_db
  /\ (forall db o,
         exclusive db -> revives db o = false -> exclusive (apply_op db o))
  /\ (forall ops,
         never_revives init_db ops = true ->
         exclusive (apply_ops init_db ops)).
Proof.
  assert (H0 : exclusive init_db) by (intros b1 b2 d t []).
  split; [exact H0|]. split; [exact apply_op_exclusive|].
  intros ops. unfold apply_ops. generalize init_db H0.
  induction ops as [|o ops IH]; intros db Hex Hn; simpl; [assumption|].
  cbn [never_revives] in Hn. apply andb_true_iff in Hn.
  destruct Hn as [Hr Hn]. apply negb_true_iff in Hr.
  apply IH; [now apply apply_op_exclusive|assumption].
Qed.

(** Two requests for the same slot: the second insert is made only after
    the first was rejected. *)
Lemma slot_exclusivity_witness :
  never_revives init_db
    [OpCreate "2025-03-10 09:00:00" 42 "anna" "Anna" "individual"
       "16.03" "18:00";
     OpUpdateStatus "2025-03-10 09:30:00" 1 "rejected" None;
     OpCreate "2025-03-10 10:00:00" 77 "bob" "Bob" "group"
       "16.03" "18:00";
     OpUpdateStatus "2025-03-10 10:30:00" 2 "confirmed" None;
     OpMarkReminder 2 "day"] = true
  /\ exclusive
       (apply_ops init_db
          [OpCreate "2025-03-10 09:00:00" 42 "anna" "Anna" "individual"
             "16.03" "18:00";
           OpUpdateStatus "2025-03-10 09:30:00" 1 "rejected" None;
           OpCreate "2025-03-10 10:00:00" 77 "bob" "Bob" "group"
             "16.03" "18:00";
           OpUpdateStatus "2025-03-10 10:30:00" 2 "confirmed" None;
           OpMarkReminder 2 "day"]).
Proof.
  split; [reflexivity|].
  apply (proj2 (proj2 slot_exclusivity_preserved)). reflexivity.
Defined.

(* ================================================================= *)
(** ** What the creation handlers do to the store *)

Lemma keeps_ret {A} (a : A) : keeps_db (ret a).
Proof. intros w. reflexivity. Qed.

Lemma keeps_raise {A} (e : exn) : keeps_db (@raise A e).
Proof. intros w. reflexivity. Qed.

Lemma keeps_or_raise {A} (e : exn) (o : option A) : keeps_db (or_raise e o).
Proof. destruct o; [apply keeps_ret | apply keeps_raise]. Qed.

Lemma keeps_transport (net : nat -> bool) (c : api_call) :
  keeps_db (transport net c).
Proof. intros w. reflexivity. Qed.

Lemma keeps_state_clear : keeps_db state_clear.
Proof. intros w. reflexivity. Qed.

Lemma keeps_bind {A B} (m : M A) (k : A -> M B) :
  keeps_db m -> (forall a, keeps_db (k a)) -> keeps_db (bind m k).
Proof.
  intros Hm Hk w. unfold bind. specialize (Hm w).
  destruct (m w) as [[e|a] w1]; cbn [snd] in *; [assumption|].
  now rewrite Hk.
Qed.

Lemma keeps_try {A} (m : M A) (h : exn -> M A) :
  keeps_db m -> (forall e, keeps_db (h e)) -> keeps_db (try_ m h).
Proof.
  intros Hm Hh w. unfold try_. specialize (Hm w).
  destruct (m w) as [[e|a] w1]; cbn [snd] in *; [|assumption].
  now rewrite Hh.
Qed.

Lemma keeps_if {A} (c : bool) (m1 m2 : M A) :
  keeps_db m1 -> keeps_db m2 -> keeps_db (if c then m1 else m2).
Proof. now destruct c. Qed.

(** Establish [keeps_db] for code made of transport calls, state clearing
    and pure steps. *)
Ltac keeps :=
  repeat first
    [ apply keeps_ret | apply keeps_raise | apply keeps_or_raise
    | apply keeps_transport | apply keeps_state_clear
    | apply keeps_if | apply keeps_bind | apply keeps_try
    | intros ? ].

(** Close a goal that says a store-keeping computation kept the store. *)
Ltac kept :=
  match goal with
  | |- w_db (snd (?m ?w)) = w_db ?w =>
      let K := fresh in
      assert (K : keeps_db m) by keeps; exact (K w)
  end.

(** A computation that starts with the insert and then keeps the store:
    the store it leaves is the one after the insert, or the old one if the
    insert raised. *)
Lemma create_then_keeps {A} (net : nat -> bool) (now : string) (uid : Z)
    (uname fname btype date time : string) (k : Z -> M A) (w : World) :
  (forall i, keeps_db (k i)) ->
  w_db (snd ((booking_id <-
                db_create_booking now uid uname fname btype date time ;;
              k booking_id) w))
  = match create_booking (w_db w) now uid uname fname btype date time with
    | Some (_, db') => db'
    | None => w_db w
    end.
Proof.
  intros Hk. unfold db_create_booking.
  unfold bind at 1 2. cbn [get_db].
  destruct (create_booking (w_db w) now uid uname fname btype date time)
    as [[i db']|]; cbn [or_raise ret raise bind put_db fst snd].
  - unfold bind. cbn [put_db ret fst snd]. now rewrite Hk.
  - reflexivity.
Qed.

Lemma try_db {A} (m : M A) (h : exn -> M A) (w : World) :
  (forall e, keeps_db (h e)) ->
  w_db (snd (try_ m h w)) = w_db (snd (m w)).
Proof.
  intros Hh. unfold try_. destruct (m w) as [[e|a] w1]; cbn [snd];
    [apply Hh | reflexivity].
Qed.

(** The store after [process_booking], whatever the transport does. *)
Lemma process_booking_db (net : nat -> bool) (ADMIN_ID : option string)
    (callback_data : string) (user : User) (now : string) (w : World) :
  w_db (exec (process_booking net ADMIN_ID callback_data user now) w)
  = match w_fsm w with
    | Some (BookingStates_waiting_for_date stored_type) =>
        if prefix "date_" callback_data then
          match requested_slot callback_data with
          | Some (date, time) =>
              if is_slot_available (w_db w) date time then
                match create_booking (w_db w) now (u_id user)
                        (str_or (u_username user) "нет")
                        (str_or (Some (u_full_name user)) "Имя")
                        (or_default stored_type "individual") date time
                with
                | Some (_, db') => db'
                | None => w_db w
                end
              else w_db w
          | None => w_db w
          end
        else w_db w
    | _ => w_db w
    end.
Proof.
  unfold exec, process_booking.
  rewrite (bind_run _ _ w w (w_fsm w)) by reflexivity.
  destruct (w_fsm w) as [[stored_type|data]|]; try reflexivity.
  destruct (prefix "date_" callback_data); [|reflexivity].
  cbn [negb]. rewrite try_db by keeps.
  unfold requested_slot.
  destruct (nth_error (split "_" callback_data) 1) as [p1|];
    [|reflexivity].
  cbn [or_raise]. rewrite bind_ret_l.
  destruct (nth_error (split "_" callback_data) 2) as [hour|];
    [|reflexivity].
  cbn [or_raise]. rewrite bind_ret_l. cbv zeta.
  rewrite (bind_run _ _ w w (w_db w)) by reflexivity.
  destruct (is_slot_available (w_db w) _ _); cbn [negb]; [|reflexivity].
  apply (create_then_keeps net). intros i. keeps.
Qed.

(** X11.  For callback data in the first 128 characters, as every button
    of the bot carries, [process_booking] changes the store in one way
    only: when it is dispatched, the callback data names a slot, the slot is available and
    the insert succeeds, the store afterwards is the one [create_booking]
    returns.  In every other case the store is untouched.  The outcome of
    the transport calls plays no part: the booking is recorded also when
    the notification of the administrator or the answer to the customer
    fails. *)
Theorem process_booking_store_effect :
  forall net ADMIN_ID callback_data user now w,
    is_ascii callback_data = true ->
    let w' := exec (process_booking net ADMIN_ID callback_data user now) w in
    (w_db w' = w_db w
     \/ exists stored_type date time new_id,
          w_fsm w = Some (BookingStates_waiting_for_date stored_type)
          /\ prefix "date_" callback_data = true
          /\ requested_slot callback_data = Some (date, time)
          /\ is_slot_available (w_db w) date time = true
          /\ create_booking (w_db w) now (u_id user)
               (str_or (u_username user) "нет")
               (str_or (Some (u_full_name user)) "Имя")
               (or_default stored_type "individual") date time
             = Some (new_id, w_db w'))
    /\ (forall stored_type date time new_id db',
          w_fsm w = Some (BookingStates_waiting_for_date stored_type) ->
          prefix "date_" callback_data = true ->
          requested_slot callback_data = Some (date, time) ->
          is_slot_available (w_db w) date time = true ->
          create_booking (w_db w) now (u_id user)
            (str_or (u_username user) "нет")
            (str_or (Some (u_full_name user)) "Имя")
            (or_default stored_type "individual") date time
          = Some (new_id, db') ->
          w_db w' = db').
Proof.
  intros net ADMIN_ID callback_data user now w _. cbv zeta.
  rewrite process_booking_db. split.
  - destruct (w_fsm w) as [[stored_type|data]|]; try (now left).
    destruct (prefix "date_" callback_data) eqn:Ep; [|now left].
    destruct (requested_slot callback_data) as [[date time]|] eqn:Er;
      [|now left].
    destruct (is_slot_available (w_db w) date time) eqn:Ea; [|now left].
    destruct (create_booking _ _ _ _ _ _ _ _) as [[i db']|] eqn:Ec;
      [|now left].
    right. exists stored_type, date, time, i. auto.
  - intros stored_type date time new_id db' -> -> -> -> ->. reflexivity.
Qed.

Lemma process_booking_store_effect_witness :
  requested_slot "date_2003_15" = Some ("20.03", "15:00")
  /\ rows (w_db (exec (process_booking net_down (Some "777")
                         "date_2003_15" bob "2025-03-11 08:00:00")
                      studio_choosing))
     = [anna;
        {| id := 2; user_id := 77; username := "bob"; full_name := "Bob";
           booking_type := "group";
           selected_date := "20.03"; selected_time := "15:00";
           status := "pending"; admin_message_id := None;
           reminder_day_sent := 0; reminder_hour_sent := 0;
           created_at := "2025-03-11 08:00:00";
           updated_at := "2025-03-11 08:00:00" |}].
Proof.
  split; [reflexivity|].
  rewrite (proj2 (process_booking_store_effect net_down (Some "777")
                    "date_2003_15" bob "2025-03-11 08:00:00"
                    studio_choosing eq_refl)
             (Some "group") "20.03" "15:00" 2 _
             eq_refl eq_refl eq_refl eq_refl eq_refl).
  reflexivity.
Defined.

(** X12.  [process_booking] never puts a second booking on a slot: if no
    two bookings share a slot before it runs, none do after, whatever the
    callback data, the conversation state and the transport. *)
Theorem process_booking_keeps_exclusive :
  forall net ADMIN_ID callback_data user now w,
    exclusive (w_db w) ->
    exclusive (w_db (exec (process_booking net ADMIN_ID callback_data
                             user now) w)).
Proof.
  intros net ADMIN_ID callback_data user now w Hex.
  rewrite process_booking_db.
  destruct (w_fsm w) as [[stored_type|data]|]; try assumption.
  destruct (prefix "date_" callback_data); [|assumption].
  destruct (requested_slot callback_data) as [[date time]|]; [|assumption].
  destruct (is_slot_available (w_db w) date time) eqn:Ea; [|assumption].
  set (o := OpCreate now (u_id user) (str_or (u_username user) "нет")
              (str_or (Some (u_full_name user)) "Имя")
              (or_default stored_type "individual") date time).
  assert (H := apply_op_exclusive (w_db w) o Hex).
  cbn [revives apply_op o] in H. rewrite Ea in H.
  destruct (create_booking _ _ _ _ _ _ _ _) as [[i db']|];
    [now apply H | assumption].
Qed.

Lemma process_booking_keeps_exclusive_witness :
  exclusive studio_db
  /\ exclusive (w_db (exec (process_booking net_up (Some "777")
                              "date_1603_18" bob "2025-03-11 08:00:00")
                           studio_choosing)).
Proof.
  assert (H : exclusive studio_db).
  { intros b1 b2 d t [<-|[]] [<-|[]] _ _. reflexivity. }
  split; [exact H|].
  exact (process_booking_keeps_exclusive net_up (Some "777")
           "date_1603_18" bob "2025-03-11 08:00:00" studio_choosing H).
Defined.

Lemma bind_db {A B} (m : M A) (k : A -> M B) (w : World) :
  (forall a, keeps_db (k a)) ->
  w_db (snd (bind m k w)) = w_db (snd (m w)).
Proof.
  intros Hk. unfold bind. destruct (m w) as [[e|a] w1]; cbn [snd];
    [reflexivity | apply Hk].
Qed.

(** The insert, the confirmation of the new booking, and then code that
    keeps the store. *)
Lemma create_confirm_then_keeps {A} (now_insert now_update : string)
    (uid : Z) (uname fname btype date time : string) (k : Z -> M A)
    (w : World) :
  (forall i, keeps_db (k i)) ->
  w_db (snd ((booking_id <-
                db_create_booking now_insert uid uname fname btype
                  date time ;;
              db_update_booking_status now_update booking_id "confirmed" ;;
              k booking_id) w))
  = match create_booking (w_db w) now_insert uid uname fname btype
            date time with
    | Some (i, db') => update_booking_status db' now_update i "confirmed" None
    | None => w_db w
    end.
Proof.
  intros Hk. unfold db_create_booking, db_update_booking_status.
  unfold bind at 1 2. cbn [get_db].
  destruct (create_booking (w_db w) now_insert uid uname fname btype
              date time) as [[i db']|];
    cbn [or_raise ret raise bind put_db fst snd]; [|reflexivity].
  unfold bind. cbn [put_db get_db ret fst snd w_db]. now rewrite Hk.
Qed.

(** The store after [process_admin_time], whatever the transport does. *)
Lemma process_admin_time_db (net : nat -> bool) (str_of_exn : exn -> string)
    (text : option string) (now_insert now_update : string) (w : World) :
  w_db (exec (process_admin_time net str_of_exn text now_insert now_update)
             w)
  = match w_fsm w, text with
    | Some (AdminBookingStates_waiting_for_time data), Some t =>
        if time_format_ok (strip t) then
          if is_slot_available (w_db w) (draft_selected_date data) (strip t)
          then
            match create_booking (w_db w) now_insert
                    (or_default (draft_user_id data) 0)
                    (or_default (draft_username data) "manual")
                    (or_default (draft_full_name data) "Ручная запись")
                    (or_default (draft_booking_type data) "individual")
                    (draft_selected_date data) (strip t)
            with
            | Some (i, db') =>
                update_booking_status db' now_update i "confirmed" None
            | None => w_db w
            end
          else w_db w
        else w_db w
    | _, _ => w_db w
    end.
Proof.
  unfold exec, process_admin_time.
  rewrite (bind_run _ _ w w (w_fsm w)) by reflexivity.
  destruct (w_fsm w) as [[stored_type|data]|];
    try (destruct text; reflexivity).
  rewrite bind_db by keeps. rewrite try_db by keeps.
  destruct text as [t|]; [|reflexivity].
  cbn [or_raise]. rewrite bind_ret_l. cbv zeta.
  unfold time_format_ok.
  destruct (String.length (strip t) =? 5)%nat; cbn [negb orb andb];
    [|kept].
  destruct (match String.get 2 (strip t) with
            | Some c => Ascii.eqb c ":"
            | None => false
            end); cbn [negb]; [|kept].
  rewrite (bind_run _ _ w w (w_db w)) by reflexivity.
  destruct (is_slot_available (w_db w) _ _); cbn [negb]; [|kept].
  apply create_confirm_then_keeps. intros i. keeps.
Qed.

(** X13.  For a message text in the first 128 characters and a draft
    whose name was stored as a text (a name stored from a message without
    text is [None], which the code hands on to the insert),
    [process_admin_time] changes the store in one way only: when it
    is dispatched with a text whose stripped form has the shape [HH:MM],
    the slot is available and the insert succeeds, the store afterwards
    holds the new booking already confirmed.  In every other case (no
    text, malformed time, slot taken, failed insert) the store is
    untouched.  The outcome of the transport calls plays no part. *)
Theorem process_admin_time_store_effect :
  forall net str_of_exn text now_insert now_update w,
    (forall t, text = Some t -> is_ascii t = true) ->
    (forall data,
        w_fsm w = Some (AdminBookingStates_waiting_for_time data) ->
        draft_full_name data <> None) ->
    let w' := exec (process_admin_time net str_of_exn text
                      now_insert now_update) w in
    (w_db w' = w_db w
     \/ exists data t new_id db',
          w_fsm w = Some (AdminBookingStates_waiting_for_time data)
          /\ text = Some t
          /\ time_format_ok (strip t) = true
          /\ is_slot_available (w_db w) (draft_selected_date data) (strip t)
             = true
          /\ create_booking (w_db w) now_insert
               (or_default (draft_user_id data) 0)
               (or_default (draft_username data) "manual")
               (or_default (draft_full_name data) "Ручная запись")
               (or_default (draft_booking_type data) "individual")
               (draft_selected_date data) (strip t)
             = Some (new_id, db')
          /\ w_db w'
             = update_booking_status db' now_update new_id "confirmed" None
          /\ exists b,
               get_booking (w_db w') new_id = Some b
               /\ status b = "confirmed"
               /\ selected_date b = draft_selected_date data
               /\ selected_time b = strip t)
    /\ (forall data t new_id db',
          w_fsm w = Some (AdminBookingStates_waiting_for_time data) ->
          text = Some t ->
          time_format_ok (strip t) = true ->
          is_slot_available (w_db w) (draft_selected_date data) (strip t)
            = true ->
          create_booking (w_db w) now_insert
            (or_default (draft_user_id data) 0)
            (or_default (draft_username data) "manual")
            (or_default (draft_full_name data) "Ручная запись")
            (or_default (draft_booking_type data) "individual")
            (draft_selected_date data) (strip t)
          = Some (new_id, db') ->
          w_db w'
          = update_booking_status db' now_update new_id "confirmed" None).
Proof.
  intros net str_of_exn text now_insert now_update w _ _. cbv zeta.
  rewrite process_admin_time_db. split.
  - destruct (w_fsm w) as [[stored_type|data]|]; try (now left).
    destruct text as [t|]; [|now left].
    destruct (time_format_ok (strip t)) eqn:Ef; [|now left].
    destruct (is_slot_available (w_db w) _ _) eqn:Ea; [|now left].
    destruct (create_booking _ _ _ _ _ _ _ _) as [[i db']|] eqn:Ec;
      [|now left].
    right. exists data, t, i, db'. repeat split; try assumption.
    assert (Hg : get_booking db' i
                 = Some {| id := i;
                           user_id := or_default (draft_user_id data) 0;
                           username :=
                             or_default (draft_username data) "manual";
                           full_name :=
                             or_default (draft_full_name data)
                               "Ручная запись";
                           booking_type :=
                             or_default (draft_booking_type data)
                               "individual";
                           selected_date := draft_selected_date data;
                           selected_time := strip t;
                           status := "pending";
                           admin_message_id := None;
                           reminder_day_sent := 0;
                           reminder_hour_sent := 0;
                           created_at := now_insert;
                           updated_at := now_insert |}).
    { unfold create_booking in Ec.
      destruct (negb (in_int64 _)); [discriminate|].
      destruct (int64_max <=? _); [discriminate|].
      injection Ec as <- <-. unfold get_booking. cbn [rows].
      rewrite find_app_one. cbn [id]. rewrite Z.eqb_refl.
      assert (Hn : find (fun b => id b =? Z.max (sqlite_sequence (w_db w))
                                          (max_rowid (rows (w_db w))) + 1)
                        (rows (w_db w)) = None).
      { apply find_none_iff. intros b Hb. apply Z.eqb_neq.
        apply max_rowid_bound in Hb. lia. }
      now rewrite Hn. }
    unfold update_booking_status.
    destruct (update_where_id_lookup i (set_status "confirmed" now_update)
                db' (fun b => eq_refl)) as [Hl _].
    rewrite Hl, Hg. eexists. split; [reflexivity|]. repeat split.
  - intros data t new_id db' -> -> -> -> ->. reflexivity.
Qed.

Lemma process_admin_time_store_effect_witness :
  time_format_ok (strip " 15:00 ") = true
  /\ map (fun b => (id b, status b, selected_date b, selected_time b))
         (rows (w_db (exec (process_admin_time net_down (fun _ => "error")
                              (Some " 15:00 ") "2025-03-11 08:00:00"
                              "2025-03-11 08:00:01")
                           studio_manual_entry)))
     = [(1, "confirmed", "16.03", "18:00");
        (2, "confirmed", "16.03", "15:00")].
Proof.
  split; [reflexivity|].
  rewrite (proj2 (process_admin_time_store_effect net_down
                    (fun _ => "error") (Some " 15:00 ")
                    "2025-03-11 08:00:00" "2025-03-11 08:00:01"
                    studio_manual_entry
                    ltac:(intros t [= <-]; reflexivity)
                    ltac:(intros data [= <-]; discriminate))
             _ " 15:00 " 2 _ eq_refl eq_refl eq_refl eq_refl eq_refl).
  reflexivity.
Defined.

(** X14.  [process_admin_time] never puts a second booking on a slot: if
    no two bookings share a slot before it runs, none do after. *)
Theorem process_admin_time_keeps_exclusive :
  forall net str_of_exn text now_insert now_update w,
    exclusive (w_db w) ->
    exclusive (w_db (exec (process_admin_time net str_of_exn text
                             now_insert now_update) w)).
Proof.
  intros net str_of_exn text now_insert now_update w Hex.
  rewrite process_admin_time_db.
  destruct (w_fsm w) as [[stored_type|data]|]; try assumption.
  destruct text as [t|]; [|assumption].
  destruct (time_format_ok (strip t)); [|assumption].
  destruct (is_slot_available (w_db w) _ _) eqn:Ea; [|assumption].
  set (o := OpCreate now_insert (or_default (draft_user_id data) 0)
              (or_default (draft_username data) "manual")
              (or_default (draft_full_name data) "Ручная запись")
              (or_default (draft_booking_type data) "individual")
              (draft_selected_date data) (strip t)).
  assert (H := apply_op_exclusive (w_db w) o Hex).
  cbn [revives apply_op o] in H. rewrite Ea in H.
  destruct (create_booking _ _ _ _ _ _ _ _) as [[i db']|] eqn:Ec;
    [|assumption].
  specialize (H eq_refl).
  apply (apply_op_exclusive db' (OpUpdateStatus now_update i "confirmed"
                                   None) H).
  cbn [revives]. apply andb_false_iff. right.
  apply not_true_is_false. intros Hx. apply existsb_exists in Hx.
  destruct Hx as (b & Hb & Hc). apply andb_true_iff in Hc.
  destruct Hc as [Hi Ho]. apply Z.eqb_eq in Hi.
  unfold create_booking in Ec.
  destruct (negb (in_int64 _)); [discriminate|].
  destruct (int64_max <=? _); [discriminate|].
  injection Ec as <- <-. cbn [rows] in Hb.
  apply in_app_iff in Hb. destruct Hb as [Hb|[<-|[]]].
  - apply max_rowid_bound in Hb. lia.
  - discriminate.
Qed.

Lemma process_admin_time_keeps_exclusive_witness :
  exclusive studio_db
  /\ exclusive (w_db (exec (process_admin_time net_up (fun _ => "error")
                              (Some " 15:00 ") "2025-03-11 08:00:00"
                              "2025-03-11 08:00:01")
                           studio_manual_entry)).
Proof.
  assert (H : exclusive studio_db).
  { intros b1 b2 d t [<-|[]] [<-|[]] _ _. reflexivity. }
  split; [exact H|].
  exact (process_admin_time_keeps_exclusive net_up (fun _ => "error")
           (Some " 15:00 ") "2025-03-11 08:00:00" "2025-03-11 08:00:01"
           studio_manual_entry H).
Defined.

(** X15.  A time in the first 128 characters that is not of the shape
    [HH:MM] is refused with the
    format message and the conversation stays where it is, so the
    administrator can type the time again; a message without text gets the
    generic error answer and ends the conversation.  Neither touches the
    store. *)
Theorem process_admin_time_refusals :
  forall net str_of_exn now_insert now_update w data,
    w_fsm w = Some (AdminBookingStates_waiting_for_time data) ->
    (forall t,
        is_ascii t = true ->
        time_format_ok (strip t) = false ->
        net (List.length (w_out w)) = true ->
        exec (process_admin_time net str_of_exn (Some t)
                now_insert now_update) w
        = {| w_db := w_db w;
             w_out := (w_out w
                       ++ [{| call := message_answer bad_time_format_text;
                              delivered := true |}])%list;
             w_fsm := w_fsm w |})
    /\ (net (List.length (w_out w)) = true ->
        exec (process_admin_time net str_of_exn None
                now_insert now_update) w
        = {| w_db := w_db w;
             w_out := (w_out w
                       ++ [{| call :=
                                message_answer
                                  ("❌ Ошибка: "
                                   ++ str_of_exn AttributeError);
                              delivered := true |}])%list;
             w_fsm := None |}).
Proof.
  intros net str_of_exn now_insert now_update w data Hfsm. split.
  - intros t _ Hf Hn. unfold exec, process_admin_time.
    rewrite (bind_run _ _ w w (w_fsm w)) by reflexivity.
    rewrite Hfsm. cbn [or_raise]. rewrite bind_ret_l. cbv zeta.
    unfold time_format_ok in Hf.
    assert (Hc : negb (String.length (strip t) =? 5)%nat
                 || negb match String.get 2 (strip t) with
                         | Some c => Ascii.eqb c ":"
                         | None => false
                         end = true).
    { rewrite <- negb_andb. now rewrite Hf. }
    rewrite Hc. unfold bind, try_, transport. rewrite Hn.
    cbn [snd ret]. now rewrite Hfsm.
  - intros Hn. unfold exec, process_admin_time.
    rewrite (bind_run _ _ w w (w_fsm w)) by reflexivity.
    rewrite Hfsm. cbn [or_raise].
    unfold bind, try_, raise, transport, state_clear. rewrite Hn.
    reflexivity.
Qed.

Lemma process_admin_time_refusals_witness :
  time_format_ok (strip "6 pm") = false
  /\ w_fsm (exec (process_admin_time net_up (fun _ => "error")
                    (Some "6 pm") "2025-03-11 08:00:00"
                    "2025-03-11 08:00:01") studio_manual_entry)
     = w_fsm studio_manual_entry.
Proof.
  split; [reflexivity|].
  rewrite (proj1 (process_admin_time_refusals net_up (fun _ => "error")
                    "2025-03-11 08:00:00" "2025-03-11 08:00:01"
                    studio_manual_entry _ eq_refl)
             "6 pm" eq_refl eq_refl eq_refl).
  reflexivity.
Defined.

(* ================================================================= *)
(** ** More on the reminder scan *)






(* ================================================================= *)
(** ** At most one reminder of a kind *)










(* ================================================================= *)
(** ** The keyboard of free slots *)

(** Month and day of a date obtained from an ordinal are a month and a day
    of the calendar. *)
Lemma ord2ymd_range (n : Z) :
  let '(y, m, d) := ord2ymd n in 1 <= m <= 12 /\ 1 <= d <= 31.
Proof.
  unfold ord2ymd. cbv zeta.
  set (r := ((((n - 1) mod 146097) mod 36524) mod 1461) mod 365).
  assert (Hr : 0 <= r < 365) by (apply Z.mod_pos_bound; lia).
  clearbody r.
  destruct ((_ =? 4) || (_ =? 4)); [lia|].
  set (leap := (_ =? 3) && _). clearbody leap.
  rewrite Z.shiftr_div_pow2 by lia. change (2 ^ 5) with 32.
  assert (Hb : 32 * ((r + 50) / 32) <= r + 50 < 32 * ((r + 50) / 32) + 32).
  { pose proof (Z.div_mod (r + 50) 32 ltac:(lia)).
    pose proof (Z.mod_pos_bound (r + 50) 32 ltac:(lia)). lia. }
  assert (Hm : 1 <= (r + 50) / 32 <= 12) by lia.
  set (m := (r + 50) / 32) in *. clearbody m.
  assert (Hcases : m = 1 \/ m = 2 \/ m = 3 \/ m = 4 \/ m = 5 \/ m = 6
                   \/ m = 7 \/ m = 8 \/ m = 9 \/ m = 10 \/ m = 11
                   \/ m = 12) by lia.
  repeat (destruct Hcases as [->|Hcases]); try subst m;
    destruct leap;
    match goal with
    | |- context [r <? ?p] =>
        let v := eval vm_compute in p in
        change p with v; destruct (Z.ltb_spec r v)
    end;
    match goal with
    | |- context [r - ?p + 1] =>
        let v := eval vm_compute in p in change p with v
    end; cbv beta iota; lia.
Qed.

Lemma digit_char_not_underscore (k : Z) :
  0 <= k <= 9 -> Ascii.eqb (digit_char k) "_" = false.
Proof.
  intros Hk.
  assert (Hc : k = 0 \/ k = 1 \/ k = 2 \/ k = 3 \/ k = 4 \/ k = 5 \/ k = 6
               \/ k = 7 \/ k = 8 \/ k = 9) by lia.
  repeat (destruct Hc as [->|Hc]); try subst k; reflexivity.
Qed.

Lemma add_days_fields (d d' : datetime) (k : Z) :
  add_days d k = Some d' ->
  1 <= month d' <= 12 /\ 1 <= day d' <= 31.
Proof.
  unfold add_days. destruct (_ && _); [|discriminate].
  pose proof (ord2ymd_range (toordinal d + k)) as Hr.
  destruct (ord2ymd (toordinal d + k)) as [[y m] dd].
  intros [= <-]. exact Hr.
Qed.

Lemma all_some_in {A} (l : list (option A)) (l' : list A) (x : A) :
  all_some l = Some l' -> In x l' -> In (Some x) l.
Proof.
  revert l'. induction l as [|[a|] l IH]; intros l'; cbn [all_some].
  - intros [= <-] [].
  - destruct (all_some l) as [r|]; [|discriminate].
    intros [= <-] [->|Hx]; [now left | right; now apply (IH r)].
  - discriminate.
Qed.

Lemma not_booked_available (db : Database) (date time : string) :
  existsb (String.eqb time) (get_booked_slots db date) = false ->
  is_slot_available db date time = true.
Proof.
  intros He. destruct (is_slot_available db date time) eqn:Ea;
    [reflexivity|].
  apply is_slot_available_false in Ea. destruct Ea as (b & Hb & Hd & Ht & Ho).
  assert (Hx : existsb (String.eqb time) (get_booked_slots db date) = true).
  { apply existsb_exists. exists time. split; [|apply String.eqb_refl].
    unfold get_booked_slots. apply in_map_iff. exists b.
    split; [assumption|]. apply filter_In. split; [assumption|].
    apply andb_true_iff. split; [now apply String.eqb_eq|].
    now apply occupies_true. }
  congruence.
Qed.

(** The callback data of a slot button is read back by [process_booking]
    as the date and the time the button shows. *)
Lemma slot_button_round_trip (d m hour : Z) :
  1 <= d <= 31 -> 1 <= m <= 12 ->
  In hour [11; 14; 15; 17; 18] ->
  requested_slot ("date_" ++ (pad2 d ++ pad2 m) ++ "_" ++ str_of_Z hour)
  = Some (pad2 d ++ "." ++ pad2 m, str_of_Z hour ++ ":00").
Proof.
  intros Hd Hm Hh. unfold pad2.
  assert (H1 : Ascii.eqb (digit_char (d / 10)) "_" = false).
  { apply digit_char_not_underscore.
    pose proof (Z.div_mod d 10 ltac:(lia)).
    pose proof (Z.mod_pos_bound d 10 ltac:(lia)). lia. }
  assert (H2 : Ascii.eqb (digit_char (d mod 10)) "_" = false).
  { apply digit_char_not_underscore.
    pose proof (Z.mod_pos_bound d 10 ltac:(lia)). lia. }
  assert (H3 : Ascii.eqb (digit_char (m / 10)) "_" = false).
  { apply digit_char_not_underscore.
    pose proof (Z.div_mod m 10 ltac:(lia)).
    pose proof (Z.mod_pos_bound m 10 ltac:(lia)). lia. }
  assert (H4 : Ascii.eqb (digit_char (m mod 10)) "_" = false).
  { apply digit_char_not_underscore.
    pose proof (Z.mod_pos_bound m 10 ltac:(lia)). lia. }
  set (c1 := digit_char (d / 10)) in *.
  set (c2 := digit_char (d mod 10)) in *.
  set (c3 := digit_char (m / 10)) in *.
  set (c4 := digit_char (m mod 10)) in *.
  clearbody c1 c2 c3 c4.
  unfold requested_slot.
  cbn [In] in Hh.
  repeat (destruct Hh as [<-|Hh]); try contradiction;
    match goal with
    | |- context [str_of_Z ?h] =>
        let v := eval vm_compute in (str_of_Z h) in
        change (str_of_Z h) with v
    end;
    cbn [append split Ascii.eqb Bool.eqb]; rewrite H1, H2, H3, H4;
    reflexivity.
Qed.

Lemma day_buttons_slot (db : Database) (date : datetime) (b : Button) :
  1 <= month date <= 12 -> 1 <= day date <= 31 ->
  In b (day_buttons db date) ->
  exists date_str time_str,
    requested_slot (button_callback_data b) = Some (date_str, time_str)
    /\ button_text b = date_str ++ " " ++ time_str
    /\ is_slot_available db date_str time_str = true.
Proof.
  intros Hm Hd Hb. unfold day_buttons in Hb. cbv zeta in Hb.
  apply in_flat_map in Hb. destruct Hb as (hour & Hh & Hb).
  destruct (existsb _ _) eqn:He in Hb; [destruct Hb|].
  destruct Hb as [<-|[]]. cbn [button_text button_callback_data].
  exists (strftime_dm date), (str_of_Z hour ++ ":00").
  split; [|split].
  - unfold strftime_dm_compact, strftime_dm.
    apply slot_button_round_trip; [assumption..|].
    unfold slot_hours in Hh. destruct (weekday date <? 5);
      cbn [In] in *; intuition.
  - reflexivity.
  - now apply not_booked_available.
Qed.

Lemma keyboard_button_cases (db : Database) (today : datetime)
    (buttons : list Button) (b : Button) :
  get_dates_keyboard db today = Some buttons -> In b buttons ->
  prefix "date_" (button_callback_data b) = true ->
  exists date, In b (day_buttons db date)
               /\ 1 <= month date <= 12 /\ 1 <= day date <= 31.
Proof.
  unfold get_dates_keyboard.
  destruct (all_some _) as [dates|] eqn:Ed; [|discriminate].
  cbv zeta. intros [= <-] Hb Hp.
  apply in_app_or in Hb. destruct Hb as [Hb|Hb].
  - apply in_flat_map in Hb. destruct Hb as (date & Hdate & Hb).
    exists date. split; [assumption|].
    apply (all_some_in _ _ _ Ed) in Hdate. apply in_map_iff in Hdate.
    destruct Hdate as (k & Hk & _). now apply add_days_fields in Hk.
  - apply in_app_or in Hb. destruct Hb as [Hb|Hb].
    + destruct (_ =? _)%nat; [|destruct Hb].
      destruct Hb as [<-|[]]. discriminate.
    + destruct Hb as [<-|[]]. discriminate.
Qed.

(** X19.  Every slot button of the keyboard can be taken: the callback
    data of a button that [process_booking] accepts is read back by it as
    the date and the time the button shows, and that slot is available in
    the store the keyboard was built from. *)
Theorem offered_button_names_a_free_slot :
  forall db today buttons b,
    get_dates_keyboard db today = Some buttons ->
    In b buttons ->
    prefix "date_" (button_callback_data b) = true ->
    exists date time,
      requested_slot (button_callback_data b) = Some (date, time)
      /\ button_text b = date ++ " " ++ time
      /\ is_slot_available db date time = true.
Proof.
  intros db today buttons b Hk Hb Hp.
  destruct (keyboard_button_cases db today buttons b Hk Hb Hp)
    as (date & Hin & Hm & Hd).
  now apply (day_buttons_slot db date b).
Qed.

Lemma offered_button_witness :
  exists date time,
    requested_slot "date_1603_11" = Some (date, time)
    /\ "16.03 11:00" = date ++ " " ++ time
    /\ is_slot_available studio_db date time = true.
Proof.
  apply (offered_button_names_a_free_slot studio_db (march 10 9 0) _
           {| button_text := "16.03 11:00";
              button_callback_data := "date_1603_11" |} eq_refl).
  - vm_compute. tauto.
  - reflexivity.
Defined.

(** X20.  Pressing a slot button books the slot it shows: when the store
    is the one the keyboard was built from, the customer is choosing a
    date, and the insert can assign a rowid, [process_booking] appends one
    pending booking whose date and time are those on the button, whatever
    the transport does. *)
Theorem offered_button_books_shown_slot :
  forall net ADMIN_ID today buttons b user now w stored_type,
    get_dates_keyboard (w_db w) today = Some buttons ->
    In b buttons ->
    prefix "date_" (button_callback_data b) = true ->
    w_fsm w = Some (BookingStates_waiting_for_date stored_type) ->
    in_int64 (u_id user) = true ->
    Z.max (sqlite_sequence (w_db w)) (max_rowid (rows (w_db w)))
    < int64_max ->
    exists date time new_id,
      button_text b = date ++ " " ++ time
      /\ rows (w_db (exec (process_booking net ADMIN_ID
                             (button_callback_data b) user now) w))
         = (rows (w_db w)
            ++ [{| id := new_id; user_id := u_id user;
                   username := str_or (u_username user) "нет";
                   full_name := str_or (Some (u_full_name user)) "Имя";
                   booking_type := or_default stored_type "individual";
                   selected_date := date; selected_time := time;
                   status := "pending"; admin_message_id := None;
                   reminder_day_sent := 0; reminder_hour_sent := 0;
                   created_at := now; updated_at := now |}])%list.
Proof.
  intros net ADMIN_ID today buttons b user now w stored_type
         Hk Hb Hp Hf Hu Hmax.
  destruct (keyboard_button_cases _ today buttons b Hk Hb Hp)
    as (d & Hin & Hm & Hd).
  destruct (day_buttons_slot _ d b Hm Hd Hin)
    as (date & time & Hr & Ht & Ha).
  exists date, time,
    (Z.max (sqlite_sequence (w_db w)) (max_rowid (rows (w_db w))) + 1).
  split; [assumption|].
  rewrite process_booking_db, Hf, Hp, Hr, Ha.
  unfold create_booking. rewrite Hu. cbn [negb].
  destruct (Z.leb_spec int64_max
              (Z.max (sqlite_sequence (w_db w)) (max_rowid (rows (w_db w)))));
    [lia|].
  reflexivity.
Qed.

Lemma offered_button_books_witness :
  exists date time new_id,
    "17.03 15:00" = date ++ " " ++ time
    /\ rows (w_db (exec (process_booking net_down (Some "777")
                           "date_1703_15" bob "2025-03-11 08:00:00")
                        studio_choosing))
       = [anna;
          {| id := new_id; user_id := 77; username := "bob";
             full_name := "Bob"; booking_type := "group";
             selected_date := date; selected_time := time;
             status := "pending"; admin_message_id := None;
             reminder_day_sent := 0; reminder_hour_sent := 0;
             created_at := "2025-03-11 08:00:00";
             updated_at := "2025-03-11 08:00:00" |}].
Proof.
  apply (offered_button_books_shown_slot net_down (Some "777")
           (march 10 9 0) _
           {| button_text := "17.03 15:00";
              button_callback_data := "date_1703_15" |}
           bob "2025-03-11 08:00:00" studio_choosing (Some "group")
           eq_refl).
  - vm_compute. tauto.
  - reflexivity.
  - reflexivity.
  - reflexivity.
  - vm_compute. reflexivity.
Defined.

(* ================================================================= *)
(** ** The administrator's buttons *)

Lemma admin_keeps_ret {A} (a : A) : admin_keeps_db (Admin.ret a).
Proof. intros w. reflexivity. Qed.

Lemma admin_keeps_raise {A} (e : exn) : admin_keeps_db (@Admin.raise A e).
Proof. intros w. reflexivity. Qed.

Lemma admin_keeps_transport (net : nat -> bool) (c : Admin.api_call) :
  admin_keeps_db (Admin.transport net c).
Proof. intros w. reflexivity. Qed.

Lemma admin_keeps_bind {A B} (m : Admin.M A) (k : A -> Admin.M B) :
  admin_keeps_db m -> (forall a, admin_keeps_db (k a)) ->
  admin_keeps_db (Admin.bind m k).
Proof.
  intros Hm Hk w. unfold Admin.bind. specialize (Hm w).
  destruct (m w) as [[e|a] w1]; cbn [snd] in *; [assumption|].
  now rewrite Hk.
Qed.

Lemma admin_keeps_try {A} (m : Admin.M A) (h : exn -> Admin.M A) :
  admin_keeps_db m -> (forall e, admin_keeps_db (h e)) ->
  admin_keeps_db (Admin.try_ m h).
Proof.
  intros Hm Hh w. unfold Admin.try_. specialize (Hm w).
  destruct (m w) as [[e|a] w1]; cbn [snd] in *; [|assumption].
  now rewrite Hh.
Qed.

Lemma admin_keeps_int (s : string) : admin_keeps_db (Admin.int_ s).
Proof. intros w. unfold Admin.int_. now destruct (py_int s). Qed.

Lemma admin_keeps_get_booking (i : Z) :
  admin_keeps_db (Admin.db_get_booking i).
Proof. intros w. unfold Admin.db_get_booking. now destruct (in_int64 i). Qed.

Ltac admin_keeps :=
  repeat first
    [ apply admin_keeps_ret | apply admin_keeps_raise
    | apply admin_keeps_transport | apply admin_keeps_int
    | apply admin_keeps_get_booking
    | apply admin_keeps_bind | apply admin_keeps_try
    | match goal with
      | |- forall _, _ => intro
      | |- admin_keeps_db (if ?c then _ else _) => destruct c
      | |- admin_keeps_db (match ?o with Some _ => _ | None => _ end) =>
          destruct o
      end ].

(** The store after a lookup by the id in the callback data, followed by
    [found] for a booking that exists and by a refusal otherwise. *)
Lemma admin_lookup_db (net : nat -> bool) (s : string)
    (refusal : Admin.M unit) (found : Z -> Booking -> Admin.M unit)
    (w : Admin.World) :
  admin_keeps_db refusal ->
  Admin.w_db
    (Admin.exec
       (Admin.bind (Admin.int_ s) (fun booking_id =>
          Admin.bind (Admin.db_get_booking booking_id) (fun booking =>
            match booking with
            | None => refusal
            | Some b => found booking_id b
            end))) w)
  = match py_int s with
    | Some i =>
        if in_int64 i then
          match get_booking (Admin.w_db w) i with
          | Some b => Admin.w_db (Admin.exec (found i b) w)
          | None => Admin.w_db w
          end
        else Admin.w_db w
    | None => Admin.w_db w
    end.
Proof.
  intros Hr. unfold Admin.exec, Admin.int_.
  destruct (py_int s) as [i|]; [|reflexivity].
  unfold Admin.bind at 1. cbn [Admin.ret].
  unfold Admin.bind at 1, Admin.db_get_booking.
  destruct (in_int64 i); [|reflexivity].
  destruct (get_booking (Admin.w_db w) i) as [b|]; [reflexivity|].
  apply Hr.
Qed.

Lemma admin_update_then_keeps {A} (now : string) (i : Z) (st : string)
    (k : Admin.M A) (w : Admin.World) :
  admin_keeps_db k ->
  Admin.w_db
    (Admin.exec
       (Admin.bind (Admin.db_update_booking_status now i st) (fun _ => k)) w)
  = update_booking_status (Admin.w_db w) now i st None.
Proof.
  intros Hk. unfold Admin.exec, Admin.bind, Admin.db_update_booking_status.
  now rewrite Hk.
Qed.

(** The store after [confirm_booking], whatever the transport does. *)
Lemma confirm_booking_db (net : nat -> bool) (ADMIN_ID : option string)
    (uid : Z) (data : string) (text : option string) (now : string)
    (w : Admin.World) :
  Admin.w_db (Admin.exec
                (Admin.confirm_booking net ADMIN_ID uid data text now) w)
  = if prefix "confirm_" data && Admin.is_admin ADMIN_ID uid then
      match py_int (replace "confirm_" EmptyString data) with
      | Some i =>
          if in_int64 i then
            match get_booking (Admin.w_db w) i with
            | Some _ =>
                update_booking_status (Admin.w_db w) now i "confirmed" None
            | None => Admin.w_db w
            end
          else Admin.w_db w
      | None => Admin.w_db w
      end
    else Admin.w_db w.
Proof.
  unfold Admin.confirm_booking.
  destruct (prefix "confirm_" data); [|reflexivity].
  destruct (Admin.is_admin ADMIN_ID uid); [|reflexivity].
  cbn [negb andb]. rewrite (admin_lookup_db net) by admin_keeps.
  destruct (py_int _) as [i|]; [|reflexivity].
  destruct (in_int64 i); [|reflexivity].
  destruct (get_booking _ i) as [b|]; [|reflexivity].
  apply admin_update_then_keeps. admin_keeps.
Qed.

Lemma reject_booking_db (net : nat -> bool) (ADMIN_ID : option string)
    (uid : Z) (data : string) (text : option string) (now : string)
    (w : Admin.World) :
  Admin.w_db (Admin.exec
                (Admin.reject_booking net ADMIN_ID uid data text now) w)
  = if prefix "reject_" data && Admin.is_admin ADMIN_ID uid then
      match py_int (replace "reject_" EmptyString data) with
      | Some i =>
          if in_int64 i then
            match get_booking (Admin.w_db w) i with
            | Some _ =>
                update_booking_status (Admin.w_db w) now i "rejected" None
            | None => Admin.w_db w
            end
          else Admin.w_db w
      | None => Admin.w_db w
      end
    else Admin.w_db w.
Proof.
  unfold Admin.reject_booking.
  destruct (prefix "reject_" data); [|reflexivity].
  destruct (Admin.is_admin ADMIN_ID uid); [|reflexivity].
  cbn [negb andb]. rewrite (admin_lookup_db net) by admin_keeps.
  destruct (py_int _) as [i|]; [|reflexivity].
  destruct (in_int64 i); [|reflexivity].
  destruct (get_booking _ i) as [b|]; [|reflexivity].
  apply admin_update_then_keeps. admin_keeps.
Qed.

Lemma delete_confirm_db (net : nat -> bool) (ADMIN_ID : option string)
    (uid : Z) (data : string) (w : Admin.World) :
  Admin.w_db (Admin.exec (Admin.delete_confirm net ADMIN_ID uid data) w)
  = if prefix "delete_confirm_" data && Admin.is_admin ADMIN_ID uid then
      match py_int (replace "delete_confirm_" EmptyString data) with
      | Some i =>
          if in_int64 i then
            match get_booking (Admin.w_db w) i with
            | Some _ => snd (delete_booking (Admin.w_db w) i)
            | None => Admin.w_db w
            end
          else Admin.w_db w
      | None => Admin.w_db w
      end
    else Admin.w_db w.
Proof.
  unfold Admin.delete_confirm.
  destruct (prefix "delete_confirm_" data); [|reflexivity].
  destruct (Admin.is_admin ADMIN_ID uid); [|reflexivity].
  cbn [negb andb]. rewrite (admin_lookup_db net) by admin_keeps.
  destruct (py_int _) as [i|]; [|reflexivity].
  destruct (in_int64 i); [|reflexivity].
  destruct (get_booking _ i) as [b|]; [|reflexivity].
  unfold Admin.exec. unfold Admin.bind at 1, Admin.db_delete_booking.
  cbv zeta.
  match goal with
  | |- Admin.w_db (snd (?m ?w1)) = _ =>
      assert (Hk : admin_keeps_db m) by admin_keeps;
      rewrite (Hk w1)
  end.
  reflexivity.
Qed.

Lemma admin_delete_booking_db (net : nat -> bool)
    (ADMIN_ID : option string) (uid : Z) (data : string)
    (w : Admin.World) :
  Admin.w_db (Admin.exec (Admin.admin_delete_booking net ADMIN_ID uid data)
                         w)
  = Admin.w_db w.
Proof.
  unfold Admin.exec.
  assert (H : admin_keeps_db
                (Admin.admin_delete_booking net ADMIN_ID uid data)).
  { unfold Admin.admin_delete_booking. admin_keeps. }
  apply H.
Qed.

Lemma skipn_length_app {A} (l l' : list A) :
  skipn (List.length l) (l ++ l')%list = l'.
Proof. induction l as [|a l IH]; [reflexivity|exact IH]. Qed.

Lemma str_of_Z_not_None (n : Z) : (str_of_Z n =? "None")%string = false.
Proof.
  apply String.eqb_neq. unfold str_of_Z.
  destruct n as [|p|p]; cbn [Z.to_int NilZero.string_of_int].
  - discriminate.
  - destruct (Pos.to_uint p); discriminate.
  - discriminate.
Qed.

Lemma alert_refused (net : nat -> bool) (t : string) (w : Admin.World) :
  refused w (Admin.exec
               (Admin.transport net (Admin.callback_answer (Some t) true))
               w).
Proof.
  split; [reflexivity|].
  unfold Admin.calls_since, Admin.exec, Admin.transport.
  cbn [snd Admin.w_out]. rewrite skipn_length_app.
  intros c [<-|[]]. now exists t.
Qed.

Lemma nothing_refused (w : Admin.World) :
  refused w (Admin.exec (Admin.ret tt) w).
Proof.
  split; [reflexivity|].
  unfold Admin.calls_since, Admin.exec. cbn [snd Admin.ret].
  rewrite skipn_all. intros c [].
Qed.

Lemma not_admin (ADMIN_ID : option string) (uid : Z) :
  ADMIN_ID = None \/ Admin.is_admin ADMIN_ID uid = false ->
  Admin.is_admin ADMIN_ID uid = false.
Proof.
  intros [->|H]; [|exact H]. apply str_of_Z_not_None.
Qed.

(** X21.  Only the administrator gets past the buttons.  A caller whose id
    does not read as [ADMIN_ID], and every caller when [ADMIN_ID] is not
    set, is refused by all four handlers: the store stays as it was and
    the only transport call, if any, is an alert to the caller. *)
Theorem admin_buttons_refuse_others :
  forall net ADMIN_ID uid data text now w,
    ADMIN_ID = None \/ Admin.is_admin ADMIN_ID uid = false ->
    refused w (Admin.exec
                 (Admin.confirm_booking net ADMIN_ID uid data text now) w)
    /\ refused w (Admin.exec
                    (Admin.reject_booking net ADMIN_ID uid data text now) w)
    /\ refused w (Admin.exec
                    (Admin.admin_delete_booking net ADMIN_ID uid data) w)
    /\ refused w (Admin.exec
                    (Admin.delete_confirm net ADMIN_ID uid data) w).
Proof.
  intros net ADMIN_ID uid data text now w H. apply not_admin in H.
  unfold Admin.confirm_booking, Admin.reject_booking,
    Admin.admin_delete_booking, Admin.delete_confirm.
  rewrite H. cbn [negb].
  repeat split;
    match goal with
    | |- context [if ?c then _ else _] => destruct c
    end;
    first [apply nothing_refused | apply alert_refused].
Qed.

Lemma admin_buttons_refuse_witness :
  Admin.w_db (Admin.exec
                (Admin.delete_confirm net_up (Some "777") 42
                   "delete_confirm_1") admin_studio)
  = studio_db.
Proof.
  apply (admin_buttons_refuse_others net_up (Some "777") 42
           "delete_confirm_1" None EmptyString admin_studio
           (or_intror eq_refl)).
Defined.

Lemma set_status_lookup (db : Database) (now : string) (i : Z)
    (st : string) :
  get_booking (update_booking_status db now i st None) i
  = option_map (set_status st now) (get_booking db i)
  /\ forall j, j <> i ->
       get_booking (update_booking_status db now i st None) j
       = get_booking db j.
Proof. apply update_where_id_lookup. reflexivity. Qed.

Lemma delete_lookup (db : Database) (i : Z) :
  get_booking (snd (delete_booking db i)) i = None
  /\ forall j, j <> i ->
       get_booking (snd (delete_booking db i)) j = get_booking db j.
Proof.
  split.
  - apply get_booking_none. intros b Hb.
    now apply delete_booking_rows in Hb.
  - intros j Hj. unfold get_booking, delete_booking. cbn [snd rows].
    apply find_filter_other. intros b E. apply Z.eqb_eq in E.
    apply negb_true_iff, Z.eqb_neq. congruence.
Qed.











(* ----------------------------------------------------------------- *)
(** *** From a button to its booking *)

Lemma int_digits_uint (d : Decimal.uint) (acc : Z) :
  int_digits (NilEmpty.string_of_uint d) acc true = Some (uint_value d acc).
Proof.
  revert acc. induction d; intros acc;
    cbn [NilEmpty.string_of_uint int_digits uint_value];
    try reflexivity;
    match goal with
    | |- context [is_digit ?c] => change (is_digit c) with true
    end; cbv iota;
    match goal with
    | |- context [digit_val ?c] =>
        let v := eval vm_compute in (digit_val c) in
        change (digit_val c) with v
    end; rewrite ?Z.add_0_r; apply IHd.
Qed.

Lemma int_digits_uint_start (d : Decimal.uint) :
  d <> Decimal.Nil ->
  int_digits (NilEmpty.string_of_uint d) 0 false = Some (uint_value d 0).
Proof.
  intros Hd. destruct d; [contradiction|..];
    cbn [NilEmpty.string_of_uint int_digits uint_value];
    match goal with
    | |- context [is_digit ?c] => change (is_digit c) with true
    end; cbv iota;
    match goal with
    | |- context [digit_val ?c] =>
        let v := eval vm_compute in (digit_val c) in
        change (digit_val c) with v
    end; rewrite ?Z.add_0_r; apply int_digits_uint.
Qed.

Lemma uint_value_acc (d : Decimal.uint) (p : positive) :
  Z.pos (Pos.of_uint_acc d p) = uint_value d (Z.pos p).
Proof.
  revert p. induction d; intros p; cbn [Pos.of_uint_acc uint_value];
    try reflexivity; rewrite IHd; f_equal; lia.
Qed.

Lemma uint_value_of_uint (d : Decimal.uint) :
  Z.of_N (Pos.of_uint d) = uint_value d 0.
Proof.
  induction d; cbn [Pos.of_uint uint_value Z.of_N]; try reflexivity;
    try exact IHd; apply uint_value_acc.
Qed.

Lemma uint_value_to_uint (p : positive) :
  uint_value (Pos.to_uint p) 0 = Z.pos p.
Proof.
  rewrite <- uint_value_of_uint, DecimalPos.Unsigned.of_to. reflexivity.
Qed.

Lemma digits_of_uint (d : Decimal.uint) :
  all_chars is_digit (NilEmpty.string_of_uint d) = true.
Proof.
  induction d; cbn [NilEmpty.string_of_uint all_chars]; try reflexivity;
    rewrite IHd; reflexivity.
Qed.

Lemma all_chars_impl (p q : ascii -> bool) (s : string) :
  (forall c, p c = true -> q c = true) ->
  all_chars p s = true -> all_chars q s = true.
Proof.
  intros H. induction s as [|c r IH]; cbn [all_chars]; [reflexivity|].
  intros E. apply andb_true_iff in E. destruct E as [E1 E2].
  now rewrite (H c E1), IH.
Qed.

Lemma digit_not_space (c : ascii) : is_digit c = true -> is_space c = false.
Proof.
  unfold is_digit, is_space. cbv zeta.
  set (n := nat_of_ascii c). clearbody n. intros H.
  apply andb_true_iff in H. destruct H as [H1 H2].
  apply Nat.leb_le in H1. apply Nat.leb_le in H2.
  apply orb_false_iff. split; apply andb_false_iff.
  - right. apply Nat.leb_gt. lia.
  - right. apply Nat.leb_gt. lia.
Qed.

Lemma lstrip_no_space (s : string) :
  all_chars (fun c => negb (is_space c)) s = true -> lstrip s = s.
Proof.
  destruct s as [|c r]; cbn [all_chars lstrip]; [reflexivity|].
  intros E. apply andb_true_iff in E. destruct E as [E _].
  apply negb_true_iff in E. now rewrite E.
Qed.

Lemma rstrip_no_space (s : string) :
  all_chars (fun c => negb (is_space c)) s = true -> rstrip s = s.
Proof.
  induction s as [|c r IH]; cbn [all_chars rstrip]; [reflexivity|].
  intros E. apply andb_true_iff in E. destruct E as [E1 E2].
  apply negb_true_iff in E1. rewrite (IH E2), E1. now destruct r.
Qed.

Lemma strip_digits (d : Decimal.uint) :
  strip (NilEmpty.string_of_uint d) = NilEmpty.string_of_uint d.
Proof.
  assert (H : all_chars (fun c => negb (is_space c))
                (NilEmpty.string_of_uint d) = true).
  { apply (all_chars_impl is_digit); [|apply digits_of_uint].
    intros c Hc. now rewrite (digit_not_space c Hc). }
  unfold strip. now rewrite (lstrip_no_space _ H), (rstrip_no_space _ H).
Qed.

(** [int(str(n))] is [n]. *)
Lemma py_int_str_of_Z (n : Z) : py_int (str_of_Z n) = Some n.
Proof.
  unfold str_of_Z. destruct n as [|p|p]; [reflexivity|..];
    cbn [Z.to_int NilZero.string_of_int];
    pose proof (DecimalPos.Unsigned.to_uint_nonnil p) as Hn;
    pose proof (uint_value_to_uint p) as Hv;
    pose proof (int_digits_uint_start (Pos.to_uint p) Hn) as Hd;
    pose proof (strip_digits (Pos.to_uint p)) as Hs;
    unfold NilZero.string_of_uint.
  - unfold py_int. destruct (Pos.to_uint p); [contradiction|..];
      rewrite Hs; cbn [NilEmpty.string_of_uint] in *;
      rewrite Hd, Hv; reflexivity.
  - unfold py_int, strip in *.
    assert (Hl : forall s, lstrip (String "-" s) = String "-" s)
      by reflexivity.
    rewrite Hl.
    assert (Hr : forall s, rstrip s = s ->
                           rstrip (String "-" s) = String "-" s).
    { intros s E. cbn [rstrip]. rewrite E. now destruct s. }
    destruct (Pos.to_uint p); [contradiction|..];
      (rewrite Hr;
       [rewrite Hd, Hv; reflexivity
       | rewrite <- Hs at 2;
         rewrite lstrip_no_space; [reflexivity|];
         apply (all_chars_impl is_digit); [|apply digits_of_uint];
         intros c Hc; now rewrite (digit_not_space c Hc)]).
Qed.

(** The characters of [str(n)] are digits and the sign. *)
Lemma str_of_Z_chars (n : Z) :
  all_chars (fun c => is_digit c || Ascii.eqb c "-") (str_of_Z n) = true.
Proof.
  assert (H : forall d,
             all_chars (fun c => is_digit c || Ascii.eqb c "-")
               (NilZero.string_of_uint d) = true).
  { intros d. unfold NilZero.string_of_uint.
    destruct d; try reflexivity;
      (apply (all_chars_impl is_digit);
       [intros c Hc; now rewrite Hc | apply digits_of_uint]). }
  unfold str_of_Z. destruct n as [|p|p]; [reflexivity|apply H|].
  cbn [Z.to_int NilZero.string_of_int all_chars]. now rewrite H.
Qed.

(** A string in which the first character of [old] does not occur is
    left alone by [replace]. *)
Lemma replace_absent (c0 : ascii) (old new s : string) :
  all_chars (fun c => negb (Ascii.eqb c c0)) s = true ->
  replace_from (String c0 old) new 0 s = s.
Proof.
  induction s as [|c r IH]; cbn [all_chars replace_from prefix];
    [reflexivity|].
  intros E. apply andb_true_iff in E. destruct E as [E1 E2].
  apply negb_true_iff, Ascii.eqb_neq in E1.
  destruct (ascii_dec c0 c) as [->|_]; [contradiction|].
  now rewrite (IH E2).
Qed.

Lemma str_of_Z_without (c0 : ascii) (n : Z) :
  is_digit c0 || Ascii.eqb c0 "-" = false ->
  all_chars (fun c => negb (Ascii.eqb c c0)) (str_of_Z n) = true.
Proof.
  intros H.
  apply (all_chars_impl (fun c => is_digit c || Ascii.eqb c "-"));
    [|apply str_of_Z_chars].
  intros c Hc. apply negb_true_iff.
  destruct (Ascii.eqb c c0) eqn:E; [|reflexivity].
  apply Ascii.eqb_eq in E. subst c. congruence.
Qed.

(** The id that a handler reads off the callback data of a button made
    for booking [n] is [n]. *)
Lemma button_id_round_trip (n : Z) :
  py_int (replace "confirm_" EmptyString ("confirm_" ++ str_of_Z n))
  = Some n
  /\ py_int (replace "reject_" EmptyString ("reject_" ++ str_of_Z n))
     = Some n
  /\ py_int (replace "delete_confirm_" EmptyString
               ("delete_confirm_" ++ str_of_Z n))
     = Some n.
Proof.
  pose proof (str_of_Z_without "c" n eq_refl) as Hc.
  pose proof (str_of_Z_without "r" n eq_refl) as Hr.
  pose proof (str_of_Z_without "d" n eq_refl) as Hd.
  rewrite <- (py_int_str_of_Z n).
  set (s := str_of_Z n) in *. clearbody s.
  assert (Hnil : prefix EmptyString s = true) by now destruct s.
  unfold replace. repeat split; f_equal;
    cbn [append replace_from prefix String.length Nat.sub];
    repeat match goal with
           | |- context [ascii_dec ?a ?b] =>
               let v := eval vm_compute in (ascii_dec a b) in
               change (ascii_dec a b) with v; cbv iota
           end;
    rewrite Hnil; now apply replace_absent.
Qed.

Lemma prefix_app (p s : string) : prefix p (p ++ s) = true.
Proof.
  induction p as [|a p IH]; cbn [append prefix]; [now destruct s|].
  destruct (ascii_dec a a); [exact IH|contradiction].
Qed.

(** X26.  A button reaches the booking it was made for.  The callback
    data that [process_booking] and [get_delete_confirmation_keyboard]
    write for booking [i] are read back as [i], for every id, negative
    ones included: pressed by the administrator while the booking exists,
    the first button of the request confirms it, the second rejects it,
    and the first button of the delete question removes it. *)
Theorem buttons_reach_their_booking :
  forall net ADMIN_ID uid text now w i b,
    Admin.is_admin ADMIN_ID uid = true ->
    in_int64 i = true ->
    get_booking (Admin.w_db w) i = Some b ->
    (exists yes no,
        admin_keyboard i = [yes; no]
        /\ get_booking
             (Admin.w_db
                (Admin.exec
                   (Admin.confirm_booking net ADMIN_ID uid
                      (button_callback_data yes) text now) w)) i
           = Some (set_status "confirmed" now b)
        /\ get_booking
             (Admin.w_db
                (Admin.exec
                   (Admin.reject_booking net ADMIN_ID uid
                      (button_callback_data no) text now) w)) i
           = Some (set_status "rejected" now b))
    /\ (exists yes no,
          get_delete_confirmation_keyboard i = [yes; no]
          /\ get_booking
               (Admin.w_db
                  (Admin.exec
                     (Admin.delete_confirm net ADMIN_ID uid
                        (button_callback_data yes)) w)) i
             = None).
Proof.
  intros net ADMIN_ID uid text now w i b Ha Hr Hb.
  destruct (button_id_round_trip i) as (Ic & Ir & Id).
  split; do 2 eexists; (split; [reflexivity|]);
    cbn [button_callback_data].
  - rewrite confirm_booking_db, reject_booking_db, !prefix_app, Ha, Ic, Ir,
      Hr, Hb.
    cbn [andb].
    rewrite (proj1 (set_status_lookup _ now i "confirmed")),
      (proj1 (set_status_lookup _ now i "rejected")), Hb.
    split; reflexivity.
  - rewrite delete_confirm_db, prefix_app, Ha, Id, Hr, Hb. cbn [andb].
    apply delete_lookup.
Qed.

Lemma buttons_reach_witness :
  exists yes no,
    get_delete_confirmation_keyboard 1 = [yes; no]
    /\ get_booking
         (Admin.w_db
            (Admin.exec
               (Admin.delete_confirm net_up (Some "777") 777
                  (button_callback_data yes)) admin_studio)) 1
       = None.
Proof.
  apply (buttons_reach_their_booking net_up (Some "777") 777 None
           "2025-03-12 10:00:00" admin_studio 1 anna
           eq_refl eq_refl eq_refl).
Defined.

(* ================================================================= *)
(** ** The filtered queries *)

Lemma compare_as_OT (a b : string) :
  (a ?= b)%string = OrdersEx.String_as_OT.compare a b.
Proof.
  revert b. induction a as [|x a IH]; intros [|y b]; reflexivity.
Qed.

Lemma string_lt_trans (a b c : string) :
  (a ?= b)%string = Lt -> (b ?= c)%string = Lt -> (a ?= c)%string = Lt.
Proof.
  rewrite !compare_as_OT.
  apply (@StrictOrder_Transitive _ _ OrdersEx.String_as_OT.lt_strorder).
Qed.

Lemma string_compare_eq (a b : string) : (a ?= b)%string = Eq <-> a = b.
Proof.
  split; [apply String.compare_eq_iff|].
  intros ->. rewrite compare_as_OT.
  destruct (OrdersEx.String_as_OT.compare_spec b b) as [_|H|H];
    [reflexivity|..];
    now apply (@StrictOrder_Irreflexive _ _
                 OrdersEx.String_as_OT.lt_strorder) in H.
Qed.

Lemma string_compare_gt (a b : string) :
  (a ?= b)%string = Gt <-> (b ?= a)%string = Lt.
Proof.
  rewrite (String.compare_antisym b a).
  destruct (a ?= b)%string; cbn; split; congruence.
Qed.

Lemma string_leb_iff (a b : string) :
  (a <=? b)%string = true <-> a = b \/ (a ?= b)%string = Lt.
Proof.
  unfold String.leb. rewrite <- string_compare_eq.
  destruct (a ?= b)%string; split; intros H; try discriminate; auto;
    destruct H; discriminate.
Qed.

Lemma string_leb_false (a b : string) :
  (a <=? b)%string = false <-> (b ?= a)%string = Lt.
Proof.
  rewrite <- string_compare_gt. unfold String.leb.
  destruct (a ?= b)%string; split; congruence.
Qed.

Lemma string_ltb_iff (a b : string) :
  (a <? b)%string = true <-> (a ?= b)%string = Lt.
Proof.
  unfold String.ltb. destruct (a ?= b)%string; split; congruence.
Qed.

Lemma string_leb_trans (a b c : string) :
  (a <=? b)%string = true -> (b <=? c)%string = true ->
  (a <=? c)%string = true.
Proof.
  rewrite !string_leb_iff. intros [->|H1] [->|H2]; auto.
  right. now apply (string_lt_trans a b c).
Qed.

Lemma by_date_time_iff (a b : Booking) :
  by_date_time a b = true
  <-> (selected_date a ?= selected_date b)%string = Lt
      \/ (selected_date a = selected_date b
          /\ (selected_time a <=? selected_time b)%string = true).
Proof.
  unfold by_date_time.
  rewrite orb_true_iff, andb_true_iff, string_ltb_iff, String.eqb_eq.
  reflexivity.
Qed.

Lemma by_date_time_trans (a b c : Booking) :
  by_date_time a b = true -> by_date_time b c = true ->
  by_date_time a c = true.
Proof.
  rewrite !by_date_time_iff.
  intros [H1|[E1 T1]] [H2|[E2 T2]].
  - left. now apply (string_lt_trans _ (selected_date b)).
  - left. now rewrite <- E2.
  - left. now rewrite E1.
  - right. split; [congruence|].
    now apply (string_leb_trans _ (selected_time b)).
Qed.

Lemma by_date_time_total (a b : Booking) :
  by_date_time a b = false -> by_date_time b a = true.
Proof.
  intros H. apply by_date_time_iff.
  unfold by_date_time in H. apply orb_false_iff in H.
  destruct H as [H1 H2].
  destruct (selected_date a ?= selected_date b)%string eqn:E.
  - apply string_compare_eq in E. right. split; [congruence|].
    rewrite E, String.eqb_refl in H2. cbn [andb] in H2.
    apply string_leb_false in H2. apply string_leb_iff. now right.
  - unfold String.ltb in H1. now rewrite E in H1.
  - left. now apply string_compare_gt.
Qed.

Lemma newest_first_sorted (l : list Booking) :
  StronglySorted (fun a b => (created_at b <=? created_at a)%string = true)
    (order_by by_created_desc l).
Proof.
  apply order_by_sorted.
  - intros a b c H1 H2. now apply (string_leb_trans _ (created_at b)).
  - intros a b H. exact H.
  - intros a b H. unfold by_created_desc in H.
    destruct (String.leb_total (created_at a) (created_at b)); congruence.
Qed.

Lemma filtered_query (le : Booking -> Booking -> bool)
    (p : Booking -> bool) (l : list Booking) (b : Booking) :
  In b (order_by le (filter p l)) <-> In b l /\ p b = true.
Proof. now rewrite order_by_In, filter_In. Qed.

(** X27.  The three filtered queries return exactly the matching rows,
    each as often as the table holds it, in the order they ask for:
    [get_pending_bookings] the pending rows and [get_user_bookings] the
    rows of the user, both with no row created later than a row before
    it; [get_confirmed_bookings] the confirmed rows, with no row dated
    before a row that precedes it, nor at an earlier time on the same
    date.  Dates and times are compared as texts. *)
Theorem filtered_queries_exact_and_ordered :
  forall db uid,
    in_int64 uid = true ->
    ((forall b, In b (get_pending_bookings db)
                <-> In b (rows db) /\ status b = "pending")
     /\ List.length (get_pending_bookings db)
        = List.length (filter (fun b => (status b =? "pending")%string)
                              (rows db))
     /\ StronglySorted
          (fun a b => (created_at b <=? created_at a)%string = true)
          (get_pending_bookings db))
    /\ ((forall b, In b (get_confirmed_bookings db)
                   <-> In b (rows db) /\ status b = "confirmed")
        /\ List.length (get_confirmed_bookings db)
           = List.length (filter (fun b => (status b =? "confirmed")%string)
                                 (rows db))
        /\ StronglySorted
             (fun a b =>
                (selected_date a ?= selected_date b)%string = Lt
                \/ (selected_date a = selected_date b
                    /\ (selected_time a <=? selected_time b)%string = true))
             (get_confirmed_bookings db))
    /\ ((forall b, In b (get_user_bookings db uid)
                   <-> In b (rows db) /\ user_id b = uid)
        /\ List.length (get_user_bookings db uid)
           = List.length (filter (fun b => user_id b =? uid) (rows db))
        /\ StronglySorted
             (fun a b => (created_at b <=? created_at a)%string = true)
             (get_user_bookings db uid)).
Proof.
  intros db uid _.
  unfold get_pending_bookings, get_confirmed_bookings, get_user_bookings.
  split; [|split];
    (split;
     [intros b;
      rewrite filtered_query, ?String.eqb_eq, ?Z.eqb_eq; reflexivity
     |split; [apply Permutation_length, order_by_perm|]]);
    try apply newest_first_sorted.
  apply order_by_sorted.
  - intros a b c H1 H2. apply by_date_time_iff.
    apply (by_date_time_trans a b c); now apply by_date_time_iff.
  - intros a b H. now apply by_date_time_iff.
  - intros a b H. now apply by_date_time_iff, by_date_time_total.
Qed.

Lemma filtered_queries_witness :
  (forall b, In b (get_user_bookings studio_db 42)
             <-> In b (rows studio_db) /\ user_id b = 42)
  /\ List.length (get_user_bookings studio_db 42) = 1%nat.
Proof.
  destruct (filtered_queries_exact_and_ordered studio_db 42 eq_refl)
    as (_ & _ & H1 & H2 & _).
  split; [exact H1 | exact H2].
Defined.

(* ================================================================= *)
(** ** A booking followed through successive passes, in any table *)














